(** * Excel deduplicator: a shallow embedding of [main.py]

    The development follows the source file top to bottom.

    - [Py]: the fragment of Python the program relies on: [str] methods,
      the [re] module (a backtracking matcher with Python's priorities),
      [float] (IEEE-754 binary64, modelled exactly with integers), [str()]
      and [format].
    - [Pd]: the fragment of pandas the program relies on: a [DataFrame] is
      a list of column labels and a list of rows.
    - the program itself: [FileStats], [SameDomainFiles], [Columns] and the
      methods of [Deduplicator], under the names they have in the source.

    Conventions.  Text is 7-bit ASCII: characters above 127 are carried
    along but belong to no character category.  A missing value is the
    float [NaN] (as pandas readers produce it) or [None].  The operations
    on tables are those of pandas on tables whose column labels are all
    different, which is what the readers give.  Calls of [logger.info]
    change nothing that the program reads again and are left out, apart
    from an argument whose evaluation can raise; [logger.error] ends the
    process and is modelled.  Exceptions are values of [exn]; a call that
    may raise returns a [result]. *)

From Stdlib Require Import List String Ascii ZArith Bool Arith Lia Permutation.
Import ListNotations.

Local Open Scope string_scope.
Local Open Scope bool_scope.

(* ===================================================================== *)
(** * Exceptions *)
(* ===================================================================== *)

Inductive exn : Type :=
| TypeError (msg : string)
| ValueError (msg : string)
| KeyError (key : string)
| AttributeError (msg : string)
| UnboundLocalError (name : string)
| OverflowError (msg : string)
| OSError (msg : string)
| SystemExit (status : Z).

Inductive result (A : Type) : Type :=
| Ok (a : A)
| Raise (e : exn).

Arguments Ok {A} a.
Arguments Raise {A} e.

Definition bind {A B : Type} (r : result A) (f : A -> result B) : result B :=
  match r with
  | Ok a => f a
  | Raise e => Raise e
  end.

Declare Scope py_scope.
Delimit Scope py_scope with py.
Notation "x <- c ;; k" := (bind c (fun x => k))
  (at level 61, c at next level, right associativity) : py_scope.

Local Open Scope py_scope.

(** [[f(x) for x in xs]] where [f] may raise: the first exception wins. *)
Fixpoint mapM {A B : Type} (f : A -> result B) (xs : list A) : result (list B) :=
  match xs with
  | [] => Ok []
  | x :: xs' =>
      y <- f x ;;
      ys <- mapM f xs' ;;
      Ok (y :: ys)
  end.

(* ===================================================================== *)
(** * Python *)
(* ===================================================================== *)

Module Py.

(** ** Characters *)

Definition ord (c : ascii) : nat := nat_of_ascii c.
Definition chr (n : nat) : ascii := ascii_of_nat n.

Definition between (lo hi : nat) (c : ascii) : bool :=
  ((lo <=? ord c) && (ord c <=? hi))%nat.

Definition isdigit (c : ascii) : bool := between 48 57 c.
Definition isupper (c : ascii) : bool := between 65 90 c.
Definition islower (c : ascii) : bool := between 97 122 c.
Definition isalnum (c : ascii) : bool := isdigit c || isupper c || islower c.

(** [str.isspace] on ASCII: tab, LF, VT, FF, CR, FS, GS, RS, US, space. *)
Definition isspace (c : ascii) : bool := between 9 13 c || between 28 32 c.

Definition lower (c : ascii) : ascii :=
  if isupper c then chr (ord c + 32) else c.
Definition upper (c : ascii) : ascii :=
  if islower c then chr (ord c - 32) else c.

Definition digit_val (c : ascii) : Z := Z.of_nat (ord c - 48).
Definition digit_chr (d : Z) : ascii := chr (48 + Z.to_nat d).

(** ** [str] methods *)

Fixpoint str_lower (s : string) : string :=
  match s with
  | EmptyString => EmptyString
  | String c s' => String (lower c) (str_lower s')
  end.

Fixpoint mem (c : ascii) (chars : string) : bool :=
  match chars with
  | EmptyString => false
  | String d chars' => Ascii.eqb c d || mem c chars'
  end.

Fixpoint lstrip_by (p : ascii -> bool) (s : string) : string :=
  match s with
  | EmptyString => EmptyString
  | String c s' => if p c then lstrip_by p s' else s
  end.

Fixpoint rstrip_by (p : ascii -> bool) (s : string) : string :=
  match s with
  | EmptyString => EmptyString
  | String c s' =>
      match rstrip_by p s' with
      | EmptyString => if p c then EmptyString else String c EmptyString
      | r => String c r
      end
  end.

(** [s.strip()] *)
Definition strip (s : string) : string := rstrip_by isspace (lstrip_by isspace s).

(** [s.strip(chars)] *)
Definition strip_chars (chars s : string) : string :=
  rstrip_by (fun c => mem c chars) (lstrip_by (fun c => mem c chars) s).

(** [s.replace(old, new)] for a non-empty [old]: occurrences are found
    from the left and do not overlap.  [skip] counts the characters of a
    replaced occurrence that are still to be passed over. *)
Fixpoint replace_from (old new : string) (skip : nat) (s : string) : string :=
  match s with
  | EmptyString => EmptyString
  | String c s' =>
      match skip with
      | S k => replace_from old new k s'
      | O =>
          if prefix old s
          then new ++ replace_from old new (String.length old - 1) s'
          else String c (replace_from old new 0 s')
      end
  end.

Definition replace (old new s : string) : string := replace_from old new 0 s.

Fixpoint rev_string (acc s : string) : string :=
  match s with
  | EmptyString => acc
  | String c s' => rev_string (String c acc) s'
  end.

(** [s.split(sep)] for a non-empty [sep]; [cur] is the current piece,
    reversed. *)
Fixpoint split_from (sep : string) (skip : nat) (cur : string) (s : string)
  : list string :=
  match s with
  | EmptyString => [rev_string EmptyString cur]
  | String c s' =>
      match skip with
      | S k => split_from sep k cur s'
      | O =>
          if prefix sep s
          then rev_string EmptyString cur
                 :: split_from sep (String.length sep - 1) EmptyString s'
          else split_from sep 0 (String c cur) s'
      end
  end.

Definition split (sep s : string) : result (list string) :=
  match sep with
  | EmptyString => Raise (ValueError "empty separator")
  | _ => Ok (split_from sep 0 EmptyString s)
  end.

(** [repr(s)] for text: single quotes, or double quotes when [s] holds a
    single quote and no double quote; the quote in use and the backslash
    are escaped, tab, LF and CR are written [\t], [\n], [\r], and any
    other control character [\xNN]. *)
Definition single_quote : ascii := chr 39.
Definition double_quote : ascii := chr 34.
Definition backslash : ascii := chr 92.

Definition hex_digit (n : nat) : ascii :=
  if (n <? 10)%nat then chr (48 + n) else chr (87 + n).

Definition repr_chr (quote c : ascii) : string :=
  if Ascii.eqb c quote || Ascii.eqb c backslash then String backslash (String c EmptyString)
  else if Ascii.eqb c (chr 9) then String backslash "t"
  else if Ascii.eqb c (chr 10) then String backslash "n"
  else if Ascii.eqb c (chr 13) then String backslash "r"
  else if ((ord c <? 32) || (ord c =? 127))%nat then
    String backslash
      (String "x" (String (hex_digit (ord c / 16)) (String (hex_digit (ord c mod 16))
                                                     EmptyString)))
  else String c EmptyString.

Fixpoint repr_body (quote : ascii) (s : string) : string :=
  match s with
  | EmptyString => EmptyString
  | String c s' => repr_chr quote c ++ repr_body quote s'
  end.

Definition repr_str (s : string) : string :=
  let quote := if mem single_quote s && negb (mem double_quote s)
               then double_quote else single_quote in
  String quote (repr_body quote s ++ String quote EmptyString).

(** ** The [re] module

    Patterns are written as syntax trees; every pattern of the source is
    given below next to its text.  The matcher tries alternatives in
    Python's order: leftmost start, greedy repetition, left alternative
    first, backtracking into earlier choices on failure. *)

Inductive regex : Type :=
| Empty                                  (* the empty pattern *)
| Lit (c : ascii)                        (* a literal character *)
| Dot                                    (* [.]: anything but a newline *)
| OneOf (p : ascii -> bool)              (* [[...]], [\d], [\w], [\s] *)
| Cat (r1 r2 : regex)                    (* r1 r2 *)
| Or (r1 r2 : regex)                     (* r1|r2 *)
| Star (r : regex)                       (* r*, greedy *)
| Group (n : nat) (r : regex)            (* (r), numbered *)
| NotAhead (r : regex)                   (* (?!r) *)
| Eos.                                   (* [$] *)

Definition Plus (r : regex) : regex := Cat r (Star r).
Definition Opt (r : regex) : regex := Or r Empty.

Fixpoint Word (s : string) : regex :=
  match s with
  | EmptyString => Empty
  | String c s' => Cat (Lit c) (Word s')
  end.

(** A position in the subject: what is left of it, how much has been
    consumed, and the spans of the groups closed so far. *)
Record cursor : Type := {
  rest : string;
  pos : nat;
  spans : list (nat * (nat * nat))
}.

Definition step (cu : cursor) (s' : string) : cursor :=
  {| rest := s'; pos := S (pos cu); spans := spans cu |}.

Definition close_group (n start : nat) (cu : cursor) : cursor :=
  {| rest := rest cu; pos := pos cu; spans := (n, (start, pos cu)) :: spans cu |}.

(** With [re.I] a literal matches either case, and a class matches a
    character when it holds the character or its other case. *)
Definition lit_matches (ignorecase : bool) (a c : ascii) : bool :=
  if ignorecase then Ascii.eqb (lower a) (lower c) else Ascii.eqb a c.

Definition class_matches (ignorecase : bool) (p : ascii -> bool) (c : ascii) : bool :=
  if ignorecase then p c || p (lower c) || p (upper c) else p c.

Definition newline : ascii := chr 10.

(** [$] without [re.M]: at the end, or just before a final newline. *)
Definition at_end (s : string) : bool :=
  match s with
  | EmptyString => true
  | String c EmptyString => Ascii.eqb c newline
  | _ => false
  end.

Definition one (ok : ascii -> bool) (cu : cursor) (k : cursor -> option cursor)
  : option cursor :=
  match rest cu with
  | String c s' => if ok c then k (step cu s') else None
  | EmptyString => None
  end.

Definition orelse {A : Type} (a b : option A) : option A :=
  match a with
  | Some _ => a
  | None => b
  end.

(** [exec i r cu k]: match [r] at [cu], then continue with [k]; the first
    way that makes [k] succeed is the result.  A repetition never runs its
    body on an empty match, so it needs at most one round per character
    left. *)
Fixpoint exec (i : bool) (r : regex) (cu : cursor) (k : cursor -> option cursor)
  {struct r} : option cursor :=
  match r with
  | Empty => k cu
  | Lit a => one (lit_matches i a) cu k
  | Dot => one (fun c => negb (Ascii.eqb c newline)) cu k
  | OneOf p => one (class_matches i p) cu k
  | Cat r1 r2 => exec i r1 cu (fun cu' => exec i r2 cu' k)
  | Or r1 r2 => orelse (exec i r1 cu k) (exec i r2 cu k)
  | Star r1 =>
      (fix rounds (fuel : nat) (cu : cursor) {struct fuel} : option cursor :=
         match fuel with
         | O => k cu
         | S fuel' =>
             orelse
               (exec i r1 cu
                  (fun cu' => if (pos cu' =? pos cu)%nat then None else rounds fuel' cu'))
               (k cu)
         end) (String.length (rest cu)) cu
  | Group n r1 => exec i r1 cu (fun cu' => k (close_group n (pos cu) cu'))
  | NotAhead r1 =>
      match exec i r1 cu Some with
      | Some _ => None
      | None => k cu
      end
  | Eos => if at_end (rest cu) then k cu else None
  end.

(** A match object: the subject, the span of the whole match and the
    spans of its groups. *)
Record Match : Type := {
  subject : string;
  m_start : nat;
  m_end : nat;
  m_spans : list (nat * (nat * nat))
}.

Fixpoint search_from (i : bool) (r : regex) (whole s : string) (at_ : nat)
  : option Match :=
  match exec i r {| rest := s; pos := at_; spans := [] |} Some with
  | Some cu =>
      Some {| subject := whole; m_start := at_; m_end := pos cu; m_spans := spans cu |}
  | None =>
      match s with
      | EmptyString => None
      | String _ s' => search_from i r whole s' (S at_)
      end
  end.

(** [re.search(pattern, s)] and [re.search(pattern, s, re.I)] *)
Definition search (r : regex) (s : string) : option Match := search_from false r s s 0.
Definition search_I (r : regex) (s : string) : option Match := search_from true r s s 0.

Definition found (m : option Match) : bool :=
  match m with
  | Some _ => true
  | None => false
  end.

Fixpoint lookup_span (n : nat) (l : list (nat * (nat * nat))) : option (nat * nat) :=
  match l with
  | [] => None
  | (n', sp) :: l' => if (n =? n')%nat then Some sp else lookup_span n l'
  end.

(** [m.group()] *)
Definition group0 (m : Match) : string :=
  substring (m_start m) (m_end m - m_start m) (subject m).

(** [m.group(n)].  Python gives [None] for a group that took no part in
    the match; every group this program asks for takes part in every match
    of its pattern. *)
Definition group (n : nat) (m : Match) : string :=
  match lookup_span n (m_spans m) with
  | Some (a, b) => substring a (b - a) (subject m)
  | None => EmptyString
  end.

(** ** [float]

    A float is an IEEE-754 binary64 value.  A finite one is kept as a sign,
    a significand [0 <= m < 2^53] and an exponent [-1074 <= e <= 971] with
    value [m * 2^e]; conversions from and to decimal text are exact
    integer computations, rounded to nearest, ties to even, as CPython's
    are. *)

Local Open Scope Z_scope.

Inductive float : Type :=
| NaN
| Inf (negative : bool)
| Fin (negative : bool) (m e : Z).

Definition emin : Z := -1074.
Definition emax : Z := 971.

(** [num / den] rounded to the nearest integer, ties to even
    ([0 <= num], [0 < den]) *)
Definition div_half_even (num den : Z) : Z :=
  let q := num / den in
  let r := num mod den in
  if 2 * r <? den then q
  else if den <? 2 * r then q + 1
  else if Z.even q then q else q + 1.

(** the binary64 nearest to [num / den] ([0 <= num], [0 < den]) *)
Definition nearest (negative : bool) (num den : Z) : float :=
  if num =? 0 then Fin negative 0 emin
  else
    let l := Z.log2 num - Z.log2 den in
    let above := if 0 <=? l then den * 2 ^ l <=? num else den <=? num * 2 ^ (- l) in
    let top := if above then l else l - 1 in          (* floor (log2 (num/den)) *)
    let e := Z.max (top - 52) emin in
    let m := if 0 <=? e then div_half_even num (den * 2 ^ e)
             else div_half_even (num * 2 ^ (- e)) den in
    let e' := if m =? 2 ^ 53 then e + 1 else e in
    let m' := if m =? 2 ^ 53 then 2 ^ 52 else m in
    if emax <? e' then Inf negative else Fin negative m' e'.

(** [mant * 10^e10] as a float *)
Definition of_decimal (negative : bool) (mant e10 : Z) : float :=
  if mant =? 0 then Fin negative 0 emin
  else if 0 <=? e10 then nearest negative (mant * 10 ^ e10) 1
  else nearest negative mant (10 ^ (- e10)).

(** [float(n)] for an [int] *)
Definition float_of_int (n : Z) : result float :=
  match nearest (n <? 0) (Z.abs n) 1 with
  | Inf _ => Raise (OverflowError "int too large to convert to float")
  | x => Ok x
  end.

Definition float_eqb (x y : float) : bool :=
  match x, y with
  | Inf a, Inf b => Bool.eqb a b
  | Fin a m e, Fin b m' e' => Bool.eqb a b && (m =? m') && (e =? e')
  | _, _ => false
  end.

Definition is_zero (x : float) : bool :=
  match x with
  | Fin _ m _ => m =? 0
  | _ => false
  end.

Definition isnan (x : float) : bool :=
  match x with
  | NaN => true
  | _ => false
  end.

(** [x < y]; false when either is [NaN] *)
Definition float_ltb (x y : float) : bool :=
  match x, y with
  | NaN, _ | _, NaN => false
  | Inf true, Inf true => false
  | Inf true, _ => true
  | _, Inf true => false
  | Inf false, _ => false
  | _, Inf false => true
  | Fin a m e, Fin b m' e' =>
      let e0 := Z.min e e' in
      let v := (if a then -1 else 1) * m * 2 ^ (e - e0) in
      let v' := (if b then -1 else 1) * m' * 2 ^ (e' - e0) in
      v <? v'
  end.

(** *** Reading a float: [float(s)] *)

(** the rest of a [digitpart]: digits, each optionally preceded by one
    underscore; [n] counts the digits read *)
Fixpoint more_digits (s : string) (acc n : Z) : Z * Z * string :=
  match s with
  | EmptyString => (acc, n, s)
  | String c s' =>
      if isdigit c then more_digits s' (acc * 10 + digit_val c) (n + 1)
      else if Ascii.eqb c "_" then
        match s' with
        | EmptyString => (acc, n, s)
        | String d s'' =>
            if isdigit d then more_digits s'' (acc * 10 + digit_val d) (n + 1)
            else (acc, n, s)
        end
      else (acc, n, s)
  end.

(** [digitpart ::= digit (["_"] digit)*], read on top of [acc] *)
Definition digitpart (acc : Z) (s : string) : option (Z * Z * string) :=
  match s with
  | EmptyString => None
  | String c s' =>
      if isdigit c then Some (more_digits s' (acc * 10 + digit_val c) 1) else None
  end.

Definition sign_of (s : string) : bool * string :=
  match s with
  | String c s' =>
      if Ascii.eqb c "-" then (true, s')
      else if Ascii.eqb c "+" then (false, s')
      else (false, s)
  | EmptyString => (false, s)
  end.

(** what may follow the mantissa: nothing, or [("e"|"E") [sign] digitpart] *)
Definition exponent (s : string) : option Z :=
  match s with
  | EmptyString => Some 0
  | String c s' =>
      if Ascii.eqb (lower c) "e" then
        let (neg, s1) := sign_of s' in
        match digitpart 0 s1 with
        | Some (v, _, EmptyString) => Some (if neg then - v else v)
        | _ => None
        end
      else None
  end.

Definition after_point (s : string) : option string :=
  match s with
  | String c s' => if Ascii.eqb c "." then Some s' else None
  | EmptyString => None
  end.

(** [floatnumber]: the mantissa as an integer and the power of ten *)
Definition floatnumber (s : string) : option (Z * Z) :=
  match digitpart 0 s with
  | Some (ip, _, r) =>
      match after_point r with
      | Some r' =>
          match digitpart ip r' with
          | Some (mant, nf, r'') => option_map (fun e => (mant, e - nf)) (exponent r'')
          | None => option_map (fun e => (ip, e)) (exponent r')
          end
      | None => option_map (fun e => (ip, e)) (exponent r)
      end
  | None =>
      match after_point s with
      | Some r' =>
          match digitpart 0 r' with
          | Some (mant, nf, r'') => option_map (fun e => (mant, e - nf)) (exponent r'')
          | None => None
          end
      | None => None
      end
  end.

(** the white space that [float] skips at both ends of its argument:
    tab, LF, VT, FF, CR and the space (not FS, GS, RS, US, which
    [str.strip] removes) *)
Definition float_space (c : ascii) : bool := between 9 13 c || Ascii.eqb c " ".

Definition float_strip (s : string) : string :=
  rstrip_by float_space (lstrip_by float_space s).

Definition float_of_str (s : string) : result float :=
  let (neg, u) := sign_of (float_strip s) in
  let l := str_lower u in
  if String.eqb l "inf" || String.eqb l "infinity" then Ok (Inf neg)
  else if String.eqb l "nan" then Ok NaN
  else
    match floatnumber u with
    | Some (mant, e10) => Ok (of_decimal neg mant e10)
    | None => Raise (ValueError ("could not convert string to float: " ++ repr_str s))
    end.

(** *** Writing numbers *)

Fixpoint digits_from (fuel : nat) (n : Z) (acc : string) : string :=
  match fuel with
  | O => acc
  | S fuel' =>
      let acc' := String (digit_chr (n mod 10)) acc in
      if n <? 10 then acc' else digits_from fuel' (n / 10) acc'
  end.

(** the decimal digits of [0 <= n] *)
Definition decimal (n : Z) : string :=
  digits_from (S (Z.to_nat (Z.log2 n))) n EmptyString.

(** [str(n)] for an [int] *)
Definition str_of_int (n : Z) : string :=
  if n <? 0 then "-" ++ decimal (- n) else decimal n.

(** a comma before every group of three digits, counted from the right *)
Fixpoint commas (s : string) : string :=
  match s with
  | EmptyString => EmptyString
  | String c s' =>
      let n := String.length s' in
      String c (if ((0 <? n) && (n mod 3 =? 0))%nat then "," ++ commas s' else commas s')
  end.

(** [m * 2^e * 100] rounded to an integer, ties to even *)
Definition hundredths (m e : Z) : Z :=
  if 0 <=? e then m * 2 ^ e * 100 else div_half_even (m * 100) (2 ^ (- e)).

Definition two_digits (d : Z) : string :=
  String (digit_chr (d / 10)) (String (digit_chr (d mod 10)) EmptyString).

Definition sign_text (negative : bool) : string := if negative then "-" else "".

(** ["{:,.2f}".format(x)] *)
Definition format_comma_2f (x : float) : string :=
  match x with
  | NaN => "nan"
  | Inf neg => sign_text neg ++ "inf"
  | Fin neg m e =>
      let c := hundredths m e in
      sign_text neg ++ commas (decimal (c / 100)) ++ "." ++ two_digits (c mod 100)
  end.

(** *** [repr(x)]: the shortest digits that read back as [x] *)

(** [x = a / b] for a finite positive [x = m * 2^e] *)
Definition ratio (m e : Z) : Z * Z :=
  if 0 <=? e then (m * 2 ^ e, 1) else (m, 2 ^ (- e)).

Definition below_pow10 (a b d : Z) : bool :=
  if 0 <=? d then a <? b * 10 ^ d else a * 10 ^ (- d) <? b.

(** the least [d >= from] with [a / b < 10^d] *)
Fixpoint climb (fuel : nat) (a b from : Z) : Z :=
  match fuel with
  | O => from
  | S fuel' => if below_pow10 a b from then from else climb fuel' a b (from + 1)
  end.

(** the least [d] with [a / b < 10^d]: [log2 (a / b)] lies strictly
    between [l - 1] and [l + 1], and [log10 2] is a little under
    [30103 / 100000] *)
Definition decimal_point (a b : Z) : Z :=
  let l := Z.log2 a - Z.log2 b in
  climb 4 a b ((l - 1) * 30103 / 100000 - 1).

(** with [p] digits: the integer [c] and the power [k] with [c * 10^k]
    nearest to [x] among those that read back as [x], if any; else more
    digits *)
Fixpoint shortest (fuel : nat) (p : Z) (x : float) (a b d : Z) : Z * Z :=
  let k := d - p in
  let n := if 0 <=? k then a else a * 10 ^ (- k) in
  let den := if 0 <=? k then b * 10 ^ k else b in
  let lo := n / den in
  let r := n mod den in
  let ok_lo := float_eqb (of_decimal false lo k) x in
  let ok_hi := float_eqb (of_decimal false (lo + 1) k) x in
  let pick :=
    if ok_lo && ok_hi then Some (if 2 * r <=? den then lo else lo + 1)
    else if ok_lo then Some lo
    else if ok_hi then Some (lo + 1)
    else None in
  match pick, fuel with
  | Some c, _ => (c, k)
  | None, S fuel' => shortest fuel' (p + 1) x a b d
  | None, O => (lo, k)
  end.

Fixpoint zeros (n : nat) : string :=
  match n with
  | O => EmptyString
  | S n' => String "0" (zeros n')
  end.

Definition is_zero_chr (c : ascii) : bool := Ascii.eqb c "0".

(** the digits [ds] and the position [dp] of the point: [0.ds * 10^dp] *)
Definition repr_digits (ds : string) (dp : Z) : string :=
  let nd := Z.of_nat (String.length ds) in
  if (dp <=? -4) || (16 <? dp) then
    let x := dp - 1 in
    let mant :=
      match ds with
      | String c EmptyString => String c EmptyString
      | String c tl => String c ("." ++ tl)
      | EmptyString => EmptyString
      end in
    let ex := decimal (Z.abs x) in
    mant ++ "e" ++ (if x <? 0 then "-" else "+")
         ++ (if Z.abs x <? 10 then "0" ++ ex else ex)
  else if dp <=? 0 then "0." ++ zeros (Z.to_nat (- dp)) ++ ds
  else if nd <=? dp then ds ++ zeros (Z.to_nat (dp - nd)) ++ ".0"
  else substring 0 (Z.to_nat dp) ds ++ "."
         ++ substring (Z.to_nat dp) (Z.to_nat (nd - dp)) ds.

Definition repr_float (x : float) : string :=
  match x with
  | NaN => "nan"
  | Inf neg => sign_text neg ++ "inf"
  | Fin neg m e =>
      if m =? 0 then sign_text neg ++ "0.0"
      else
        let (a, b) := ratio m e in
        let d := decimal_point a b in
        let (c, k) := shortest 17 1 (Fin false m e) a b d in
        let all := decimal c in
        let ds := rstrip_by is_zero_chr all in
        sign_text neg ++ repr_digits ds (Z.of_nat (String.length all) + k)
  end.

Local Close Scope Z_scope.

End Py.

(* ===================================================================== *)
(** * pandas *)
(* ===================================================================== *)

Module Pd.

(** The value of one cell.  A reader gives text, integers and floats; a
    missing value is the float [NaN], and [None] where a Python function
    returned it. *)
Inductive cell : Type :=
| CNone
| CStr (s : string)
| CInt (n : Z)
| CFloat (x : Py.float).

(** [pd.isna(value)] *)
Definition isna (c : cell) : bool :=
  match c with
  | CNone => true
  | CFloat x => Py.isnan x
  | _ => false
  end.

(** [str(value)] *)
Definition str (c : cell) : string :=
  match c with
  | CNone => "None"
  | CStr s => s
  | CInt n => Py.str_of_int n
  | CFloat x => Py.repr_float x
  end.

(** [bool(value)], as [if value:] tests it *)
Definition truthy (c : cell) : bool :=
  match c with
  | CNone => false
  | CStr s => negb (String.eqb s "")
  | CInt n => negb (n =? 0)%Z
  | CFloat x => negb (Py.is_zero x)
  end.

(** Equality of two cells of one type, as a join compares keys.  Cells of
    different types are unequal here; pandas compares an integer key and a
    float key by value and refuses to join a text column with a numeric
    one, so the statements that tell which rows a join keeps take titles
    that are text (prices are text after [astype]). *)
Definition cell_eqb (a b : cell) : bool :=
  match a, b with
  | CNone, CNone => true
  | CStr s, CStr t => String.eqb s t
  | CInt n, CInt k => (n =? k)%Z
  | CFloat x, CFloat y => Py.float_eqb x y
  | _, _ => false
  end.

Definition row : Type := list cell.

(** A table: the column labels, and the rows in index order, each with
    one cell per column.  Readers give distinct labels, and the operations
    below are those of pandas on tables whose labels are distinct: a label
    names the first column that carries it.  (Where a label is carried by
    two columns, which [__rename_columns] can bring about, pandas hands
    out both columns at once; the statements leave such tables out.) *)
Record DataFrame : Type := {
  columns : list string;
  rows : list row
}.

(** [len(df)] *)
Definition len (df : DataFrame) : nat := List.length (rows df).

Fixpoint index (label : string) (labels : list string) : option nat :=
  match labels with
  | [] => None
  | l :: ls => if String.eqb l label then Some O else option_map S (index label ls)
  end.

(** the position of a label, or [KeyError] *)
Definition loc (label : string) (df : DataFrame) : result nat :=
  match index label (columns df) with
  | Some i => Ok i
  | None => Raise (KeyError label)
  end.

Definition get (i : nat) (r : row) : cell := nth i r CNone.

Fixpoint put (i : nat) (v : cell) (r : row) : row :=
  match r, i with
  | [], _ => []
  | _ :: r', O => v :: r'
  | c :: r', S j => c :: put j v r'
  end.

Fixpoint remove_at {A : Type} (i : nat) (l : list A) : list A :=
  match l, i with
  | [], _ => []
  | _ :: l', O => l'
  | x :: l', S j => x :: remove_at j l'
  end.

Definition with_rows (df : DataFrame) (rs : list row) : DataFrame :=
  {| columns := columns df; rows := rs |}.

(** [df[label] = df[label].apply(f)] *)
Definition apply (label : string) (f : cell -> result cell) (df : DataFrame)
  : result DataFrame :=
  i <- loc label df ;;
  rs <- mapM (fun r => v <- f (get i r) ;; Ok (put i v r)) (rows df) ;;
  Ok (with_rows df rs).

(** [df.loc[keep(df[label])]]: the rows whose cell under [label] passes *)
Definition where_ (i : nat) (keep : cell -> bool) (df : DataFrame) : DataFrame :=
  with_rows df (filter (fun r => keep (get i r)) (rows df)).

(** [df.dropna(subset=labels)] *)
Definition dropna (labels : list string) (df : DataFrame) : result DataFrame :=
  ixs <- mapM (fun l => loc l df) labels ;;
  Ok (with_rows df (filter (fun r => forallb (fun i => negb (isna (get i r))) ixs) (rows df))).

(** [df.astype({label: str})] *)
Definition astype_str (label : string) (df : DataFrame) : result DataFrame :=
  i <- loc label df ;;
  Ok (with_rows df (map (fun r => put i (CStr (str (get i r))) r) (rows df))).

(** A dict literal: a later entry for a key replaces an earlier one. *)
Fixpoint dict_get (d : list (string * string)) (k : string) : option string :=
  match d with
  | [] => None
  | (k', v) :: d' =>
      match dict_get d' k with
      | Some v' => Some v'
      | None => if String.eqb k k' then Some v else None
      end
  end.

(** [df.rename(columns=mapping)] *)
Definition rename (mapping : list (string * string)) (df : DataFrame) : DataFrame :=
  {| columns := map (fun l => match dict_get mapping l with
                              | Some l' => l'
                              | None => l
                              end) (columns df);
     rows := rows df |}.

(** [df.drop(columns=label)] *)
Definition drop (label : string) (df : DataFrame) : result DataFrame :=
  i <- loc label df ;;
  Ok {| columns := remove_at i (columns df); rows := map (remove_at i) (rows df) |}.

(** [df[label] = values]: in place when the label exists, else a new last
    column *)
Definition assign (label : string) (values : list cell) (df : DataFrame) : DataFrame :=
  match index label (columns df) with
  | Some i => with_rows df (map (fun rv => put i (snd rv) (fst rv)) (combine (rows df) values))
  | None =>
      {| columns := (columns df ++ [label])%list;
         rows := map (fun rv => (fst rv ++ [snd rv])%list) (combine (rows df) values) |}
  end.

Definition fmin (x y : Py.float) : Py.float := if Py.float_ltb y x then y else x.

(** the least of the floats of a row that are not missing, [NaN] when
    there is none: one entry of [df[labels].min(axis=1)] *)
Fixpoint least (cs : list cell) : Py.float :=
  match cs with
  | [] => Py.NaN
  | CFloat x :: cs' =>
      if Py.isnan x then least cs'
      else if Py.isnan (least cs') then x else fmin x (least cs')
  | _ :: cs' => least cs'
  end.

(** [df[labels].min(axis=1)] *)
Definition min_axis1 (labels : list string) (df : DataFrame) : result (list cell) :=
  ixs <- mapM (fun l => loc l df) labels ;;
  Ok (map (fun r => CFloat (least (map (fun i => get i r) ixs))) (rows df)).

(** The [_merge] column of [merge(..., indicator=True)]. *)
Inductive indicator : Type := left_only | right_only | both.

Definition is_left_only (i : indicator) : bool :=
  match i with
  | left_only => true
  | _ => false
  end.

Definition key : Type := (cell * cell)%type.

Definition key_eqb (a b : key) : bool :=
  cell_eqb (fst a) (fst b) && cell_eqb (snd a) (snd b).

(** [left.merge(right, on=[k1, k2], how="left", indicator=True)] where
    [right] has the two key columns only: the left rows in their order,
    each once per right row with its key, or once, marked [left_only],
    when no right row has it. *)
Definition merge_left (key_of : row -> key) (left : list row) (right : list key)
  : list (row * indicator) :=
  flat_map
    (fun r =>
       match filter (key_eqb (key_of r)) right with
       | [] => [(r, left_only)]
       | matches => map (fun _ => (r, both)) matches
       end) left.

(** The labels that a join with [indicator=True] keeps for itself. *)
Definition indicator_labels : list string :=
  ["_left_indicator"; "_right_indicator"; "_merge"].

Definition carries (labels : list string) (l : string) : bool :=
  existsb (String.eqb l) labels.

(** What [merge(..., indicator=True)] checks before it joins: no column of
    its operands may carry a label of the indicator. *)
Definition indicator_free (labels : list string) : result unit :=
  if carries labels "_left_indicator" then
    Raise (ValueError
             "Cannot use `indicator=True` option when data contains a column named _left_indicator")
  else if carries labels "_right_indicator" then
    Raise (ValueError
             "Cannot use `indicator=True` option when data contains a column named _right_indicator")
  else if carries labels "_merge" then
    Raise (ValueError "Cannot use name of an existing column for indicator column")
  else Ok tt.

End Pd.

(* ===================================================================== *)
(** * main.py *)
(* ===================================================================== *)

Import Py Pd.

(** What the program reads from outside: the three paths of
    [settings.ini], the directory listing, and the two pandas readers. *)
Record Env : Type := {
  OUTPUT_PATH : string;
  INPUT_NEW_PATH : string;
  INPUT_OLD_PATH : string;
  listdir : string -> result (list string);
  read_excel : string -> result DataFrame;
  read_csv : string -> result DataFrame
}.

Definition COLUMNS : list string := ["Title"; "Url"; "Image"; "Price"].

(** [COLUMNS[0]] and [COLUMNS[-1]] *)
Definition COLUMNS_first : string := hd "" COLUMNS.
Definition COLUMNS_last : string := last COLUMNS "".

(** ** The patterns of the source *)

Definition domain_chr (c : ascii) : bool := isalnum c || mem c ".-".
Definition word_chr (c : ascii) : bool := isalnum c || Ascii.eqb c "_".
Definition name_chr (c : ascii) : bool := word_chr c || mem c "-.".
Definition hyphen (c : ascii) : bool := mem c "-".
Definition slash (c : ascii) : bool := mem c "/".

(** [r"([a-zA-Z0-9\.\-]+(?![\/]))[\w\-\.]*\.(csv|xlsx)$"] *)
Definition DOMAIN_RE : regex :=
  Cat (Group 1 (Cat (Plus (OneOf domain_chr)) (NotAhead (OneOf slash))))
    (Cat (Star (OneOf name_chr))
       (Cat (Lit ".")
          (Cat (Group 2 (Or (Word "csv") (Word "xlsx"))) Eos))).

(** [r"(csv|xlsx)$"] *)
Definition FILES_RE : regex := Cat (Group 1 (Or (Word "csv") (Word "xlsx"))) Eos.

(** [r".xlsx$"] and [r".csv$"] *)
Definition XLSX_RE : regex := Cat Dot (Cat (Word "xlsx") Eos).
Definition CSV_RE : regex := Cat Dot (Cat (Word "csv") Eos).

(** ["-"] *)
Definition DASH_RE : regex := Lit "-".

(** [r"\$*\d+\.*\d*(?![\-])"] *)
Definition PRICE_RE : regex :=
  Cat (Star (Lit "$"))
    (Cat (Plus (OneOf isdigit))
       (Cat (Star (Lit "."))
          (Cat (Star (OneOf isdigit)) (NotAhead (OneOf hyphen))))).

(** [r"\d*\s*"] *)
Definition DIGITS_SPACES_RE : regex := Cat (Star (OneOf isdigit)) (Star (OneOf isspace)).

(** [r"\d+.?\d*"] *)
Definition NUMBER_RE : regex :=
  Cat (Plus (OneOf isdigit)) (Cat (Opt Dot) (Star (OneOf isdigit))).

(** [rf"{domain}"]: the text of a domain token read as a pattern.  A token
    is made of letters, digits, dots and hyphens (group 1 of [DOMAIN_RE]);
    of these only the dot is special in a pattern. *)
Fixpoint domain_pattern (domain : string) : regex :=
  match domain with
  | EmptyString => Empty
  | String c domain' =>
      Cat (if Ascii.eqb c "." then Dot else Lit c) (domain_pattern domain')
  end.

(** ** The dataclasses *)

Record FileStats : Type := {
  file_name : string;
  products_count_before : option nat;
  products_count_after : option nat;
  error : option string
}.

Record SameDomainFiles : Type := {
  domain : string;
  file_paths : list string
}.

Record Columns : Type := {
  title : string;
  url : string;
  image : string;
  price : string
}.

(** ** [Deduplicator]

    The attributes of [self], and next to them what the run has written:
    the filtered files, latest last, and [./stats/stats.csv]. *)
Record Deduplicator : Type := {
  file_stats : list FileStats;
  dataframes : list DataFrame;
  old_files : list string;
  new_files : list string;
  saved : list (string * DataFrame);
  stats_csv : option (list FileStats)
}.

(** Reading a local variable that no assignment has reached yet. *)
Definition local {A : Type} (name : string) (v : option A) : result A :=
  match v with
  | Some a => Ok a
  | None => Raise (UnboundLocalError name)
  end.

(** [str(error)] for the exceptions whose text the program keeps *)
Definition exn_text (e : exn) : string :=
  match e with
  | UnboundLocalError name =>
      "cannot access local variable '" ++ name
        ++ "' where it is not associated with a value"
  | TypeError msg | ValueError msg | AttributeError msg
  | OverflowError msg | OSError msg => msg
  | KeyError k => "'" ++ k ++ "'"
  | SystemExit _ => ""
  end.

(** [__get_files]: [logger.error] logs and calls [sys.exit(1)]. *)
Definition __get_files (env : Env) (path : string) (key : string)
  : result (list string) :=
  names <- listdir env path ;;
  let files := map (fun file => path ++ file)
                 (filter (fun file => found (search_I FILES_RE file)) names) in
  if (0 <? List.length files)%nat then Ok files else Raise (SystemExit 1).

(** [__init__] *)
Definition __init__ (env : Env) : result Deduplicator :=
  old <- __get_files env (INPUT_OLD_PATH env) "old" ;;
  new <- __get_files env (INPUT_NEW_PATH env) "new" ;;
  Ok {| file_stats := []; dataframes := []; old_files := old; new_files := new;
        saved := []; stats_csv := None |}.

(** [__get_matching_files] *)
Definition __get_matching_files (self : Deduplicator) (new_file name : string)
  : result SameDomainFiles :=
  match search_I DOMAIN_RE new_file with
  | None => Raise (AttributeError "'NoneType' object has no attribute 'group'")
  | Some m =>
      let domain := group 1 m in
      Ok {| domain := domain;
            file_paths :=
              filter (fun file => found (search_I (domain_pattern domain) file))
                (old_files self) |}
  end.

(** The locals of [__get_columns]. *)
Record Found : Type := {
  v_title : option string;
  v_url : option string;
  v_image : option string;
  v_price : option string
}.

(** one round of the loop of [__get_columns] *)
Definition classify (v : Found) (column : string) : Found :=
  if found (search_I (Word "title") column) then
    {| v_title := Some column; v_url := v_url v; v_image := v_image v; v_price := v_price v |}
  else if found (search_I (Word "url") column) then
    {| v_title := v_title v; v_url := Some column; v_image := v_image v; v_price := v_price v |}
  else if found (search_I (Word "image") column) then
    {| v_title := v_title v; v_url := v_url v; v_image := Some column; v_price := v_price v |}
  else if found (search_I (Word "price") column) then
    {| v_title := v_title v; v_url := v_url v; v_image := v_image v; v_price := Some column |}
  else v.

(** [Columns(title=title, url=url, image=image, price=price)]: the
    arguments are read in this order *)
Definition make_columns (v : Found) : result Columns :=
  t <- local "title" (v_title v) ;;
  u <- local "url" (v_url v) ;;
  i <- local "image" (v_image v) ;;
  p <- local "price" (v_price v) ;;
  Ok {| title := t; url := u; image := i; price := p |}.

(** [__get_columns]: the result, and [stats] as the call leaves it. *)
Definition __get_columns (columns : list string) (stats : option FileStats)
  : option Columns * option FileStats :=
  let v := fold_left classify columns
             {| v_title := None; v_url := None; v_image := None; v_price := None |} in
  match make_columns v with
  | Ok c => (Some c, stats)
  | Raise e =>
      match stats with
      | None => (None, None)
      | Some st =>
          (None,
           Some {| file_name := file_name st;
                   products_count_before := products_count_before st;
                   products_count_after := products_count_after st;
                   error := Some ("missing column! " ++ exn_text e) |})
      end
  end.

(** [__rename_columns] *)
Definition __rename_columns (df : DataFrame) (columns : Columns) : DataFrame :=
  rename [(title columns, nth 0 COLUMNS "");
          (url columns, nth 1 COLUMNS "");
          (image columns, nth 2 COLUMNS "");
          (price columns, COLUMNS_last)] df.

(** [__read_file] *)
Definition __read_file (env : Env) (file_path : string) : result (option DataFrame) :=
  if found (search_I XLSX_RE file_path) then
    df <- read_excel env file_path ;; Ok (Some df)
  else if found (search_I CSV_RE file_path) then
    df <- read_csv env file_path ;; Ok (Some df)
  else Ok None.

(** [__remove_whitespace]: changes [df] in place; the table after it *)
Definition __remove_whitespace (df : DataFrame) : result DataFrame :=
  df <- apply COLUMNS_last (fun value => Ok (CStr (strip (str value)))) df ;;
  apply COLUMNS_first (fun value => Ok (CStr (strip (str value)))) df.

(** the two lambdas of [__format_price] *)
Definition clean (value : cell) : result cell :=
  Ok (CStr (replace " " "" (replace "," "" (strip (strip_chars "$" (str value)))))).

Definition first_number (value : cell) : result cell :=
  match search NUMBER_RE (str value) with
  | Some m => Ok (CStr (group0 m))
  | None => Raise (AttributeError "'NoneType' object has no attribute 'group'")
  end.

(** [df.loc[mask(df[label]), label] = df[label].apply(f)]: [f] runs on
    every row, its value is kept where the mask holds *)
Definition assign_where (i : nat) (mask : cell -> bool) (f : cell -> result cell)
  (df : DataFrame) : result DataFrame :=
  vs <- mapM (fun r => f (get i r)) (rows df) ;;
  Ok (with_rows df
        (map (fun rv => if mask (get i (fst rv)) then put i (snd rv) (fst rv) else fst rv)
           (combine (rows df) vs))).

Definition contains (r : regex) (value : cell) : bool := found (search r (str value)).

(** [df[label].astype(float)] on text *)
Definition to_float (value : cell) : result cell :=
  match value with
  | CFloat x => Ok (CFloat x)
  | CInt n => x <- float_of_int n ;; Ok (CFloat x)
  | CStr s => x <- float_of_str s ;; Ok (CFloat x)
  | CNone => Raise (TypeError "float() argument must be a string or a real number, not 'NoneType'")
  end.

(** ["${:,.2f}".format] *)
Definition money (value : cell) : result cell :=
  match value with
  | CFloat x => Ok (CStr ("$" ++ format_comma_2f x))
  | CInt n => x <- float_of_int n ;; Ok (CStr ("$" ++ format_comma_2f x))
  | _ => Raise (ValueError "Unknown format code 'f'")
  end.

(** [__format_price] *)
Definition __format_price (df : DataFrame) : result DataFrame :=
  df <- dropna [COLUMNS_last] df ;;
  df <- astype_str COLUMNS_last df ;;
  i <- loc COLUMNS_last df ;;
  let df := where_ i (fun v => negb (contains DASH_RE v)) df in
  let df := where_ i (contains PRICE_RE) df in
  df <- assign_where i (contains DIGITS_SPACES_RE) clean df ;;
  df <- assign_where i (contains DIGITS_SPACES_RE) first_number df ;;
  df <- apply COLUMNS_last to_float df ;;
  apply COLUMNS_last money df.

(** [dropna(subset=[COLUMNS[0], COLUMNS[-1]]).astype({COLUMNS[-1]: str})] *)
Definition keyed (df : DataFrame) : result DataFrame :=
  df <- dropna [COLUMNS_first; COLUMNS_last] df ;;
  astype_str COLUMNS_last df.

(** [__drop_duplicates]: the right operand of the join has the two key
    columns only, so the labels the join checks are those of [df1] *)
Definition __drop_duplicates (df1 df2 : DataFrame) : result DataFrame :=
  df1 <- keyed df1 ;;
  df2 <- keyed df2 ;;
  t2 <- loc COLUMNS_first df2 ;;
  p2 <- loc COLUMNS_last df2 ;;
  t1 <- loc COLUMNS_first df1 ;;
  p1 <- loc COLUMNS_last df1 ;;
  checked <- indicator_free (columns df1) ;;
  let merged :=
    merge_left (fun r => (get t1 r, get p1 r)) (rows df1)
      (map (fun r => (get t2 r, get p2 r)) (rows df2)) in
  Ok (with_rows df1 (map fst (filter (fun ri => is_left_only (snd ri)) merged))).

(** The first half of a round of the loop of [__process_matching_files]:
    the historical table read and normalised, or [None] when its columns
    do not resolve (the [continue]). *)
Definition old_table (env : Env) (file : string) : result (option DataFrame) :=
  r <- __read_file env file ;;
  match r with
  | None => Raise (AttributeError "'NoneType' object has no attribute 'columns'")
  | Some df_old =>
      match fst (__get_columns (columns df_old) None) with
      | None => Ok None
      | Some cols =>
          let df_old := __rename_columns df_old cols in
          df_old <- __remove_whitespace df_old ;;
          df_old <- __format_price df_old ;;
          Ok (Some df_old)
      end
  end.

(** [__process_matching_files]: the loop over [files.file_paths], with its
    [continue] and its [break].  A round starts with
    [file.split(INPUT_OLD_PATH)] for the log line, which raises when the
    path of the historical files is empty. *)
Fixpoint compare_to (env : Env) (df : DataFrame) (paths : list string)
  : result DataFrame :=
  match paths with
  | [] => Ok df
  | file :: paths' =>
      shown <- split (INPUT_OLD_PATH env) file ;;
      o <- old_table env file ;;
      match o with
      | None => compare_to env df paths'
      | Some df_old =>
          df <- __drop_duplicates df df_old ;;
          if (len df =? 0)%nat then Ok df else compare_to env df paths'
      end
  end.

Definition __process_matching_files (env : Env) (df : DataFrame)
  (files : SameDomainFiles) : result DataFrame :=
  compare_to env df (file_paths files).

(** [__str_to_float]: [None] when the value is falsy *)
Definition __str_to_float (value : cell) : result cell :=
  if truthy value then
    match value with
    | CFloat x => Ok (CFloat x)
    | CInt n => x <- float_of_int n ;; Ok (CFloat x)
    | CStr s =>
        x <- float_of_str (strip (replace "$" "" (replace " " "" (replace "," "" s)))) ;;
        Ok (CFloat x)
    | CNone => Ok CNone
    end
  else Ok CNone.

Fixpoint fold_result {A B : Type} (f : A -> B -> result A) (a : A) (l : list B)
  : result A :=
  match l with
  | [] => Ok a
  | b :: l' => a' <- f a b ;; fold_result f a' l'
  end.

(** [__combine_price_columns] *)
Definition __combine_price_columns (df : DataFrame) : result DataFrame :=
  let price_columns :=
    filter (fun c => found (search_I (Word "price") c)) (columns df) in
  if (1 <? List.length price_columns)%nat then
    df <- fold_result (fun df col => apply col __str_to_float df) df price_columns ;;
    least_prices <- min_axis1 price_columns df ;;
    let df := assign "Price" least_prices df in
    fold_result (fun df c => drop c df) df
      (filter (fun c => negb (String.eqb c "Price")) price_columns)
  else Ok df.

(** [__save_to_csv] *)
Definition __save_to_csv (env : Env) (self : Deduplicator) (df : DataFrame)
  (filename : string) : Deduplicator :=
  let filename := replace ".csv" "_filtered.csv" (replace ".xlsx" ".csv" filename) in
  {| file_stats := file_stats self; dataframes := dataframes self;
     old_files := old_files self; new_files := new_files self;
     saved := (saved self ++ [((OUTPUT_PATH env ++ filename)%string, df)])%list;
     stats_csv := stats_csv self |}.

Definition append_dataframe (self : Deduplicator) (df : DataFrame) : Deduplicator :=
  {| file_stats := file_stats self; dataframes := (dataframes self ++ [df])%list;
     old_files := old_files self; new_files := new_files self;
     saved := saved self; stats_csv := stats_csv self |}.

Definition append_stats (self : Deduplicator) (stats : FileStats) : Deduplicator :=
  {| file_stats := (file_stats self ++ [stats])%list; dataframes := dataframes self;
     old_files := old_files self; new_files := new_files self;
     saved := saved self; stats_csv := stats_csv self |}.

Definition write_stats (self : Deduplicator) : Deduplicator :=
  {| file_stats := file_stats self; dataframes := dataframes self;
     old_files := old_files self; new_files := new_files self;
     saved := saved self; stats_csv := Some (file_stats self) |}.

(** [len(df)] where [df] may be [None] *)
Definition len_opt (df : option DataFrame) : result nat :=
  match df with
  | Some d => Ok (len d)
  | None => Raise (TypeError "object of type 'NoneType' has no len()")
  end.

(** One round of the loop of [run], for one new file.  Every statement
    that may raise comes before the first change to [self], so a round
    either raises and leaves [self] as it was, or ends ([continue]
    included) with the new [self].  [file_stats_local] is the local
    variable [file_stats] of [run]: its only assignment stands after the
    loop, so [self.file_stats.append(file_stats)] cannot read it. *)
Definition run_file (env : Env) (self : Deduplicator) (file : string)
  : result Deduplicator :=
  let file_stats_local : option (list FileStats) := None in
  pieces <- split (INPUT_NEW_PATH env) file ;;
  let name := last pieces "" in
  df <- __read_file env file ;;
  n <- len_opt df ;;
  let stats := {| file_name := name; products_count_before := Some n;
                  products_count_after := None; error := None |} in
  match df with
  | None => Ok self
  | Some df =>
      df <- __combine_price_columns df ;;
      let (columns, stats') := __get_columns (columns df) (Some stats) in
      let stats := match stats' with
                   | Some st => st
                   | None => stats
                   end in
      match columns with
      | None =>
          let stats := {| file_name := file_name stats;
                          products_count_before := None;
                          products_count_after := products_count_after stats;
                          error := error stats |} in
          unbound <- local "file_stats" file_stats_local ;;
          Ok self
      | Some columns =>
          let df := __rename_columns df columns in
          df <- __remove_whitespace df ;;
          df <- __format_price df ;;
          oldfiles <- __get_matching_files self file name ;;
          df <- __process_matching_files env df oldfiles ;;
          let stats := {| file_name := file_name stats;
                          products_count_before := products_count_before stats;
                          products_count_after := Some (len df);
                          error := error stats |} in
          let self :=
            if (0 <? len df)%nat
            then append_dataframe (__save_to_csv env self df name) df
            else self in
          Ok (append_stats self stats)
      end
  end.

(** The loop of [run]: the exception that ended it, if any, and [self] as
    the loop left it. *)
Fixpoint run_files (env : Env) (self : Deduplicator) (files : list string)
  : option exn * Deduplicator :=
  match files with
  | [] => (None, self)
  | file :: files' =>
      match run_file env self file with
      | Ok self' => run_files env self' files'
      | Raise e => (Some e, self)
      end
  end.

(** [run] *)
Definition run (env : Env) (self : Deduplicator) : option exn * Deduplicator :=
  match run_files env self (new_files self) with
  | (None, self') => (None, write_stats self')
  | (Some e, self') => (Some e, self')
  end.

(* ===================================================================== *)
(** * Notions used in the statements *)
(* ===================================================================== *)

(** The title and the price of a row, read under the labels [Title] and
    [Price] of its table. *)
Definition title_of (df : DataFrame) (r : row) : cell :=
  match index COLUMNS_first (columns df) with
  | Some t => get t r
  | None => CNone
  end.

Definition price_of (df : DataFrame) (r : row) : cell :=
  match index COLUMNS_last (columns df) with
  | Some p => get p r
  | None => CNone
  end.

Definition key_of (df : DataFrame) (r : row) : key := (title_of df r, price_of df r).

Definition has_columns (df : DataFrame) : Prop :=
  index COLUMNS_first (columns df) <> None /\ index COLUMNS_last (columns df) <> None.

(** A row has a key when neither its title nor its price is missing. *)
Definition has_key (df : DataFrame) (r : row) : bool :=
  negb (isna (title_of df r)) && negb (isna (price_of df r)).

Definition price_as_text (df : DataFrame) (r : row) : row :=
  match index COLUMNS_last (columns df) with
  | Some p => put p (CStr (str (get p r))) r
  | None => r
  end.

(** The rows of a table that have a key, their price written as text. *)
Definition keyed_rows (df : DataFrame) : list row :=
  map (price_as_text df) (filter (has_key df) (rows df)).

(** The (title, price) pairs of a table. *)
Definition pairs (df : DataFrame) : list key := map (key_of df) (keyed_rows df).

Definition occurs (k : key) (ks : list key) : bool := existsb (key_eqb k) ks.

Definition is_text (c : cell) : bool :=
  match c with
  | CStr _ => true
  | _ => false
  end.

(** A normalised table: it has the two key columns, and the title and the
    price of every row are text. *)
Definition normalised (df : DataFrame) : Prop :=
  has_columns df /\
  Forall (fun r => is_text (title_of df r) = true /\ is_text (price_of df r) = true)
    (rows df).

(** No label of the table is kept by the join for its indicator. *)
Definition no_indicator_label (df : DataFrame) : Prop :=
  forall l, In l indicator_labels -> ~ In l (columns df).

(** The title of every row is text. *)
Definition text_titles (df : DataFrame) : Prop :=
  Forall (fun r => is_text (title_of df r) = true) (rows df).

(** A table as a reader gives it: every row has one cell per column. *)
Definition well_formed (df : DataFrame) : Prop :=
  Forall (fun r => List.length r = List.length (columns df)) (rows df).



(** Price normalisation as [run] applies it: [__remove_whitespace], then
    [__format_price]. *)
Definition normalise_prices (df : DataFrame) : result DataFrame :=
  df <- __remove_whitespace df ;;
  __format_price df.

(** [p] holds of every character of [s]. *)
Fixpoint all_chars (p : ascii -> bool) (s : string) : bool :=
  match s with
  | EmptyString => true
  | String c s' => p c && all_chars p s'
  end.

(** [r] closes no group numbered [n] (a lookahead keeps no group). *)
Fixpoint no_group (n : nat) (r : regex) : bool :=
  match r with
  | Cat r1 r2 | Or r1 r2 => no_group n r1 && no_group n r2
  | Star r1 => no_group n r1
  | Group m r1 => negb (n =? m)%nat && no_group n r1
  | _ => true
  end.

(** Literal containment, as the specification words the matching of a
    historical path: [token] is a substring of [path], letter case apart. *)
Fixpoint literal_at (token path : string) : bool :=
  match token, path with
  | EmptyString, _ => true
  | String c token', String x path' =>
      Ascii.eqb (lower c) (lower x) && literal_at token' path'
  | String _ _, EmptyString => false
  end.

Fixpoint contains_literal (token path : string) : bool :=
  literal_at token path ||
  match path with
  | EmptyString => false
  | String _ path' => contains_literal token path'
  end.

(** Containment where a dot of the token stands for any one character
    but a newline. *)
Fixpoint wildcard_at (token path : string) : bool :=
  match token, path with
  | EmptyString, _ => true
  | String c token', String x path' =>
      (if Ascii.eqb c "." then negb (Ascii.eqb x newline)
       else Ascii.eqb (lower c) (lower x))
      && wildcard_at token' path'
  | String _ _, EmptyString => false
  end.

Fixpoint contains_wildcard (token path : string) : bool :=
  wildcard_at token path ||
  match path with
  | EmptyString => false
  | String _ path' => contains_wildcard token path'
  end.

(* ===================================================================== *)
(** * Sample inputs *)
(* ===================================================================== *)

Module Sample.

Definition header : list string := ["Title"; "Url"; "Image"; "Price"].

Definition product (t : string) (p : cell) : row :=
  [CStr t; CStr "http://shop/p"; CStr "http://shop/p.png"; p].

Definition table (rs : list row) : DataFrame := {| columns := header; rows := rs |}.

Definition nan : cell := CFloat NaN.

(** A directory tree: paths and the tables a reader finds there. *)
Definition tree : Type := list (string * DataFrame).

Definition read (t : tree) (path : string) : result DataFrame :=
  match find (fun f => String.eqb (fst f) path) t with
  | Some f => Ok (snd f)
  | None => Raise (OSError "No such file or directory")
  end.

Definition names_under (t : tree) (dir : string) : result (list string) :=
  Ok (map (fun f => substring (String.length dir)
                      (String.length (fst f) - String.length dir) (fst f))
        (filter (fun f => prefix dir (fst f)) t)).

Definition env_of (t : tree) : Env :=
  {| OUTPUT_PATH := "./out/"; INPUT_NEW_PATH := "./new/"; INPUT_OLD_PATH := "./old/";
     listdir := names_under t; read_excel := read t; read_csv := read t |}.

Definition start (old new : list string) : Deduplicator :=
  {| file_stats := []; dataframes := []; old_files := old; new_files := new;
     saved := []; stats_csv := None |}.

(** the end-to-end scenario: two new products, one of them seen before *)
Definition shop_new : DataFrame :=
  table [product "Widget" (CStr "$10.00"); product "Gadget" (CStr "$20.00")].
Definition shop_old : DataFrame := table [product "Widget" (CStr "$10.00")].

Definition shop : tree :=
  [("./old/shop.com_2023.csv", shop_old); ("./new/shop.com_2024.csv", shop_new)].

(** four prices: padded, a range, without cents, missing *)
Definition four_prices : DataFrame :=
  table [product "A" (CStr " $1,234.50 "); product "B" (CStr "10-20");
         product "C" (CStr "$5"); product "D" nan].

Definition priced : tree :=
  [("./old/shop.com_2023.csv", shop_old); ("./new/shop.com_2024.csv", four_prices)].

(** a price followed by a currency code *)
Definition with_currency : DataFrame := table [product "A" (CStr "5 USD")].

(** a table without a price column *)
Definition no_price : DataFrame :=
  {| columns := ["Title"; "Url"; "Image"]; rows := [[CStr "A"; CStr "u"; CStr "i"]] |}.

Definition unpriced : tree :=
  [("./old/shop.com_2023.csv", shop_old);
   ("./new/bare.com.csv", no_price);
   ("./new/shop.com_2024.csv", shop_new)].

(** a new file whose name ends in [csv] with no dot before it *)
Definition undotted : tree :=
  [("./old/shop.com_2023.csv", shop_old);
   ("./new/datacsv", shop_new);
   ("./new/shop.com_2024.csv", shop_new)].

Definition shop_old_files : list string := ["./old/shop.com_2023.csv"].

(** two price columns *)
Definition two_prices (p s : cell) : DataFrame :=
  {| columns := ["Title"; "Url"; "Image"; "Price"; "SalePrice"];
     rows := [[CStr "A"; CStr "u"; CStr "i"; p; s]] |}.

Definition one_price (p : cell) : DataFrame :=
  {| columns := header; rows := [[CStr "A"; CStr "u"; CStr "i"; p]] |}.

(** two rows with two numeric price columns; the first product is free *)
Definition free_and_sale : DataFrame :=
  {| columns := ["Title"; "Url"; "Image"; "Price"; "SalePrice"];
     rows := [[CStr "A"; CStr "u"; CStr "i"; CInt 0; CInt 5];
              [CStr "B"; CStr "u"; CStr "i"; CInt 10; CInt 8]] |}.

Definition free : tree :=
  [("./old/shop.com_2023.csv", shop_old); ("./new/shop.com_2024.csv", free_and_sale)].

(** a price cell that holds one space *)
Definition blank_and_sale : DataFrame :=
  {| columns := ["Title"; "Url"; "Image"; "Price"; "SalePrice"];
     rows := [[CStr "A"; CStr "u"; CStr "i"; CStr " "; CStr "$5"];
              [CStr "B"; CStr "u"; CStr "i"; CStr "$10"; CStr "$8"]] |}.

(** a product at $10 on sale for $8 *)
Definition on_sale : tree :=
  [("./old/shop.com_2023.csv", shop_old);
   ("./new/shop.com_2024.csv", two_prices (CStr "$10") (CStr "$8"))].

(** history in either letter case, one file with another separator *)
Definition mixed_old : list string :=
  ["./old/SHOP-1_2023.csv"; "./old/shop_1.csv"; "./old/x/shop-1.xlsx"].

(** history whose name is matched through the dot of the domain token *)
Definition dotted_old : list string := ["./old/axb.csv"; "./old/a.b_1.csv"; "./old/ab.csv"].

(** a row without a price, and an empty history *)
Definition unkeyed : DataFrame :=
  {| columns := ["Title"; "Price"]; rows := [[CStr "A"; nan]; [CStr "B"; CStr "$1.00"]] |}.
Definition no_history : DataFrame := {| columns := ["Title"; "Price"]; rows := [] |}.

(** products repeated on both sides *)
Definition left_dups : DataFrame :=
  {| columns := ["Title"; "Price"];
     rows := [[CStr "B"; CStr "$2.00"]; [CStr "A"; CStr "$1.00"];
              [CStr "B"; CStr "$2.00"]; [CStr "C"; CStr "$3.00"];
              [CStr "A"; CStr "$1.00"]] |}.
Definition right_dups : DataFrame :=
  {| columns := ["Title"; "Price"];
     rows := [[CStr "A"; CStr "$1.00"]; [CStr "A"; CStr "$1.00"]; [CStr "D"; CStr "$1.00"]] |}.

(** three historical files, one of them without a price column *)
Definition archive : tree :=
  [("./old/shop.com_1.csv", table [product "Widget" (CStr "$10")]);
   ("./old/shop.com_2.csv", no_price);
   ("./old/shop.com_3.csv",
    table [product "Gadget" (CStr " $20.00 "); product "Widget" (CStr "10.0")])].



(** a price of 310 digits: $1 followed by 309 zeros *)
Definition huge_price : DataFrame := one_price (CStr ("$1" ++ zeros 309)).

End Sample.

(* ===================================================================== *)
(** * Notions used in the further statements *)
(* ===================================================================== *)

(** [s] holds a decimal digit. *)
Fixpoint has_digit (s : string) : bool :=
  match s with
  | EmptyString => false
  | String c s' => isdigit c || has_digit s'
  end.

(** A price cell that passes the filters of [__format_price]: it is not
    missing, its text holds no hyphen, and it holds a digit. *)
Definition priceable (v : cell) : bool :=
  negb (isna v) && negb (mem "-" (str v)) && has_digit (str v).

(** The keyword under which [__get_columns] files a label: the first of
    [title], [url], [image] and [price] that the label contains, letter
    case apart. *)
Definition keyword_of (column : string) : option string :=
  if contains_literal "title" column then Some "title"
  else if contains_literal "url" column then Some "url"
  else if contains_literal "image" column then Some "image"
  else if contains_literal "price" column then Some "price"
  else None.

Definition filed_under (kw column : string) : bool :=
  match keyword_of column with
  | Some k => String.eqb k kw
  | None => false
  end.

(** The last of [columns] filed under [kw]. *)
Definition last_under (kw : string) (columns : list string) : option string :=
  find (filed_under kw) (rev columns).

(** What is left of [s] after the word [w], letter case apart, when [s]
    starts with it. *)
Fixpoint after_word (w s : string) : option string :=
  match w, s with
  | EmptyString, _ => Some s
  | String a w', String c s' =>
      if Ascii.eqb (lower a) (lower c) then after_word w' s' else None
  | String _ _, EmptyString => None
  end.

(** [s] is the word [ext], letter case apart, and nothing more; as [$]
    allows it, one final newline may follow. *)
Definition is_ext (ext s : string) : bool :=
  match after_word ext s with
  | Some r => at_end r
  | None => false
  end.

(** [s] ends in [ext]. *)
Fixpoint ends_in (ext s : string) : bool :=
  is_ext ext s ||
  match s with
  | EmptyString => false
  | String _ s' => ends_in ext s'
  end.

(** [s] ends in one character other than a newline and [ext]. *)
Fixpoint ends_in_any (ext s : string) : bool :=
  match s with
  | EmptyString => false
  | String c s' => negb (Ascii.eqb c newline) && is_ext ext s' || ends_in_any ext s'
  end.

Definition no_newline (s : string) : bool :=
  all_chars (fun c => negb (Ascii.eqb c newline)) s.

(** The first keyword, in the order in which [Columns(...)] reads its
    arguments, under which no label of [columns] is filed. *)
Definition first_missing (columns : list string) : option string :=
  find (fun kw => match last_under kw columns with
                  | Some _ => false
                  | None => true
                  end) ["title"; "url"; "image"; "price"].

(** The characters a pattern can take. *)
Fixpoint eats (i : bool) (r : regex) (c : ascii) : bool :=
  match r with
  | Empty | Eos | NotAhead _ => false
  | Lit a => lit_matches i a c
  | Dot => negb (Ascii.eqb c newline)
  | OneOf p => class_matches i p c
  | Cat r1 r2 | Or r1 r2 => eats i r1 c || eats i r2 c
  | Star r1 | Group _ r1 => eats i r1 c
  end.

(** A pattern that ends in [$]. *)
Fixpoint anchored (r : regex) : bool :=
  match r with
  | Eos => true
  | Cat _ r2 => anchored r2
  | _ => false
  end.

(** The canonical text of a price of [q] dollars and the cents [d1 d2]. *)
Definition dollars (q : Z) (d1 d2 : ascii) : string :=
  "$" ++ commas (decimal q) ++ "." ++ String d1 (String d2 EmptyString).

(** The leading digits of a text, and the text behind them. *)
Fixpoint digits_of (s : string) : string :=
  match s with
  | String c s' => if isdigit c then String c (digits_of s') else EmptyString
  | EmptyString => EmptyString
  end.

Fixpoint after_digits (s : string) : string :=
  match s with
  | String c s' => if isdigit c then after_digits s' else s
  | EmptyString => EmptyString
  end.

(** The number a text starts with, in the sense of [r"\d+.?\d*"]: its
    leading digits, one more character unless the text ends there or the
    character is a newline, and the digits behind that character. *)
Definition number_at (s : string) : string :=
  digits_of s ++
  match after_digits s with
  | EmptyString => EmptyString
  | String x r => if Ascii.eqb x newline then EmptyString else String x (digits_of r)
  end.

(** The numeric token of a text: the number at its first digit. *)
Fixpoint number_token (s : string) : option string :=
  match s with
  | EmptyString => None
  | String c s' => if isdigit c then Some (number_at s) else number_token s'
  end.

(** The text of a price as [__format_price] looks for its number: dollar
    signs taken from both ends, then white space from both ends, then
    every comma and every space taken out. *)
Definition cleaned (s : string) : string :=
  replace " " "" (replace "," "" (strip (strip_chars "$" s))).

(** The price cell of a row after [__remove_whitespace]. *)
Definition trimmed (v : cell) : cell := CStr (strip (str v)).

(** [mant * 10^e10] is at least [2^1024 - 2^970], the middle between the
    largest float and [2^1024]: from there on a value is nearer to what
    lies beyond the floats than to any of them. *)
Definition overflows (mant e10 : Z) : bool :=
  if (0 <=? e10)%Z then (2 ^ 1024 - 2 ^ 970 <=? mant * 10 ^ e10)%Z
  else ((2 ^ 1024 - 2 ^ 970) * 10 ^ (- e10) <=? mant)%Z.

(** The cents of a float [m * 2^e]: its value times 100, rounded to an
    integer, ties to even; and the text of that many cents. *)
Definition cents_text (c : Z) : string :=
  commas (decimal (c / 100)) ++ "." ++ two_digits (c mod 100).

(** [pat] occurs in [s], letter case counting. *)
Fixpoint occurs_in (pat s : string) : bool :=
  prefix pat s ||
  match s with
  | EmptyString => false
  | String _ s' => occurs_in pat s'
  end.

(* ===================================================================== *)
(** * Further sample inputs *)
(* ===================================================================== *)

Module Cases.

(** a product without a title, and a product without a price *)
Definition untitled : DataFrame :=
  Sample.table [[Sample.nan; CStr "u"; CStr "i"; CStr " $5 "];
                Sample.product " D " Sample.nan].

(** labels as a shop exports them: two mention a title, one mentions both
    an image and a url *)
Definition export_labels : list string :=
  ["Product Title"; "Subtitle"; "Image URL"; "Picture (image)"; "Price (USD)"; "SKU"].

Definition export : DataFrame :=
  {| columns := export_labels;
     rows := [[CStr "Widget"; CStr "blue"; CStr "http://shop/w"; CStr "w.png";
               CStr "10"; CInt 7]] |}.

(** a directory with files of several kinds *)
Definition mixed : Sample.tree :=
  [("./new/notes.txt", Sample.shop_new);
   ("./new/Shop.CSV", Sample.shop_new);
   ("./new/datacsv", Sample.shop_new);
   ("./new/book.XLSX", Sample.shop_new);
   ("./new/csv.bak", Sample.shop_new);
   ("./old/shop.com_2023.csv", Sample.shop_old)].

(** a directory without a file to compare with *)
Definition first_run : Sample.tree :=
  [("./old/readme.txt", Sample.shop_old); ("./new/shop.com_2024.csv", Sample.shop_new)].

(** two price columns, neither of them labelled [Price] *)
Definition listed_and_sale : DataFrame :=
  {| columns := ["title"; "url"; "image"; "list price"; "sale price"];
     rows := [[CStr "A"; CStr "u"; CStr "i"; CStr "$10"; CStr "$8"];
              [CStr "B"; CStr "u"; CStr "i"; CStr "$3"; CStr "$4.50"]] |}.

(** prices with an exponent *)
Definition exponents : DataFrame :=
  Sample.table [Sample.product "A" (CStr "1e999"); Sample.product "B" (CStr "$2e308");
                Sample.product "C" (CStr "1e3")].

End Cases.

(* ===================================================================== *)
(** * Proofs *)
(* ===================================================================== *)

(** ** The exception monad *)

Lemma bind_Ok {A B : Type} (r : result A) (f : A -> result B) (b : B) :
  bind r f = Ok b -> exists a, r = Ok a /\ f a = Ok b.
Proof.
  destruct r as [a|e]; simpl; intros H.
  - exists a. split; [reflexivity | exact H].
  - discriminate H.
Qed.

Lemma mapM_Ok {A B : Type} (f : A -> result B) (xs : list A) (ys : list B) :
  mapM f xs = Ok ys -> Forall2 (fun x y => f x = Ok y) xs ys.
Proof.
  revert ys. induction xs as [|x xs IH]; simpl; intros ys H.
  - injection H as <-. constructor.
  - apply bind_Ok in H. destruct H as (y & Hy & H).
    apply bind_Ok in H. destruct H as (ys' & Hys & H).
    injection H as <-. constructor; auto.
Qed.

Ltac bind_inv H :=
  let a := fresh "a" in
  let Ha := fresh "H" a in
  apply bind_Ok in H; destruct H as (a & Ha & H).

Tactic Notation "bind_in" hyp(H) "as" ident(a) ident(Ha) :=
  apply bind_Ok in H; destruct H as (a & Ha & H).

(** ** Rows *)

Lemma put_get (r : row) (i : nat) : put i (get i r) r = r.
Proof.
  revert i. induction r as [|c r IH]; intros [|i]; simpl; try reflexivity.
  f_equal. apply IH.
Qed.

Lemma length_put (r : row) (i : nat) (v : cell) : List.length (put i v r) = List.length r.
Proof.
  revert i. induction r as [|c r IH]; intros [|i]; simpl; auto.
Qed.

Lemma get_put_same (r : row) (i : nat) (v : cell) :
  (i < List.length r)%nat -> get i (put i v r) = v.
Proof.
  revert i. induction r as [|c r IH]; intros [|i]; simpl; intros H; try lia.
  - reflexivity.
  - apply IH. lia.
Qed.

Lemma get_put_other (r : row) (i j : nat) (v : cell) :
  i <> j -> get i (put j v r) = get i r.
Proof.
  revert i j. induction r as [|c r IH]; intros [|i] [|j]; simpl; intros H;
    try reflexivity; try congruence.
  apply IH. congruence.
Qed.

Lemma get_in_range (r : row) (i : nat) : isna (get i r) = false -> (i < List.length r)%nat.
Proof.
  intros H. destruct (Nat.lt_ge_cases i (List.length r)) as [Hlt|Hge]; [exact Hlt|].
  unfold get in H. rewrite nth_overflow in H by exact Hge. discriminate H.
Qed.

(** ** Labels *)

Lemma index_nth_error (l : string) (ls : list string) (i : nat) :
  index l ls = Some i -> nth_error ls i = Some l.
Proof.
  revert i. induction ls as [|x ls IH]; simpl; intros i H; [discriminate|].
  destruct (String.eqb x l) eqn:E.
  - injection H as <-. apply String.eqb_eq in E. subst. reflexivity.
  - destruct (index l ls) as [j|]; simpl in H; [|discriminate].
    injection H as <-. simpl. apply IH. reflexivity.
Qed.

Lemma index_apart (a b : string) (ls : list string) (i j : nat) :
  index a ls = Some i -> index b ls = Some j -> a <> b -> i <> j.
Proof.
  intros Ha Hb Hab Hij. subst j.
  apply index_nth_error in Ha. apply index_nth_error in Hb. congruence.
Qed.

Lemma loc_index (l : string) (df : DataFrame) (i : nat) :
  index l (columns df) = Some i -> loc l df = Ok i.
Proof. unfold loc. intros ->. reflexivity. Qed.

Lemma has_columns_indices (df : DataFrame) :
  has_columns df ->
  exists t p, index COLUMNS_first (columns df) = Some t /\
              index COLUMNS_last (columns df) = Some p /\ t <> p.
Proof.
  intros [Ht Hp].
  destruct (index COLUMNS_first (columns df)) as [t|] eqn:Et; [|congruence].
  destruct (index COLUMNS_last (columns df)) as [p|] eqn:Ep; [|congruence].
  exists t, p. repeat split.
  apply (index_apart _ _ _ _ _ Et Ep). discriminate.
Qed.

(** ** [__drop_duplicates] *)

Lemma filter_nil_existsb {A : Type} (p : A -> bool) (l : list A) :
  filter p l = [] -> existsb p l = false.
Proof.
  induction l as [|x l IH]; simpl; [reflexivity|].
  destruct (p x); [discriminate | exact IH].
Qed.

Lemma filter_cons_existsb {A : Type} (p : A -> bool) (l : list A) (x : A) (m : list A) :
  filter p l = x :: m -> existsb p l = true.
Proof.
  induction l as [|y l IH]; simpl; [discriminate|].
  destruct (p y); [reflexivity | exact IH].
Qed.

Lemma no_left_only_in_both (r : row) (ms : list key) :
  filter (fun ri : row * indicator => is_left_only (snd ri)) (map (fun _ => (r, both)) ms) = [].
Proof. induction ms as [|m ms IH]; simpl; [reflexivity | exact IH]. Qed.

(** The left-only rows of a left join are the left rows whose key no
    right row has, in their order, each once. *)
Lemma merge_left_only (key_of : row -> key) (left : list row) (right : list key) :
  map fst (filter (fun ri => is_left_only (snd ri)) (merge_left key_of left right))
  = filter (fun r => negb (occurs (key_of r) right)) left.
Proof.
  unfold merge_left, occurs.
  induction left as [|r left IH]; [reflexivity|].
  cbn [flat_map]. rewrite filter_app, map_app, IH. cbn [filter].
  destruct (filter (key_eqb (key_of r)) right) as [|m ms] eqn:E.
  - rewrite (filter_nil_existsb _ _ E). reflexivity.
  - rewrite (filter_cons_existsb _ _ _ _ E).
    rewrite (no_left_only_in_both r (m :: ms)). reflexivity.
Qed.

Lemma keyed_rows_spec (df : DataFrame) :
  has_columns df -> keyed df = Ok (with_rows df (keyed_rows df)).
Proof.
  intros H. destruct (has_columns_indices df H) as (t & p & Ht & Hp & _).
  unfold keyed, dropna. simpl mapM.
  rewrite (loc_index _ _ _ Ht), (loc_index _ _ _ Hp). simpl bind.
  unfold astype_str. rewrite (loc_index COLUMNS_last (with_rows df _) p) by exact Hp.
  simpl. unfold keyed_rows, with_rows. do 2 f_equal.
  unfold price_as_text. rewrite Hp. f_equal.
  apply filter_ext. intros r. unfold has_key, title_of, price_of.
  rewrite Ht, Hp. simpl. rewrite andb_true_r. reflexivity.
Qed.

Lemma carries_false (labels : list string) (l : string) :
  ~ In l labels -> carries labels l = false.
Proof.
  intros H. unfold carries. destruct (existsb (String.eqb l) labels) eqn:E; [|reflexivity].
  apply existsb_exists in E. destruct E as (x & Hx & E).
  apply String.eqb_eq in E. subst x. contradiction.
Qed.

Lemma carries_true (labels : list string) (l : string) :
  In l labels -> carries labels l = true.
Proof.
  intros H. unfold carries. apply existsb_exists. exists l.
  split; [exact H | apply String.eqb_refl].
Qed.

(** The join goes through exactly when no label is an indicator label. *)
Lemma indicator_free_Ok (df : DataFrame) :
  no_indicator_label df -> indicator_free (columns df) = Ok tt.
Proof.
  intros H. unfold indicator_free.
  rewrite (carries_false _ "_left_indicator") by (apply H; cbn; tauto).
  rewrite (carries_false _ "_right_indicator") by (apply H; cbn; tauto).
  rewrite (carries_false _ "_merge") by (apply H; cbn; tauto).
  reflexivity.
Qed.

Lemma indicator_free_inv (df : DataFrame) (u : unit) :
  indicator_free (columns df) = Ok u -> no_indicator_label df.
Proof.
  unfold indicator_free. intros H l Hl Hin.
  apply carries_true in Hin.
  destruct Hl as [<-|[<-|[<-|[]]]]; rewrite Hin in H; try discriminate H;
    repeat (destruct (carries (columns df) _); try discriminate H).
Qed.

Lemma drop_duplicates_spec (df1 df2 : DataFrame) :
  has_columns df1 -> has_columns df2 -> no_indicator_label df1 ->
  __drop_duplicates df1 df2
  = Ok (with_rows df1
          (filter (fun r => negb (occurs (key_of df1 r) (pairs df2))) (keyed_rows df1))).
Proof.
  intros H1 H2 Hfree.
  destruct (has_columns_indices df1 H1) as (t1 & p1 & Ht1 & Hp1 & _).
  destruct (has_columns_indices df2 H2) as (t2 & p2 & Ht2 & Hp2 & _).
  unfold __drop_duplicates.
  rewrite (keyed_rows_spec df1 H1), (keyed_rows_spec df2 H2). simpl bind.
  rewrite (loc_index COLUMNS_first (with_rows df2 _) t2) by exact Ht2.
  rewrite (loc_index COLUMNS_last (with_rows df2 _) p2) by exact Hp2.
  rewrite (loc_index COLUMNS_first (with_rows df1 _) t1) by exact Ht1.
  rewrite (loc_index COLUMNS_last (with_rows df1 _) p1) by exact Hp1.
  simpl bind. cbn [columns with_rows]. rewrite (indicator_free_Ok df1 Hfree).
  simpl bind. rewrite merge_left_only. simpl rows.
  f_equal. unfold with_rows. simpl. f_equal.
  unfold pairs. 
  assert (E2 : map (fun r => (get t2 r, get p2 r)) (keyed_rows df2) = map (key_of df2) (keyed_rows df2)).
  { apply map_ext. intros r. unfold key_of, title_of, price_of. rewrite Ht2, Hp2. reflexivity. }
  rewrite E2. apply filter_ext. intros r.
  unfold key_of, title_of, price_of. rewrite Ht1, Hp1. reflexivity.
Qed.


Lemma is_text_not_na (c : cell) : is_text c = true -> isna c = false.
Proof. destruct c; simpl; intros H; try discriminate H; reflexivity. Qed.

Lemma filter_none {A : Type} (p : A -> bool) (l : list A) :
  (forall x, In x l -> p x = false) -> filter p l = [].
Proof.
  induction l as [|x l IH]; simpl; intros H; [reflexivity|].
  rewrite (H x) by (left; reflexivity). apply IH. intros y Hy. apply H. right. exact Hy.
Qed.

Lemma filter_all {A : Type} (p : A -> bool) (l : list A) :
  (forall x, In x l -> p x = true) -> filter p l = l.
Proof.
  induction l as [|x l IH]; simpl; intros H; [reflexivity|].
  rewrite (H x) by (left; reflexivity). f_equal. apply IH. intros y Hy. apply H. right. exact Hy.
Qed.



Lemma normalised_keyed_rows (df : DataFrame) : normalised df -> keyed_rows df = rows df.
Proof.
  intros [H Htxt]. destruct (has_columns_indices df H) as (t & p & Ht & Hp & _).
  unfold keyed_rows. rewrite filter_all.
  - rewrite <- (map_id (rows df)) at 2. apply map_ext_in. intros r Hr.
    rewrite Forall_forall in Htxt. destruct (Htxt r Hr) as [_ Hpr].
    unfold price_as_text, price_of in *. rewrite Hp in *.
    destruct (get p r) as [|s|n|x] eqn:E; try discriminate Hpr.
    simpl. rewrite <- E. apply put_get.
  - intros r Hr. rewrite Forall_forall in Htxt. destruct (Htxt r Hr) as [Htr Hpr].
    unfold has_key. rewrite (is_text_not_na _ Htr), (is_text_not_na _ Hpr). reflexivity.
Qed.



(** C9, as amended.  For two tables with a title and a price column,
    labels that are all different (in [df1] none of them kept by the join
    for its indicator) and titles that are all text,
    [__drop_duplicates df1 df2] returns the rows of [df1] whose price is
    present, the price written as text, and whose key is the key of no
    row of [df2] with a price: in their order in [df1], each occurrence
    kept, none repeated however often a key occurs in [df2].  When the
    price of every row of [df1] is text as well, these are rows of [df1]
    unchanged. *)
Theorem drop_duplicates_keeps_left_rows (df1 df2 : DataFrame) :
  has_columns df1 -> has_columns df2 ->
  NoDup (columns df1) -> NoDup (columns df2) -> no_indicator_label df1 ->
  text_titles df1 -> text_titles df2 ->
  __drop_duplicates df1 df2
  = Ok (with_rows df1
          (filter (fun r => negb (occurs (key_of df1 r) (pairs df2))) (keyed_rows df1)))
  /\ (normalised df1 -> keyed_rows df1 = rows df1).
Proof.
  intros H1 H2 _ _ Hfree _ _. split.
  - apply drop_duplicates_spec; assumption.
  - apply normalised_keyed_rows.
Qed.

Lemma drop_duplicates_keeps_left_rows_witness :
  __drop_duplicates Sample.left_dups Sample.right_dups
  = Ok (with_rows Sample.left_dups
          [[CStr "B"; CStr "$2.00"]; [CStr "B"; CStr "$2.00"]; [CStr "C"; CStr "$3.00"]]).
Proof.
  assert (H1 : has_columns Sample.left_dups) by (split; discriminate).
  assert (H2 : has_columns Sample.right_dups) by (split; discriminate).
  assert (N1 : NoDup (columns Sample.left_dups))
    by (repeat constructor; cbn; intuition discriminate).
  assert (N2 : NoDup (columns Sample.right_dups))
    by (repeat constructor; cbn; intuition discriminate).
  assert (F1 : no_indicator_label Sample.left_dups).
  { intros l Hl Hin. cbn in Hl, Hin. intuition (subst; discriminate). }
  assert (T1 : text_titles Sample.left_dups) by (repeat constructor).
  assert (T2 : text_titles Sample.right_dups) by (repeat constructor).
  rewrite (proj1 (drop_duplicates_keeps_left_rows _ _ H1 H2 N1 N2 F1 T1 T2)).
  reflexivity.
Defined.

(** The claim of C9 as it is worded fails on a row without a price: the
    key of the first row of [Sample.unkeyed] occurs nowhere in the empty
    history, and the row is removed all the same. *)
Lemma drop_duplicates_removes_unkeyed_row :
  __drop_duplicates Sample.unkeyed Sample.no_history
  <> Ok (with_rows Sample.unkeyed
           (filter (fun r => negb (occurs (key_of Sample.unkeyed r)
                                     (map (key_of Sample.no_history) (rows Sample.no_history))))
              (rows Sample.unkeyed))).
Proof. vm_compute. discriminate. Qed.

(** ** Columns are kept *)

Lemma loc_Ok (l : string) (df : DataFrame) (i : nat) :
  loc l df = Ok i -> index l (columns df) = Some i.
Proof.
  unfold loc. destruct (index l (columns df)); intros H; [congruence | discriminate H].
Qed.

Lemma apply_columns (l : string) (f : cell -> result cell) (df df' : DataFrame) :
  apply l f df = Ok df' -> columns df' = columns df /\ index l (columns df) <> None.
Proof.
  unfold apply. intros H. bind_inv H. bind_inv H. injection H as <-.
  apply loc_Ok in Ha. rewrite Ha. split; [reflexivity | discriminate].
Qed.

Lemma dropna_columns (ls : list string) (df df' : DataFrame) :
  dropna ls df = Ok df' -> columns df' = columns df.
Proof. unfold dropna. intros H. bind_inv H. injection H as <-. reflexivity. Qed.

Lemma astype_str_columns (l : string) (df df' : DataFrame) :
  astype_str l df = Ok df' -> columns df' = columns df.
Proof. unfold astype_str. intros H. bind_inv H. injection H as <-. reflexivity. Qed.

Lemma assign_where_columns (i : nat) (mask : cell -> bool) (f : cell -> result cell)
  (df df' : DataFrame) :
  assign_where i mask f df = Ok df' -> columns df' = columns df.
Proof. unfold assign_where. intros H. bind_inv H. injection H as <-. reflexivity. Qed.

Lemma format_price_columns (df df' : DataFrame) :
  __format_price df = Ok df' ->
  columns df' = columns df /\ index COLUMNS_last (columns df) <> None.
Proof.
  unfold __format_price. intros H.
  bind_inv H. apply dropna_columns in Ha.
  bind_inv H. apply astype_str_columns in Ha0.
  bind_inv H. apply loc_Ok in Ha1.
  bind_inv H. apply assign_where_columns in Ha2.
  bind_inv H. apply assign_where_columns in Ha3.
  bind_inv H. apply apply_columns in Ha4. destruct Ha4 as [Ha4 _].
  apply apply_columns in H. destruct H as [H _].
  simpl in *. split.
  - congruence.
  - rewrite <- Ha, <- Ha0, Ha1. discriminate.
Qed.

Lemma remove_whitespace_columns (df df' : DataFrame) :
  __remove_whitespace df = Ok df' -> columns df' = columns df /\ has_columns df.
Proof.
  unfold __remove_whitespace. intros H. bind_inv H.
  apply apply_columns in Ha. destruct Ha as [Ea Hp].
  apply apply_columns in H. destruct H as [E Ht].
  rewrite Ea in *. split; [exact E | split; assumption].
Qed.

Lemma old_table_has_columns (env : Env) (file : string) (h : DataFrame) :
  old_table env file = Ok (Some h) -> has_columns h.
Proof.
  unfold old_table. intros H. bind_inv H.
  destruct a as [df_old|]; [|discriminate H].
  destruct (fst (__get_columns (columns df_old) None)) as [cols|]; [|discriminate H].
  bind_inv H. bind_inv H. injection H as <-.
  apply remove_whitespace_columns in Ha0. destruct Ha0 as [E [Ht Hp]].
  apply format_price_columns in Ha1. destruct Ha1 as [E' _].
  unfold has_columns. rewrite E', E. split; assumption.
Qed.

(** ** [__process_matching_files] *)

Lemma filter_and {A : Type} (p q : A -> bool) (l : list A) :
  filter (fun x => p x && q x) l = filter q (filter p l).
Proof.
  induction l as [|x l IH]; simpl; [reflexivity|].
  destruct (p x); simpl; [destruct (q x)|]; rewrite IH; reflexivity.
Qed.



Lemma with_rows_same (df : DataFrame) : with_rows df (rows df) = df.
Proof. destruct df. reflexivity. Qed.

Lemma normalised_filter (df : DataFrame) (p : row -> bool) :
  normalised df -> normalised (with_rows df (filter p (rows df))).
Proof.
  intros [H Htxt]. split; [exact H|].
  simpl. rewrite Forall_forall in *. intros r Hr.
  apply filter_In in Hr. destruct Hr as [Hr _]. exact (Htxt r Hr).
Qed.

(** One comparison: the rows of a normalised table whose pair is not a
    pair of the historical table. *)
Lemma drop_duplicates_normalised (df h : DataFrame) :
  normalised df -> has_columns h -> no_indicator_label df ->
  __drop_duplicates df h
  = Ok (with_rows df (filter (fun r => negb (occurs (key_of df r) (pairs h))) (rows df))).
Proof.
  intros Hn Hh Hfree. rewrite (drop_duplicates_spec df h (proj1 Hn) Hh Hfree).
  rewrite (normalised_keyed_rows df Hn). reflexivity.
Qed.





(** ** The matcher *)

Lemma orelse_Some {A : Type} (a b : option A) (x : A) :
  orelse a b = Some x -> a = Some x \/ b = Some x.
Proof. destruct a; simpl; intros H; [left | right]; exact H. Qed.

(** A match never moves the cursor back. *)
Lemma exec_forward (i : bool) (r : regex) :
  forall (cu : cursor) (k : cursor -> option cursor) (res : cursor),
    exec i r cu k = Some res ->
    exists cu', (pos cu <= pos cu')%nat /\ k cu' = Some res.
Proof.
  assert (Hone : forall ok cu k res,
             one ok cu k = Some res ->
             exists cu', (pos cu <= pos cu')%nat /\ k cu' = Some res).
  { intros ok cu k res. unfold one. destruct (rest cu) as [|c s']; [discriminate|].
    destruct (ok c); [|discriminate]. intros H. exists (step cu s'). split; [simpl; lia | exact H]. }
  induction r as [| a | | p | r1 IH1 r2 IH2 | r1 IH1 r2 IH2 | r1 IH1 | n r1 IH1 | r1 IH1 |];
    intros cu k res H; cbn [exec] in H.
  - exists cu. split; [lia | exact H].
  - eapply Hone; exact H.
  - eapply Hone; exact H.
  - eapply Hone; exact H.
  - apply IH1 in H. destruct H as (cu1 & Hle1 & H).
    apply IH2 in H. destruct H as (cu2 & Hle2 & H).
    exists cu2. split; [lia | exact H].
  - apply orelse_Some in H. destruct H as [H|H]; [apply IH1 in H | apply IH2 in H];
      exact H.
  - remember (String.length (rest cu)) as fuel eqn:Ef. clear Ef. revert cu H.
    induction fuel as [|fuel IHf]; intros cu H.
    + exists cu. split; [lia | exact H].
    + apply orelse_Some in H. destruct H as [H|H].
      * apply IH1 in H. destruct H as (cu1 & Hle1 & H).
        destruct (pos cu1 =? pos cu)%nat; [discriminate H|].
        apply IHf in H. destruct H as (cu2 & Hle2 & H).
        exists cu2. split; [lia | exact H].
      * exists cu. split; [lia | exact H].
  - apply IH1 in H. destruct H as (cu1 & Hle1 & H).
    exists (close_group n (pos cu) cu1). split; [exact Hle1 | exact H].
  - destruct (exec i r1 cu Some); [discriminate H|].
    exists cu. split; [lia | exact H].
  - destruct (at_end (rest cu)); [|discriminate H].
    exists cu. split; [lia | exact H].
Qed.

(** A repetition matches wherever what follows it matches. *)
Lemma exec_Star_some (i : bool) (r : regex) (cu : cursor) (k : cursor -> option cursor) :
  k cu <> None -> exec i (Star r) cu k <> None.
Proof.
  intros Hk. cbn [exec]. destruct (String.length (rest cu)) as [|fuel]; [exact Hk|].
  match goal with |- orelse ?a _ <> None => destruct a end; simpl; [discriminate | exact Hk].
Qed.

Lemma search_from_hit (i : bool) (r : regex) (whole s : string) (n : nat) :
  exec i r {| rest := s; pos := n; spans := [] |} Some <> None ->
  found (search_from i r whole s n) = true.
Proof.
  intros H. destruct s; cbn [search_from];
    destruct (exec i r _ Some); try reflexivity; congruence.
Qed.

(** [r"\d*\s*"] is found in every text. *)
Lemma digits_spaces_everywhere (v : cell) : contains DIGITS_SPACES_RE v = true.
Proof.
  unfold contains, search. apply search_from_hit.
  unfold DIGITS_SPACES_RE. change (exec false (Cat ?a ?b) ?cu ?k)
    with (exec false a cu (fun cu' => exec false b cu' k)).
  apply exec_Star_some. apply exec_Star_some. discriminate.
Qed.

(** A match of [r"\d+.?\d*"] starts on a digit and is not empty. *)
Lemma exec_NUMBER_RE (cu res : cursor) (k : cursor -> option cursor) :
  exec false NUMBER_RE cu k = Some res ->
  exists c s', rest cu = String c s' /\ isdigit c = true /\
               exists cu', (S (pos cu) <= pos cu')%nat /\ k cu' = Some res.
Proof.
  unfold NUMBER_RE, Plus.
  change (exec false (Cat (Cat (OneOf isdigit) ?b) ?c) cu k)
    with (one (class_matches false isdigit) cu
            (fun cu1 => exec false b cu1 (fun cu2 => exec false c cu2 k))).
  unfold one. destruct (rest cu) as [|c s']; [discriminate|].
  unfold class_matches. destruct (isdigit c) eqn:Ed; [|discriminate].
  intros H. exists c, s'. split; [reflexivity | split; [exact Ed|]].
  apply (exec_forward false (Star (OneOf isdigit))) in H.
  destruct H as (cu1 & Hle1 & H).
  apply (exec_forward false (Cat (Opt Dot) (Star (OneOf isdigit)))) in H.
  destruct H as (cu2 & Hle2 & H).
  exists cu2. split; [simpl in Hle1; lia | exact H].
Qed.

Lemma append_cons_assoc (pre : string) (x : ascii) (s : string) :
  (pre ++ String x "") ++ s = pre ++ String x s.
Proof. induction pre as [|c pre IH]; simpl; [reflexivity | rewrite IH; reflexivity]. Qed.

Lemma length_append_one (pre : string) (x : ascii) :
  String.length (pre ++ String x "") = S (String.length pre).
Proof. induction pre as [|c pre IH]; simpl; [reflexivity | rewrite IH; reflexivity]. Qed.

Lemma substring_after (pre s : string) (k : nat) :
  substring (String.length pre) k (pre ++ s) = substring 0 k s.
Proof. induction pre as [|c pre IH]; simpl; [reflexivity | exact IH]. Qed.

(** The text of the first match of [r"\d+.?\d*"] starts with a digit. *)
Lemma search_NUMBER_RE (whole : string) :
  forall (s pre : string) (n : nat) (m : Match),
    whole = pre ++ s -> String.length pre = n ->
    search_from false NUMBER_RE whole s n = Some m ->
    exists c t, group0 m = String c t /\ isdigit c = true.
Proof.
  induction s as [|x s IH]; intros pre n m Hw Hn H; cbn [search_from] in H.
  - destruct (exec false NUMBER_RE _ Some) as [cu|] eqn:E; [|discriminate H].
    apply exec_NUMBER_RE in E. destruct E as (c & s' & Hr & _). discriminate Hr.
  - destruct (exec false NUMBER_RE _ Some) as [cu|] eqn:E.
    + injection H as <-. apply exec_NUMBER_RE in E.
      destruct E as (c & s' & Hr & Hd & cu' & Hle & Hk).
      injection Hk as ->. cbn [rest pos] in Hr, Hle. injection Hr as Hx Hs.
      subst c s'. unfold group0. cbn [m_start m_end subject].
      destruct (pos cu - n)%nat as [|j] eqn:Ej; [lia|].
      subst whole n. rewrite substring_after. cbn [substring].
      exists x, (substring 0 j s). split; [reflexivity | exact Hd].
    + apply (IH (pre ++ String x "") (S n) m).
      * rewrite append_cons_assoc. exact Hw.
      * rewrite length_append_one. congruence.
      * exact H.
Qed.

(** ** The domain token *)

(** A match keeps the span of a group that the pattern does not close. *)
Lemma exec_keeps_span (i : bool) (n : nat) (r : regex) :
  no_group n r = true ->
  forall (cu : cursor) (k : cursor -> option cursor) (res : cursor),
    exec i r cu k = Some res ->
    exists cu', lookup_span n (spans cu') = lookup_span n (spans cu) /\ k cu' = Some res.
Proof.
  assert (Hone : forall ok cu k res,
             one ok cu k = Some res ->
             exists cu', lookup_span n (spans cu') = lookup_span n (spans cu)
                         /\ k cu' = Some res).
  { intros ok cu k res. unfold one. destruct (rest cu) as [|c s']; [discriminate|].
    destruct (ok c); [|discriminate]. intros H. exists (step cu s'). split; [reflexivity | exact H]. }
  induction r as [| a | | p | r1 IH1 r2 IH2 | r1 IH1 r2 IH2 | r1 IH1 | m r1 IH1 | r1 IH1 |];
    intros Hn cu k res H; cbn [exec] in H; cbn [no_group] in Hn.
  - exists cu. split; [reflexivity | exact H].
  - eapply Hone; exact H.
  - eapply Hone; exact H.
  - eapply Hone; exact H.
  - apply andb_true_iff in Hn. destruct Hn as [Hn1 Hn2].
    apply (IH1 Hn1) in H. destruct H as (cu1 & E1 & H).
    apply (IH2 Hn2) in H. destruct H as (cu2 & E2 & H).
    exists cu2. split; [congruence | exact H].
  - apply andb_true_iff in Hn. destruct Hn as [Hn1 Hn2].
    apply orelse_Some in H. destruct H as [H|H];
      [apply (IH1 Hn1) in H | apply (IH2 Hn2) in H]; exact H.
  - remember (String.length (rest cu)) as fuel eqn:Ef. clear Ef. revert cu H.
    induction fuel as [|fuel IHf]; intros cu H.
    + exists cu. split; [reflexivity | exact H].
    + apply orelse_Some in H. destruct H as [H|H].
      * apply (IH1 Hn) in H. destruct H as (cu1 & E1 & H).
        destruct (pos cu1 =? pos cu)%nat; [discriminate H|].
        apply IHf in H. destruct H as (cu2 & E2 & H).
        exists cu2. split; [congruence | exact H].
      * exists cu. split; [reflexivity | exact H].
  - apply andb_true_iff in Hn. destruct Hn as [Hnm Hn1].
    apply (IH1 Hn1) in H. destruct H as (cu1 & E1 & H).
    exists (close_group m (pos cu) cu1). split; [|exact H].
    cbn [spans close_group lookup_span].
    apply negb_true_iff in Hnm. rewrite Hnm. exact E1.
  - destruct (exec i r1 cu Some); [discriminate H|].
    exists cu. split; [reflexivity | exact H].
  - destruct (at_end (rest cu)); [|discriminate H].
    exists cu. split; [reflexivity | exact H].
Qed.

(** What a repeated class consumes: characters of the class, with the
    spans left alone. *)
Lemma exec_Star_OneOf (i : bool) (p : ascii -> bool) :
  forall (cu : cursor) (k : cursor -> option cursor) (res : cursor),
    exec i (Star (OneOf p)) cu k = Some res ->
    exists w cu',
      k cu' = Some res /\ rest cu = w ++ rest cu' /\
      pos cu' = (pos cu + String.length w)%nat /\ spans cu' = spans cu /\
      all_chars (class_matches i p) w = true.
Proof.
  intros cu k res H. cbn [exec] in H.
  remember (String.length (rest cu)) as fuel eqn:Ef. clear Ef. revert cu H.
  induction fuel as [|fuel IHf]; intros cu H.
  - exists EmptyString, cu. repeat split; [exact H | cbn; lia].
  - apply orelse_Some in H. destruct H as [H|H].
    + unfold one in H. destruct (rest cu) as [|c s'] eqn:Er; [discriminate H|].
      destruct (class_matches i p c) eqn:Ec; [|discriminate H].
      cbn [pos step] in H. rewrite (proj2 (Nat.eqb_neq _ _)) in H by lia.
      apply IHf in H. destruct H as (w & cu' & Hk & Hr & Hp & Hs & Hall).
      exists (String c w), cu'. cbn [rest pos spans step] in *.
      repeat split; auto.
      * cbn [append]. rewrite Hr. reflexivity.
      * cbn [String.length]. lia.
      * cbn [all_chars]. rewrite Ec, Hall. reflexivity.
    + exists EmptyString, cu. repeat split; [exact H | cbn; lia].
Qed.

Lemma domain_chr_either_case (c : ascii) :
  class_matches true domain_chr c = domain_chr c.
Proof. destruct c as [[] [] [] [] [] [] [] []]; reflexivity. Qed.

Lemma all_chars_ext (p q : ascii -> bool) (s : string) :
  (forall c, p c = q c) -> all_chars p s = all_chars q s.
Proof.
  intros H. induction s as [|c s IH]; cbn [all_chars]; [reflexivity|].
  rewrite H, IH. reflexivity.
Qed.

Lemma substring_middle (pre w t : string) :
  substring (String.length pre) (String.length w) (pre ++ w ++ t) = w.
Proof.
  rewrite substring_after. induction w as [|c w IH]; cbn.
  - destruct t; reflexivity.
  - rewrite IH. reflexivity.
Qed.

(** The match of [DOMAIN_RE] at a cursor: group 1 spans a non-empty run
    of letters, digits, dots and hyphens that starts at the cursor. *)
Lemma exec_DOMAIN_RE (cu res : cursor) :
  exec true DOMAIN_RE cu Some = Some res ->
  exists w t,
    rest cu = String.append w t /\ w <> EmptyString /\
    all_chars domain_chr w = true /\
    lookup_span 1 (spans res) = Some (pos cu, (pos cu + String.length w)%nat).
Proof.
  unfold DOMAIN_RE, Plus.
  match goal with
  | |- exec true (Cat (Group 1 (Cat (Cat (OneOf ?p) ?st) ?la)) ?tl) cu Some = _ -> _ =>
      change (exec true (Cat (Group 1 (Cat (Cat (OneOf p) st) la)) tl) cu Some)
        with (one (class_matches true p) cu
                (fun cu1 =>
                   exec true st cu1
                     (fun cu2 =>
                        exec true la cu2
                          (fun cu3 => exec true tl (close_group 1 (pos cu) cu3) Some))))
  end.
  unfold one. destruct (rest cu) as [|c s'] eqn:Er; [discriminate|].
  destruct (class_matches true domain_chr c) eqn:Ec; [|discriminate].
  intros H. apply exec_Star_OneOf in H.
  destruct H as (w & cu2 & H & Hr & Hp & Hs & Hall).
  change (exec true (NotAhead ?r) ?c ?k)
    with (match exec true r c Some with Some _ => None | None => k c end) in H.
  destruct (exec true (OneOf slash) cu2 Some); [discriminate H|].
  apply (exec_keeps_span true 1) in H; [|reflexivity].
  destruct H as (cu' & Esp & H). injection H as ->.
  cbn [rest pos spans step close_group lookup_span] in *.
  exists (String c w), (rest cu2). repeat split.
  - cbn [append]. rewrite Hr. reflexivity.
  - discriminate.
  - cbn [all_chars]. rewrite domain_chr_either_case in Ec. rewrite Ec. cbn [andb].
    rewrite <- Hall. apply all_chars_ext. intros x. symmetry. apply domain_chr_either_case.
  - rewrite Esp. cbn [Nat.eqb]. rewrite Hp. cbn [String.length]. f_equal. f_equal. lia.
Qed.

Lemma search_DOMAIN_RE (whole : string) :
  forall (s pre : string) (n : nat) (m : Match),
    whole = pre ++ s -> String.length pre = n ->
    search_from true DOMAIN_RE whole s n = Some m ->
    group 1 m <> EmptyString /\ all_chars domain_chr (group 1 m) = true.
Proof.
  induction s as [|x s IH]; intros pre n m Hw Hn H; cbn [search_from] in H.
  - destruct (exec true DOMAIN_RE _ Some) as [cu|] eqn:E; [|discriminate H].
    apply exec_DOMAIN_RE in E. destruct E as (w & t & Hr & Hne & _).
    cbn [rest] in Hr. destruct w; [congruence | discriminate Hr].
  - destruct (exec true DOMAIN_RE _ Some) as [cu|] eqn:E.
    + injection H as <-. apply exec_DOMAIN_RE in E.
      destruct E as (w & t & Hr & Hne & Hall & Hsp). cbn [rest pos] in Hr, Hsp.
      unfold group. cbn [m_spans subject]. rewrite Hsp.
      replace (n + String.length w - n)%nat with (String.length w) by lia.
      subst whole n. rewrite Hr, substring_middle. split; assumption.
    + apply (IH (pre ++ String x "") (S n) m).
      * rewrite append_cons_assoc. exact Hw.
      * rewrite length_append_one. congruence.
      * exact H.
Qed.

(** A domain token is a non-empty text of letters, digits, dots and
    hyphens: of the characters that are special in a pattern it can hold
    the dot only, as [domain_pattern] assumes. *)
Lemma domain_token_chars (new_file : string) (m : Match) :
  search_I DOMAIN_RE new_file = Some m ->
  group 1 m <> EmptyString /\ all_chars domain_chr (group 1 m) = true.
Proof.
  intros H. exact (search_DOMAIN_RE new_file new_file EmptyString 0 m eq_refl eq_refl H).
Qed.

(** ** [__get_matching_files] *)

(** The pattern of a domain token matches at a cursor exactly when the
    token, its dots read as wildcards, stands there. *)
Lemma exec_domain_pattern (d : string) :
  forall (cu : cursor) (k : cursor -> option cursor),
    (wildcard_at d (rest cu) = true ->
     exists cu', exec true (domain_pattern d) cu k = k cu') /\
    (wildcard_at d (rest cu) = false ->
     exec true (domain_pattern d) cu k = None).
Proof.
  induction d as [|c d IH]; intros cu k.
  - split; intros H.
    + exists cu. reflexivity.
    + destruct (rest cu); discriminate H.
  - cbn [domain_pattern exec].
    assert (Hone : forall ok,
               (forall x, ok x = if Ascii.eqb c "." then negb (Ascii.eqb x newline)
                                  else Ascii.eqb (lower c) (lower x)) ->
               (wildcard_at (String c d) (rest cu) = true ->
                exists cu', one ok cu (fun cu' => exec true (domain_pattern d) cu' k) = k cu') /\
               (wildcard_at (String c d) (rest cu) = false ->
                one ok cu (fun cu' => exec true (domain_pattern d) cu' k) = None)).
    { intros ok Hok. unfold one. destruct (rest cu) as [|x s'] eqn:Er; cbn [wildcard_at].
      - split; intros H; [discriminate H | reflexivity].
      - rewrite Hok.
        destruct (if Ascii.eqb c "." then negb (Ascii.eqb x newline)
                  else Ascii.eqb (lower c) (lower x)); cbn [andb].
        + destruct (IH (step cu s') k) as [IHt IHf]. split; intros H.
          * apply IHt. exact H.
          * apply IHf. exact H.
        + split; intros H; [discriminate H | reflexivity]. }
    destruct (Ascii.eqb c ".") eqn:Ec; cbn [exec].
    + apply Hone. intros x. reflexivity.
    + apply Hone. intros x. reflexivity.
Qed.

Lemma search_domain_pattern (d whole s : string) (n : nat) :
  found (search_from true (domain_pattern d) whole s n) = contains_wildcard d s.
Proof.
  revert n. induction s as [|x s IH]; intros n; cbn [search_from contains_wildcard].
  - destruct (exec_domain_pattern d {| rest := ""; pos := n; spans := [] |} Some) as [Ht Hf].
    cbn [rest] in Ht, Hf. destruct (wildcard_at d "") eqn:E.
    + destruct (Ht eq_refl) as (cu' & ->). reflexivity.
    + rewrite (Hf eq_refl). reflexivity.
  - destruct (exec_domain_pattern d {| rest := String x s; pos := n; spans := [] |} Some)
      as [Ht Hf].
    cbn [rest] in Ht, Hf. destruct (wildcard_at d (String x s)) eqn:E.
    + destruct (Ht eq_refl) as (cu' & ->). reflexivity.
    + rewrite (Hf eq_refl). cbn [orb]. apply IH.
Qed.

Lemma wildcard_at_literal (d s : string) :
  mem "." d = false -> wildcard_at d s = literal_at d s.
Proof.
  revert s. induction d as [|c d IH]; intros s H; [reflexivity|].
  cbn [mem] in H. apply orb_false_iff in H. destruct H as [Hc Hd].
  destruct s as [|x s]; [reflexivity|]. cbn [wildcard_at literal_at].
  rewrite Ascii.eqb_sym in Hc. rewrite Hc, (IH s Hd). reflexivity.
Qed.

Lemma contains_wildcard_literal (d s : string) :
  mem "." d = false -> contains_wildcard d s = contains_literal d s.
Proof.
  intros H. induction s as [|x s IH]; cbn [contains_wildcard contains_literal];
    rewrite (wildcard_at_literal d _ H); [reflexivity|].
  rewrite IH. reflexivity.
Qed.

(** C5, as amended.  When a domain token is found in the name of the new
    file, the token is made of letters, digits, dots and hyphens, and
    [__get_matching_files] selects, in their order, exactly the
    historical paths in which the token read as a pattern occurs: a dot
    of the token stands for any one character but a newline, every other
    character for itself in either case.  For a token without a dot this
    is literal containment, letter case apart. *)
Theorem matching_files_by_pattern (self : Deduplicator) (new_file name : string)
  (m : Match) :
  search_I DOMAIN_RE new_file = Some m ->
  all_chars domain_chr (group 1 m) = true
  /\ __get_matching_files self new_file name
     = Ok {| domain := group 1 m;
             file_paths := filter (contains_wildcard (group 1 m)) (old_files self) |}
  /\ (mem "." (group 1 m) = false ->
      filter (contains_wildcard (group 1 m)) (old_files self)
      = filter (contains_literal (group 1 m)) (old_files self)).
Proof.
  intros Hm. split; [exact (proj2 (domain_token_chars new_file m Hm)) | split].
  - unfold __get_matching_files. rewrite Hm. do 2 f_equal.
    apply filter_ext. intros file. unfold search_I. apply search_domain_pattern.
  - intros Hdot. apply filter_ext. intros file.
    apply contains_wildcard_literal. exact Hdot.
Qed.

Lemma matching_files_by_pattern_witness :
  search_I DOMAIN_RE "./new/shop-1.csv"
  = Some {| subject := "./new/shop-1.csv"; m_start := 6; m_end := 16;
            m_spans := [(2, (13, 16)); (1, (6, 12))]%nat |}
  /\ __get_matching_files (Sample.start Sample.mixed_old []) "./new/shop-1.csv" "shop-1.csv"
     = Ok {| domain := "shop-1";
             file_paths := ["./old/SHOP-1_2023.csv"; "./old/x/shop-1.xlsx"] |}.
Proof.
  assert (Hm : search_I DOMAIN_RE "./new/shop-1.csv"
               = Some {| subject := "./new/shop-1.csv"; m_start := 6; m_end := 16;
                         m_spans := [(2, (13, 16)); (1, (6, 12))]%nat |})
    by (vm_compute; reflexivity).
  split; [exact Hm|].
  rewrite (proj1 (proj2 (matching_files_by_pattern (Sample.start Sample.mixed_old [])
                           "./new/shop-1.csv" "shop-1.csv" _ Hm))).
  vm_compute. reflexivity.
Defined.

(** The claim of C5 as it is worded fails on a token with a dot: the
    token [a.b] of the new file selects [./old/axb.csv], which does not
    contain it. *)
Lemma matching_files_not_literal :
  __get_matching_files (Sample.start Sample.dotted_old []) "./new/a.b.csv" "a.b.csv"
  = Ok {| domain := "a.b"; file_paths := ["./old/axb.csv"; "./old/a.b_1.csv"] |}
  /\ filter (contains_literal "a.b") Sample.dotted_old = ["./old/a.b_1.csv"].
Proof. split; vm_compute; reflexivity. Qed.

(** ** Floats read from digits *)

Local Open Scope Z_scope.

Lemma digit_val_nonneg (c : ascii) : 0 <= digit_val c.
Proof. unfold digit_val. lia. Qed.

Lemma more_digits_nonneg (s : string) :
  forall acc n a k r, more_digits s acc n = (a, k, r) -> 0 <= acc -> 0 <= a.
Proof.
  induction s as [s IH] using
    (well_founded_induction (well_founded_ltof _ String.length)).
  intros acc n a k r H Hacc. destruct s as [|c s]; cbn [more_digits] in H.
  - injection H as <- _ _. exact Hacc.
  - destruct (isdigit c).
    + apply (IH s) in H; [exact H | unfold ltof; simpl; lia |].
      pose proof (digit_val_nonneg c). lia.
    + destruct (Ascii.eqb c "_").
      * destruct s as [|d s']; [injection H as <- _ _; exact Hacc|].
        destruct (isdigit d).
        -- apply (IH s') in H; [exact H | unfold ltof; simpl; lia |].
           pose proof (digit_val_nonneg d). lia.
        -- injection H as <- _ _. exact Hacc.
      * injection H as <- _ _. exact Hacc.
Qed.

Lemma digitpart_nonneg (acc : Z) (s : string) (a k : Z) (r : string) :
  digitpart acc s = Some (a, k, r) -> 0 <= acc -> 0 <= a.
Proof.
  unfold digitpart. destruct s as [|c s]; [discriminate|].
  destruct (isdigit c); [|discriminate]. intros H Hacc. injection H as H.
  apply more_digits_nonneg in H; [exact H|].
  pose proof (digit_val_nonneg c). lia.
Qed.

Lemma floatnumber_nonneg (s : string) (mant e10 : Z) :
  floatnumber s = Some (mant, e10) -> 0 <= mant.
Proof.
  unfold floatnumber.
  destruct (digitpart 0 s) as [[[ip n] r]|] eqn:E.
  - apply digitpart_nonneg in E; [|lia].
    destruct (after_point r) as [r'|].
    + destruct (digitpart ip r') as [[[mt nf] r'']|] eqn:E'.
      * apply digitpart_nonneg in E'; [|exact E].
        destruct (exponent r''); simpl; intros H; [|discriminate H].
        injection H as <- _. exact E'.
      * destruct (exponent r'); simpl; intros H; [|discriminate H].
        injection H as <- _. exact E.
    + destruct (exponent r); simpl; intros H; [|discriminate H].
      injection H as <- _. exact E.
  - destruct (after_point s) as [r'|]; [|discriminate].
    destruct (digitpart 0 r') as [[[mt nf] r'']|] eqn:E'; [|discriminate].
    apply digitpart_nonneg in E'; [|lia].
    destruct (exponent r''); simpl; intros H; [|discriminate H].
    injection H as <- _. exact E'.
Qed.

Lemma div_half_even_nonneg (num den : Z) : 0 <= num -> 0 < den -> 0 <= div_half_even num den.
Proof.
  intros Hn Hd. unfold div_half_even.
  assert (0 <= num / den) by (apply Z.div_pos; lia).
  destruct (2 * (num mod den) <? den); [lia|].
  destruct (den <? 2 * (num mod den)); [lia|].
  destruct (Z.even (num / den)); lia.
Qed.

(** The nearest float to a non-negative quotient is infinite or has a
    non-negative significand, with the sign asked for. *)
Lemma nearest_shape (neg : bool) (num den : Z) :
  0 <= num -> 0 < den ->
  nearest neg num den = Inf neg \/ exists m e, nearest neg num den = Fin neg m e /\ 0 <= m.
Proof.
  intros Hn Hd. unfold nearest.
  destruct (num =? 0); [right; exists 0, emin; split; [reflexivity | lia]|].
  cbv zeta.
  match goal with
  | |- context [Z.max ?a emin] => generalize (Z.max a emin)
  end.
  intros e.
  set (m := if 0 <=? e then div_half_even num (den * 2 ^ e)
            else div_half_even (num * 2 ^ (- e)) den).
  assert (Hm : 0 <= m).
  { unfold m. destruct (0 <=? e) eqn:Ee.
    - apply Z.leb_le in Ee. apply div_half_even_nonneg; [exact Hn|].
      apply Z.mul_pos_pos; [exact Hd | apply Z.pow_pos_nonneg; lia].
    - apply div_half_even_nonneg; [|exact Hd].
      apply Z.mul_nonneg_nonneg; [exact Hn | apply Z.pow_nonneg; lia]. }
  destruct (emax <? (if m =? 2 ^ 53 then e + 1 else e)); [left; reflexivity|].
  right. eexists _, _. split; [reflexivity|].
  destruct (m =? 2 ^ 53); [apply Z.pow_nonneg; lia | exact Hm].
Qed.

Lemma of_decimal_shape (neg : bool) (mant e10 : Z) :
  0 <= mant ->
  of_decimal neg mant e10 = Inf neg \/
  exists m e, of_decimal neg mant e10 = Fin neg m e /\ 0 <= m.
Proof.
  intros Hm. unfold of_decimal.
  destruct (mant =? 0); [right; exists 0, emin; split; [reflexivity | lia]|].
  destruct (0 <=? e10) eqn:Ee.
  - apply Z.leb_le in Ee. apply nearest_shape; [|lia].
    apply Z.mul_nonneg_nonneg; [exact Hm | apply Z.pow_nonneg; lia].
  - apply Z.leb_gt in Ee. apply nearest_shape; [exact Hm|].
    apply Z.pow_pos_nonneg; lia.
Qed.

Local Close Scope Z_scope.

Lemma digit_facts (c : ascii) :
  isdigit c = true ->
  isspace c = false /\ Ascii.eqb c "-" = false /\ Ascii.eqb c "+" = false /\
  lower c = c /\ Ascii.eqb c "i" = false /\ Ascii.eqb c "n" = false.
Proof.
  destruct c as [[] [] [] [] [] [] [] []]; intros H; try discriminate H;
    repeat split; reflexivity.
Qed.

(** What [float] skips is white space. *)
Lemma float_space_isspace (c : ascii) : float_space c = true -> isspace c = true.
Proof.
  destruct c as [[] [] [] [] [] [] [] []]; intros H; try discriminate H; reflexivity.
Qed.

Lemma digit_not_float_space (c : ascii) : isdigit c = true -> float_space c = false.
Proof.
  intros H. destruct (digit_facts c H) as (Hs & _).
  destruct (float_space c) eqn:E; [|reflexivity].
  apply float_space_isspace in E. congruence.
Qed.

(** The float of a text that starts with a digit is not negative and is
    not [NaN]. *)
Lemma float_of_str_digit_first (c : ascii) (t : string) (x : float) :
  isdigit c = true -> float_of_str (String c t) = Ok x ->
  x = Inf false \/ exists m e, x = Fin false m e /\ (0 <= m)%Z.
Proof.
  intros Hd. destruct (digit_facts c Hd) as (_ & Hminus & Hplus & Hlow & Hi & Hn).
  pose proof (digit_not_float_space c Hd) as Hsp.
  unfold float_of_str, float_strip. cbn [lstrip_by]. rewrite Hsp.
  assert (Hr : exists t', rstrip_by float_space (String c t) = String c t').
  { cbn [rstrip_by]. destruct (rstrip_by float_space t); rewrite ?Hsp; eexists; reflexivity. }
  destruct Hr as (t' & ->).
  unfold sign_of. rewrite Hminus, Hplus.
  cbn [str_lower]. rewrite Hlow.
  cbn [String.eqb]. rewrite Hi, Hn. cbn [orb].
  destruct (floatnumber (String c t')) as [[mant e10]|] eqn:E; [|discriminate].
  intros H. injection H as <-. apply of_decimal_shape.
  exact (floatnumber_nonneg _ _ _ E).
Qed.

(** ** Rows through [__format_price] *)

Lemma Forall2_In_r {A B : Type} (R : A -> B -> Prop) (l : list A) (l' : list B) (y : B) :
  Forall2 R l l' -> In y l' -> exists x, In x l /\ R x y.
Proof.
  induction 1 as [|x y' l l' Hxy _ IH]; intros Hin; [destruct Hin|].
  destruct Hin as [<-|Hin].
  - exists x. split; [left; reflexivity | exact Hxy].
  - destruct (IH Hin) as (x' & Hx' & HR). exists x'. split; [right; exact Hx' | exact HR].
Qed.

Lemma Forall2_In_combine {A B : Type} (R : A -> B -> Prop) (l : list A) (l' : list B)
  (x : A) (y : B) :
  Forall2 R l l' -> In (x, y) (combine l l') -> In x l /\ R x y.
Proof.
  induction 1 as [|x' y' l l' Hxy _ IH]; intros Hin; [destruct Hin|].
  destruct Hin as [E|Hin].
  - injection E as <- <-. split; [left; reflexivity | exact Hxy].
  - destruct (IH Hin) as [Hx HR]. split; [right; exact Hx | exact HR].
Qed.

Lemma apply_rows (l : string) (f : cell -> result cell) (df df' : DataFrame) :
  apply l f df = Ok df' ->
  exists i, index l (columns df) = Some i /\ columns df' = columns df /\
    forall r', In r' (rows df') ->
      exists r v, In r (rows df) /\ f (get i r) = Ok v /\ r' = put i v r.
Proof.
  unfold apply. intros H. bind_inv H. bind_inv H. injection H as <-.
  apply loc_Ok in Ha. exists a. split; [exact Ha | split; [reflexivity|]].
  intros r' Hr'. apply mapM_Ok in Ha0.
  destruct (Forall2_In_r _ _ _ _ Ha0 Hr') as (r & Hr & Hf).
  bind_inv Hf. injection Hf as <-. exists r, a1. auto.
Qed.

Lemma assign_where_rows (i : nat) (mask : cell -> bool) (f : cell -> result cell)
  (df df' : DataFrame) :
  assign_where i mask f df = Ok df' ->
  columns df' = columns df /\
  forall r', In r' (rows df') ->
    exists r v, In r (rows df) /\ f (get i r) = Ok v /\
                r' = if mask (get i r) then put i v r else r.
Proof.
  unfold assign_where. intros H. bind_inv H. injection H as <-.
  split; [reflexivity|]. intros r' Hr'. cbn [rows with_rows] in Hr'.
  apply in_map_iff in Hr'. destruct Hr' as ([r v] & <- & Hin).
  apply mapM_Ok in Ha. destruct (Forall2_In_combine _ _ _ _ _ Ha Hin) as [Hr Hf].
  exists r, v. auto.
Qed.

Lemma text_in_range (i : nat) (r : row) (s : string) :
  get i r = CStr s -> (i < List.length r)%nat.
Proof. intros H. apply get_in_range. rewrite H. reflexivity. Qed.

Local Open Scope Z_scope.

Lemma isdigit_digit_chr (k : Z) : 0 <= k <= 9 -> isdigit (digit_chr k) = true.
Proof.
  intros H.
  assert (E : k = 0 \/ k = 1 \/ k = 2 \/ k = 3 \/ k = 4 \/ k = 5 \/ k = 6 \/ k = 7 \/
              k = 8 \/ k = 9) by lia.
  repeat (destruct E as [->|E]; [reflexivity|]). subst k. reflexivity.
Qed.

Lemma hundredths_nonneg (m e : Z) : 0 <= m -> 0 <= hundredths m e.
Proof.
  intros Hm. unfold hundredths. destruct (0 <=? e) eqn:Ee.
  - apply Z.mul_nonneg_nonneg; [|lia].
    apply Z.mul_nonneg_nonneg; [exact Hm | apply Z.pow_nonneg; lia].
  - apply Z.leb_gt in Ee. apply div_half_even_nonneg; [lia|].
    apply Z.pow_pos_nonneg; lia.
Qed.

(** A finite value that is not negative is written with its whole part
    in groups of three and exactly two decimals. *)
Lemma format_comma_2f_finite (m e : Z) :
  0 <= m ->
  exists q d1 d2,
    0 <= q /\ isdigit d1 = true /\ isdigit d2 = true /\
    format_comma_2f (Fin false m e)
    = (commas (decimal q) ++ "." ++ String d1 (String d2 EmptyString))%string.
Proof.
  intros Hm. pose proof (hundredths_nonneg m e Hm) as Hc.
  unfold format_comma_2f, two_digits.
  set (c := hundredths m e) in *.
  assert (Hd : 0 <= c mod 100 < 100) by (apply Z.mod_pos_bound; lia).
  exists (c / 100), (digit_chr (c mod 100 / 10)), (digit_chr ((c mod 100) mod 10)).
  split; [apply Z.div_pos; lia|].
  split.
  { apply isdigit_digit_chr.
    assert (c mod 100 / 10 < 10) by (apply Z.div_lt_upper_bound; lia).
    assert (0 <= c mod 100 / 10) by (apply Z.div_pos; lia). lia. }
  split.
  { apply isdigit_digit_chr.
    assert (0 <= (c mod 100) mod 10 < 10) by (apply Z.mod_pos_bound; lia). lia. }
  reflexivity.
Qed.

Local Close Scope Z_scope.

(** Every price that [__format_price] returns is the text of a float
    read from digits: [$inf], or a dollar sign, the whole part in groups
    of three, a point and two decimals. *)
Lemma format_price_rows (df df' : DataFrame) :
  __format_price df = Ok df' ->
  forall r', In r' (rows df') ->
    price_of df' r' = CStr "$inf" \/
    exists q d1 d2,
      (0 <= q)%Z /\ isdigit d1 = true /\ isdigit d2 = true /\
      price_of df' r'
      = CStr ("$" ++ commas (decimal q) ++ "." ++ String d1 (String d2 EmptyString)).
Proof.
  unfold __format_price. intros H.
  bind_in H as df1 Hdrop. bind_in H as df2 Hast. bind_in H as i Hloc.
  bind_in H as df5 Hclean. bind_in H as df6 Hnum. bind_in H as df7 Hflt.
  (* the rows after [astype]: their price is text *)
  assert (H2 : forall r, In r (rows df2) -> exists s, get i r = CStr s).
  { unfold dropna in Hdrop. bind_in Hdrop as ixs Hixs. injection Hdrop as <-.
    unfold astype_str in Hast. bind_in Hast as p Hp. injection Hast as <-.
    cbn [mapM] in Hixs. bind_in Hixs as p0 Hp0. cbn [bind] in Hixs.
    injection Hixs as <-.
    apply loc_Ok in Hloc, Hp, Hp0. cbn [columns with_rows] in *.
    assert (p = i) by congruence. assert (p0 = i) by congruence. subst p p0.
    intros r Hr. cbn [rows with_rows] in Hr. apply in_map_iff in Hr.
    destruct Hr as (r0 & <- & Hr0). apply filter_In in Hr0. destruct Hr0 as [_ Hna].
    cbn [forallb] in Hna. rewrite andb_true_r in Hna. apply negb_true_iff in Hna.
    eexists. apply get_put_same. apply get_in_range. exact Hna. }
  (* after the two filters and [clean] *)
  apply assign_where_rows in Hclean. destruct Hclean as [Ec5 Hclean].
  assert (H5 : forall r, In r (rows df5) -> exists s, get i r = CStr s).
  { intros r Hr. destruct (Hclean r Hr) as (r0 & v & Hr0 & Hv & ->).
    cbn [rows where_ with_rows] in Hr0.
    apply filter_In in Hr0. destruct Hr0 as [Hr0 _].
    apply filter_In in Hr0. destruct Hr0 as [Hr0 _].
    destruct (H2 r0 Hr0) as (s & Hs).
    destruct (contains DIGITS_SPACES_RE (get i r0)); [|eauto].
    unfold clean in Hv. injection Hv as <-.
    eexists. apply get_put_same. eapply text_in_range. exact Hs. }
  (* after [first_number] *)
  apply assign_where_rows in Hnum. destruct Hnum as [Ec6 Hnum].
  assert (H6 : forall r, In r (rows df6) ->
                 exists c t, get i r = CStr (String c t) /\ isdigit c = true).
  { intros r Hr. destruct (Hnum r Hr) as (r0 & v & Hr0 & Hv & ->).
    destruct (H5 r0 Hr0) as (s & Hs).
    rewrite digits_spaces_everywhere.
    unfold first_number in Hv. rewrite Hs in Hv. cbn [str] in Hv.
    destruct (search NUMBER_RE s) as [m|] eqn:Em; [|discriminate Hv].
    injection Hv as <-.
    destruct (search_NUMBER_RE s s EmptyString 0 m eq_refl eq_refl Em) as (c & t & -> & Hd).
    exists c, t. split; [|exact Hd].
    apply get_put_same. eapply text_in_range. exact Hs. }
  (* after [to_float] and [money] *)
  apply apply_rows in Hflt. destruct Hflt as (i7 & Hi7 & Ec7 & Hflt).
  apply apply_rows in H. destruct H as (i8 & Hi8 & Ec8 & H).
  apply loc_Ok in Hloc. cbn [columns where_ with_rows] in *.
  assert (i7 = i) by congruence. assert (i8 = i) by congruence. subst i7 i8.
  intros r' Hr'. unfold price_of.
  replace (index COLUMNS_last (columns df')) with (Some i) by congruence.
  destruct (H r' Hr') as (r7 & v8 & Hr7 & Hv8 & ->).
  destruct (Hflt r7 Hr7) as (r6 & v7 & Hr6 & Hv7 & ->).
  destruct (H6 r6 Hr6) as (c & t & Hs & Hd).
  assert (Hlen : (i < List.length r6)%nat) by (eapply text_in_range; exact Hs).
  rewrite get_put_same in Hv8 by exact Hlen.
  rewrite get_put_same by (rewrite length_put; exact Hlen).
  rewrite Hs in Hv7. unfold to_float in Hv7. bind_in Hv7 as x Hx. injection Hv7 as <-.
  unfold money in Hv8. injection Hv8 as <-.
  destruct (float_of_str_digit_first c t x Hd Hx) as [->|(m & e & -> & Hm)].
  - left. reflexivity.
  - right. destruct (format_comma_2f_finite m e Hm) as (q & d1 & d2 & Hq & H1 & H2' & ->).
    exists q, d1, d2. auto.
Qed.

(** The claim of C6 as it is worded fails on a price of 310 digits: it
    is kept, its value is infinite, and the text written for it has no
    decimals. *)
Lemma huge_price_has_no_decimals :
  normalise_prices Sample.huge_price = Ok (Sample.one_price (CStr "$inf"))
  /\ ~ (exists q d1 d2,
          CStr "$inf"
          = CStr ("$" ++ commas (decimal q) ++ "." ++ String d1 (String d2 EmptyString))).
Proof.
  split; [vm_compute; reflexivity|].
  intros (q & d1 & d2 & H). injection H as H. revert H.
  generalize (commas (decimal q)). intros s H.
  destruct s as [|a [|b [|c s]]]; cbn in H; try discriminate H.
  destruct s; discriminate H.
Qed.

(** C4, at a failing input.  A price followed by a currency code passes
    the filters, [r"\d+.?\d*"] takes the digit and the letter after it,
    and the conversion to float raises. *)
Theorem currency_suffix_raises :
  normalise_prices Sample.with_currency
  = Raise (ValueError "could not convert string to float: '5U'").
Proof. vm_compute. reflexivity. Qed.

(** ** Normalised tables *)

Lemma index_in_range (l : string) (ls : list string) (i : nat) :
  index l ls = Some i -> (i < List.length ls)%nat.
Proof.
  intros H. apply index_nth_error in H.
  apply nth_error_Some. rewrite H. discriminate.
Qed.

(** [__format_price] writes the price cell only. *)
Lemma format_price_keeps_cells (df df' : DataFrame) (p t : nat) :
  __format_price df = Ok df' ->
  index COLUMNS_last (columns df) = Some p -> t <> p ->
  forall r', In r' (rows df') -> exists r, In r (rows df) /\ get t r' = get t r.
Proof.
  unfold __format_price. intros H Hp Htp.
  bind_in H as df1 Hdrop. bind_in H as df2 Hast. bind_in H as i Hloc.
  bind_in H as df5 Hclean. bind_in H as df6 Hnum. bind_in H as df7 Hflt.
  unfold dropna in Hdrop. bind_in Hdrop as ixs Hixs. injection Hdrop as <-.
  unfold astype_str in Hast. bind_in Hast as p1 Hp1. injection Hast as <-.
  apply loc_Ok in Hloc, Hp1. cbn [columns with_rows] in *.
  assert (p1 = p) by congruence. assert (i = p) by congruence. subst p1 i.
  apply assign_where_rows in Hclean. destruct Hclean as [Ec5 Hclean].
  apply assign_where_rows in Hnum. destruct Hnum as [Ec6 Hnum].
  apply apply_rows in Hflt. destruct Hflt as (i7 & Hi7 & Ec7 & Hflt).
  apply apply_rows in H. destruct H as (i8 & Hi8 & Ec8 & H).
  cbn [columns where_ with_rows] in *.
  assert (i7 = p) by congruence. assert (i8 = p) by congruence. subst i7 i8.
  intros r' Hr'.
  destruct (H r' Hr') as (r7 & v8 & Hr7 & _ & ->).
  destruct (Hflt r7 Hr7) as (r6 & v7 & Hr6 & _ & ->).
  destruct (Hnum r6 Hr6) as (r5 & v6 & Hr5 & _ & ->).
  destruct (Hclean r5 Hr5) as (r4 & v5 & Hr4 & _ & ->).
  cbn [rows where_ with_rows] in Hr4.
  apply filter_In in Hr4. destruct Hr4 as [Hr4 _].
  apply filter_In in Hr4. destruct Hr4 as [Hr4 _].
  apply in_map_iff in Hr4. destruct Hr4 as (r0 & <- & Hr0).
  apply filter_In in Hr0. destruct Hr0 as [Hr0 _].
  exists r0. split; [exact Hr0|].
  rewrite !get_put_other by exact Htp.
  assert (E : forall (b : bool) v (r : row),
             get t (if b then put p v r else r) = get t r).
  { intros [] v r; [apply get_put_other; exact Htp | reflexivity]. }
  rewrite !E. apply get_put_other. exact Htp.
Qed.

(** What price normalisation returns from a table with one cell per
    column is a normalised table: the title and the price of every row
    are text. *)
Lemma normalise_prices_normalised (df df' : DataFrame) :
  well_formed df -> normalise_prices df = Ok df' -> normalised df'.
Proof.
  intros Hwf H. unfold normalise_prices in H. bind_in H as df1 Hws.
  pose proof (remove_whitespace_columns _ _ Hws) as [Ec1 Hcols].
  pose proof (format_price_columns _ _ H) as [Ec2 _].
  destruct (has_columns_indices df Hcols) as (t & p & Ht & Hp & Htp).
  split; [unfold has_columns; rewrite Ec2, Ec1; exact Hcols|].
  apply Forall_forall. intros r' Hr'. split.
  - unfold title_of. rewrite Ec2, Ec1, Ht.
    destruct (format_price_keeps_cells df1 df' p t H ltac:(congruence) Htp r' Hr')
      as (r1 & Hr1 & ->).
    unfold __remove_whitespace in Hws. bind_in Hws as df0 Hpr.
    apply apply_rows in Hws. destruct Hws as (t' & Ht' & _ & Hws).
    apply apply_rows in Hpr. destruct Hpr as (p' & Hp' & Ecp & Hpr).
    rewrite Ecp in Ht'. assert (t' = t) by congruence. subst t'.
    destruct (Hws r1 Hr1) as (r0 & v & Hr0 & Hv & ->). injection Hv as <-.
    destruct (Hpr r0 Hr0) as (r & v' & Hr & _ & ->).
    rewrite get_put_same; [reflexivity|].
    rewrite length_put. unfold well_formed in Hwf. rewrite Forall_forall in Hwf.
    rewrite (Hwf r Hr). exact (index_in_range _ _ _ Ht).
  - destruct (format_price_rows df1 df' H r' Hr') as [->|(q & d1 & d2 & _ & _ & _ & ->)];
      reflexivity.
Qed.

(** ** [run] *)

Lemma get_columns_fst (cols : list string) (s : option FileStats) :
  fst (__get_columns cols s) = fst (__get_columns cols None).
Proof.
  unfold __get_columns. destruct (make_columns _); [reflexivity|].
  destruct s; reflexivity.
Qed.

Lemma get_columns_keeps_stats (cols : list string) (st : FileStats) (c : Columns)
  (o : option FileStats) :
  __get_columns cols (Some st) = (Some c, o) -> o = Some st.
Proof.
  unfold __get_columns. destruct (make_columns _); intros H.
  - injection H as _ <-. reflexivity.
  - discriminate H.
Qed.

(** A round that ends has read its file, and has appended one record:
    the name of the file and the number of rows of the table as read. *)
Lemma run_file_Ok (env : Env) (self self' : Deduplicator) (file : string) :
  run_file env self file = Ok self' ->
  exists pieces df stats,
    split (INPUT_NEW_PATH env) file = Ok pieces /\
    __read_file env file = Ok (Some df) /\
    file_stats self' = (file_stats self ++ [stats])%list /\
    file_name stats = last pieces "" /\
    products_count_before stats = Some (len df).
Proof.
  unfold run_file. intros H.
  bind_inv H. bind_inv H. bind_inv H.
  destruct a0 as [df|]; [|discriminate Ha1].
  injection Ha1 as <-.
  bind_inv H.
  destruct (__get_columns (columns a0) _) as [cols stats'] eqn:E.
  destruct cols as [cols|].
  - apply get_columns_keeps_stats in E. subst stats'.
    bind_inv H. bind_inv H. bind_inv H. bind_inv H. injection H as <-.
    eexists a, df, _. repeat split; try eassumption.
    + destruct (0 <? len a4)%nat; reflexivity.
    + reflexivity.
    + reflexivity.
  - discriminate H.
Qed.

Lemma run_files_records (env : Env) (files : list string) :
  forall self : Deduplicator,
  exists records,
    file_stats (snd (run_files env self files)) = (file_stats self ++ records)%list /\
    Forall (fun stats =>
              exists file pieces df,
                In file files /\
                split (INPUT_NEW_PATH env) file = Ok pieces /\
                __read_file env file = Ok (Some df) /\
                file_name stats = last pieces "" /\
                products_count_before stats = Some (len df)) records.
Proof.
  induction files as [|file files IH]; intros self; cbn [run_files].
  - exists []. rewrite app_nil_r. split; [reflexivity | constructor].
  - destruct (run_file env self file) as [self1|e] eqn:E.
    + destruct (run_file_Ok _ _ _ _ E) as (pieces & df & stats & Hs & Hr & Hf & Hn & Hb).
      destruct (IH self1) as (records & Hrec & Hall).
      exists (stats :: records). split.
      * rewrite Hrec, Hf, <- app_assoc. reflexivity.
      * constructor.
        -- exists file, pieces, df. repeat split; auto. left. reflexivity.
        -- eapply Forall_impl; [|exact Hall]. cbv beta.
           intros s (f & ps & d & Hin & Hrest). exists f, ps, d.
           split; [right; exact Hin | exact Hrest].
    + exists []. rewrite app_nil_r. split; [reflexivity | constructor].
Qed.

Lemma run_files_app (env : Env) (pre rest : list string) :
  forall self self1 : Deduplicator,
    run_files env self pre = (None, self1) ->
    run_files env self (pre ++ rest) = run_files env self1 rest.
Proof.
  induction pre as [|file pre IH]; intros self self1 H; cbn [run_files app] in *.
  - injection H as <-. reflexivity.
  - destruct (run_file env self file) as [self2|e]; [|discriminate H].
    apply IH. exact H.
Qed.

(** C10.  Every record that a run appends to [file_stats] belongs to a
    new file that was read, carries its name, and counts as "before" the
    rows of the table as [__read_file] returned it; in the sample run the
    file has four rows, two of which price normalisation drops, and the
    record says four before and two after. *)
Theorem products_count_before_is_raw_row_count (env : Env) (self : Deduplicator) :
  (exists records,
     file_stats (snd (run env self)) = (file_stats self ++ records)%list /\
     Forall (fun stats =>
               exists file pieces df,
                 In file (new_files self) /\
                 split (INPUT_NEW_PATH env) file = Ok pieces /\
                 __read_file env file = Ok (Some df) /\
                 file_name stats = last pieces "" /\
                 products_count_before stats = Some (len df)) records)
  /\ len Sample.four_prices = 4%nat
  /\ file_stats (snd (run (Sample.env_of Sample.priced)
                        (Sample.start ["./old/shop.com_2023.csv"]
                           ["./new/shop.com_2024.csv"])))
     = [{| file_name := "shop.com_2024.csv"; products_count_before := Some 4%nat;
           products_count_after := Some 2%nat; error := None |}].
Proof.
  split; [|split; [reflexivity | vm_compute; reflexivity]].
  destruct (run_files_records env (new_files self) self) as (records & Hrec & Hall).
  exists records. split; [|exact Hall].
  unfold run. destruct (run_files env self (new_files self)) as [[e|] self'];
    exact Hrec.
Qed.

(** C2, as amended.  When the earlier new files have been processed and
    the next one is read, resolves its columns and normalises, but no
    domain token is found in its path, [run] ends there with the
    [AttributeError] raised in [__get_matching_files]: [self] stays as the
    earlier files left it, no later file is processed, and the statistics
    file is not written. *)
Theorem no_domain_aborts_run (env : Env) (self self1 : Deduplicator)
  (pre rest : list string) (file : string) (df df1 df2 df3 : DataFrame)
  (cols : Columns) :
  new_files self = (pre ++ file :: rest)%list ->
  run_files env self pre = (None, self1) ->
  INPUT_NEW_PATH env <> "" ->
  __read_file env file = Ok (Some df) ->
  __combine_price_columns df = Ok df1 ->
  fst (__get_columns (columns df1) None) = Some cols ->
  __remove_whitespace (__rename_columns df1 cols) = Ok df2 ->
  __format_price df2 = Ok df3 ->
  search_I DOMAIN_RE file = None ->
  run env self
  = (Some (AttributeError "'NoneType' object has no attribute 'group'"), self1).
Proof.
  intros Hnew Hpre Hpath Hread Hcomb Hcols Hws Hfp Hdom.
  unfold run. rewrite Hnew, (run_files_app env pre (file :: rest) self self1 Hpre).
  cbn [run_files].
  assert (E : run_file env self1 file
              = Raise (AttributeError "'NoneType' object has no attribute 'group'")).
  { unfold run_file, split.
    destruct (INPUT_NEW_PATH env) as [|c s] eqn:Ep; [congruence|].
    cbn [bind]. rewrite Hread. cbn [bind len_opt]. rewrite Hcomb. cbn [bind].
    destruct (__get_columns (columns df1) (Some _)) as [o stats'] eqn:Eg.
    assert (Eo : o = Some cols).
    { match type of Eg with
      | __get_columns _ ?s = _ => pose proof (get_columns_fst (columns df1) s) as Hf
      end.
      rewrite Eg, Hcols in Hf. exact Hf. }
    subst o. rewrite Hws. cbn [bind]. rewrite Hfp. cbn [bind].
    unfold __get_matching_files. rewrite Hdom. reflexivity. }
  rewrite E. reflexivity.
Qed.

Lemma no_domain_aborts_run_witness :
  run (Sample.env_of Sample.undotted)
    (Sample.start Sample.shop_old_files ["./new/shop.com_2024.csv"; "./new/datacsv"])
  = (Some (AttributeError "'NoneType' object has no attribute 'group'"),
     {| file_stats := [{| file_name := "shop.com_2024.csv";
                          products_count_before := Some 2%nat;
                          products_count_after := Some 1%nat; error := None |}];
        dataframes := [Sample.table [Sample.product "Gadget" (CStr "$20.00")]];
        old_files := Sample.shop_old_files;
        new_files := ["./new/shop.com_2024.csv"; "./new/datacsv"];
        saved := [("./out/shop.com_2024_filtered.csv",
                   Sample.table [Sample.product "Gadget" (CStr "$20.00")])];
        stats_csv := None |}).
Proof.
  apply (no_domain_aborts_run (Sample.env_of Sample.undotted) _ _
           ["./new/shop.com_2024.csv"] [] "./new/datacsv"
           Sample.shop_new Sample.shop_new Sample.shop_new Sample.shop_new
           {| title := "Title"; url := "Url"; image := "Image"; price := "Price" |}).
  - reflexivity.
  - vm_compute. reflexivity.
  - discriminate.
  - vm_compute. reflexivity.
  - vm_compute. reflexivity.
  - vm_compute. reflexivity.
  - vm_compute. reflexivity.
  - vm_compute. reflexivity.
  - vm_compute. reflexivity.
Defined.

(** The claim of C2 as it is worded fails: [datacsv] passes the file
    filter and is read, no domain token is found in its path, and the
    run does not go on to the next file, which on its own is processed
    without an error. *)
Lemma no_domain_run_does_not_continue :
  __init__ (Sample.env_of Sample.undotted)
  = Ok (Sample.start Sample.shop_old_files ["./new/datacsv"; "./new/shop.com_2024.csv"])
  /\ search_I DOMAIN_RE "./new/datacsv" = None
  /\ run (Sample.env_of Sample.undotted)
       (Sample.start Sample.shop_old_files ["./new/datacsv"; "./new/shop.com_2024.csv"])
     = (Some (AttributeError "'NoneType' object has no attribute 'group'"),
        Sample.start Sample.shop_old_files ["./new/datacsv"; "./new/shop.com_2024.csv"])
  /\ fst (run (Sample.env_of Sample.undotted)
            (Sample.start Sample.shop_old_files ["./new/shop.com_2024.csv"])) = None.
Proof. repeat split; vm_compute; reflexivity. Qed.

(** ** Unresolved columns *)

(** A local of [__get_columns] stays unbound while no header matches its
    keyword. *)
Lemma classify_title (v : Found) (c : string) :
  found (search_I (Word "title") c) = false -> v_title (classify v c) = v_title v.
Proof.
  intros H. unfold classify. rewrite H.
  repeat match goal with |- context [if ?b then _ else _] => destruct b end; reflexivity.
Qed.

Lemma classify_url (v : Found) (c : string) :
  found (search_I (Word "url") c) = false -> v_url (classify v c) = v_url v.
Proof.
  intros H. unfold classify. rewrite H.
  repeat match goal with |- context [if ?b then _ else _] => destruct b end; reflexivity.
Qed.

Lemma classify_image (v : Found) (c : string) :
  found (search_I (Word "image") c) = false -> v_image (classify v c) = v_image v.
Proof.
  intros H. unfold classify. rewrite H.
  repeat match goal with |- context [if ?b then _ else _] => destruct b end; reflexivity.
Qed.

Lemma classify_price (v : Found) (c : string) :
  found (search_I (Word "price") c) = false -> v_price (classify v c) = v_price v.
Proof.
  intros H. unfold classify. rewrite H.
  repeat match goal with |- context [if ?b then _ else _] => destruct b end; reflexivity.
Qed.

Lemma fold_classify_keeps (field : Found -> option string) (kw : string)
  (columns : list string) :
  (forall v c, found (search_I (Word kw) c) = false -> field (classify v c) = field v) ->
  (forall c, In c columns -> found (search_I (Word kw) c) = false) ->
  forall v, field (fold_left classify columns v) = field v.
Proof.
  intros Hstep. induction columns as [|c columns IH]; intros Hno v; [reflexivity|].
  cbn [fold_left]. rewrite IH.
  - apply Hstep. apply Hno. left. reflexivity.
  - intros c' Hc'. apply Hno. right. exact Hc'.
Qed.

(** When one of the four keywords matches no header, case apart,
    [__get_columns] resolves nothing, and the statistics record it was
    given carries a message that names a missing field. *)
Lemma get_columns_unresolved (columns : list string) (kw : string) (st : FileStats) :
  In kw ["title"; "url"; "image"; "price"] ->
  (forall c, In c columns -> found (search_I (Word kw) c) = false) ->
  fst (__get_columns columns None) = None /\
  exists name,
    In name ["title"; "url"; "image"; "price"] /\
    __get_columns columns (Some st)
    = (None,
       Some {| file_name := file_name st;
               products_count_before := products_count_before st;
               products_count_after := products_count_after st;
               error := Some ("missing column! " ++ exn_text (UnboundLocalError name)) |}).
Proof.
  intros Hkw Hno.
  set (v0 := {| v_title := None; v_url := None; v_image := None; v_price := None |}).
  assert (Hraise : exists name,
             In name ["title"; "url"; "image"; "price"] /\
             make_columns (fold_left classify columns v0) = Raise (UnboundLocalError name)).
  { unfold make_columns.
    destruct (v_title (fold_left classify columns v0)) as [t|] eqn:Et;
      [|exists "title"; split; [simpl; tauto | reflexivity]].
    destruct (v_url (fold_left classify columns v0)) as [u|] eqn:Eu;
      [|exists "url"; split; [simpl; tauto | reflexivity]].
    destruct (v_image (fold_left classify columns v0)) as [i|] eqn:Ei;
      [|exists "image"; split; [simpl; tauto | reflexivity]].
    destruct (v_price (fold_left classify columns v0)) as [p|] eqn:Ep;
      [|exists "price"; split; [simpl; tauto | reflexivity]].
    exfalso. cbn [In] in Hkw.
    destruct Hkw as [<-|[<-|[<-|[<-|[]]]]].
    - rewrite (fold_classify_keeps v_title "title" columns classify_title Hno v0) in Et.
      discriminate Et.
    - rewrite (fold_classify_keeps v_url "url" columns classify_url Hno v0) in Eu.
      discriminate Eu.
    - rewrite (fold_classify_keeps v_image "image" columns classify_image Hno v0) in Ei.
      discriminate Ei.
    - rewrite (fold_classify_keeps v_price "price" columns classify_price Hno v0) in Ep.
      discriminate Ep. }
  destruct Hraise as (name & Hname & Hraise).
  unfold __get_columns. fold v0. rewrite Hraise. split; [reflexivity|].
  exists name. split; [exact Hname | reflexivity].
Qed.

(** A round whose table does not resolve its columns ends in the
    [UnboundLocalError] of [self.file_stats.append(file_stats)]. *)
Lemma run_file_unresolved (env : Env) (self : Deduplicator) (file : string)
  (df df1 : DataFrame) :
  INPUT_NEW_PATH env <> "" ->
  __read_file env file = Ok (Some df) ->
  __combine_price_columns df = Ok df1 ->
  fst (__get_columns (columns df1) None) = None ->
  run_file env self file = Raise (UnboundLocalError "file_stats").
Proof.
  intros Hpath Hread Hcomb Hcols. unfold run_file, split.
  destruct (INPUT_NEW_PATH env) as [|c s] eqn:Ep; [congruence|].
  cbn [bind]. rewrite Hread. cbn [bind len_opt]. rewrite Hcomb. cbn [bind].
  destruct (__get_columns (columns df1) (Some _)) as [o stats'] eqn:Eg.
  assert (Eo : o = None).
  { match type of Eg with
    | __get_columns _ ?s = _ => pose proof (get_columns_fst (columns df1) s) as Hf
    end.
    rewrite Eg, Hcols in Hf. exact Hf. }
  subst o. reflexivity.
Qed.

(** For every new file that is read and whose table, after the price
    columns are combined, has a keyword that matches no header, the run
    ends at that file with the [UnboundLocalError]: [self] stays as the
    earlier files left it. *)
Lemma unresolved_columns_abort_run (env : Env) (self self1 : Deduplicator)
  (pre rest : list string) (file kw : string) (df df1 : DataFrame) :
  new_files self = (pre ++ file :: rest)%list ->
  run_files env self pre = (None, self1) ->
  INPUT_NEW_PATH env <> "" ->
  __read_file env file = Ok (Some df) ->
  __combine_price_columns df = Ok df1 ->
  In kw ["title"; "url"; "image"; "price"] ->
  (forall c, In c (columns df1) -> found (search_I (Word kw) c) = false) ->
  run env self = (Some (UnboundLocalError "file_stats"), self1).
Proof.
  intros Hnew Hpre Hpath Hread Hcomb Hkw Hno.
  unfold run. rewrite Hnew, (run_files_app env pre (file :: rest) self self1 Hpre).
  cbn [run_files].
  rewrite (run_file_unresolved env self1 file df df1 Hpath Hread Hcomb).
  - reflexivity.
  - exact (proj1 (get_columns_unresolved (columns df1) kw
                    {| file_name := ""; products_count_before := None;
                       products_count_after := None; error := None |} Hkw Hno)).
Qed.

(** C1, at a failing input.  The first new file has no price column:
    [__get_columns] resolves nothing, and the run ends in the
    [UnboundLocalError] of [self.file_stats.append(file_stats)]: no record
    is kept for the file, the next file is not processed and the
    statistics file is not written. *)
Theorem missing_column_aborts_run :
  __init__ (Sample.env_of Sample.unpriced)
  = Ok (Sample.start Sample.shop_old_files ["./new/bare.com.csv"; "./new/shop.com_2024.csv"])
  /\ fst (__get_columns (columns Sample.no_price) None) = None
  /\ run (Sample.env_of Sample.unpriced)
       (Sample.start Sample.shop_old_files ["./new/bare.com.csv"; "./new/shop.com_2024.csv"])
     = (Some (UnboundLocalError "file_stats"),
        Sample.start Sample.shop_old_files ["./new/bare.com.csv"; "./new/shop.com_2024.csv"]).
Proof. repeat split; vm_compute; reflexivity. Qed.

(** ** [__combine_price_columns] *)

(** C8, at failing inputs.  A numeric price of 0 is falsy, so
    [__str_to_float] gives [None] for it and the least price of the row is
    taken over the other column: the free product ends at $5.00.  A
    price cell of one space is truthy, and its conversion raises. *)
Theorem zero_price_is_skipped :
  __combine_price_columns Sample.free_and_sale
  = Ok {| columns := Sample.header;
          rows := [[CStr "A"; CStr "u"; CStr "i"; CFloat (of_decimal false 5 0)];
                   [CStr "B"; CStr "u"; CStr "i"; CFloat (of_decimal false 8 0)]] |}
  /\ saved (snd (run (Sample.env_of Sample.free)
                   (Sample.start Sample.shop_old_files ["./new/shop.com_2024.csv"])))
     = [("./out/shop.com_2024_filtered.csv",
         {| columns := Sample.header;
            rows := [[CStr "A"; CStr "u"; CStr "i"; CStr "$5.00"];
                     [CStr "B"; CStr "u"; CStr "i"; CStr "$8.00"]] |})]
  /\ __combine_price_columns Sample.blank_and_sale
     = Raise (ValueError "could not convert string to float: ''").
Proof. repeat split; vm_compute; reflexivity. Qed.

(** The example of C8: a price of $10 on sale for $8 is written $8.00. *)
Lemma sale_price_example :
  saved (snd (run (Sample.env_of Sample.on_sale)
                (Sample.start Sample.shop_old_files ["./new/shop.com_2024.csv"])))
  = [("./out/shop.com_2024_filtered.csv", Sample.one_price (CStr "$8.00"))].
Proof. vm_compute. reflexivity. Qed.

(** ** The whole run *)

(** The end-to-end scenario of the specification. *)
Lemma end_to_end_example :
  run (Sample.env_of Sample.shop)
    (Sample.start Sample.shop_old_files ["./new/shop.com_2024.csv"])
  = (None,
     {| file_stats := [{| file_name := "shop.com_2024.csv";
                          products_count_before := Some 2%nat;
                          products_count_after := Some 1%nat; error := None |}];
        dataframes := [Sample.table [Sample.product "Gadget" (CStr "$20.00")]];
        old_files := Sample.shop_old_files;
        new_files := ["./new/shop.com_2024.csv"];
        saved := [("./out/shop.com_2024_filtered.csv",
                   Sample.table [Sample.product "Gadget" (CStr "$20.00")])];
        stats_csv := Some [{| file_name := "shop.com_2024.csv";
                              products_count_before := Some 2%nat;
                              products_count_after := Some 1%nat; error := None |}] |}).
Proof. vm_compute. reflexivity. Qed.

(* ===================================================================== *)
(** * Further properties of the code *)
(* ===================================================================== *)

(** ** Row counts through the pipeline *)

Lemma mapM_length {A B : Type} (f : A -> result B) (xs : list A) (ys : list B) :
  mapM f xs = Ok ys -> List.length ys = List.length xs.
Proof.
  intros H. apply mapM_Ok in H. symmetry. eapply Forall2_length. exact H.
Qed.

Lemma apply_len (l : string) (f : cell -> result cell) (df df' : DataFrame) :
  apply l f df = Ok df' -> len df' = len df.
Proof.
  unfold apply. intros H. bind_in H as i Hi. bind_in H as rs Hrs.
  injection H as <-. unfold len. simpl. eapply mapM_length. exact Hrs.
Qed.

Lemma assign_where_len (i : nat) (mask : cell -> bool) (f : cell -> result cell)
  (df df' : DataFrame) :
  assign_where i mask f df = Ok df' -> len df' = len df.
Proof.
  unfold assign_where. intros H. bind_in H as vs Hvs. injection H as <-.
  apply mapM_length in Hvs. unfold len. simpl.
  rewrite length_map, length_combine, Hvs. apply Nat.min_id.
Qed.

Lemma dropna_len (ls : list string) (df df' : DataFrame) :
  dropna ls df = Ok df' -> (len df' <= len df)%nat.
Proof.
  unfold dropna. intros H. bind_in H as ixs Hixs. injection H as <-.
  unfold len. simpl. apply filter_length_le.
Qed.

Lemma astype_str_len (l : string) (df df' : DataFrame) :
  astype_str l df = Ok df' -> len df' = len df.
Proof.
  unfold astype_str. intros H. bind_in H as i Hi. injection H as <-.
  unfold len. simpl. apply length_map.
Qed.

Lemma where_len (i : nat) (keep : cell -> bool) (df : DataFrame) :
  (len (where_ i keep df) <= len df)%nat.
Proof. unfold len, where_. simpl. apply filter_length_le. Qed.

Lemma format_price_len (df df' : DataFrame) :
  __format_price df = Ok df' -> (len df' <= len df)%nat.
Proof.
  unfold __format_price. intros H.
  bind_in H as d1 H1. apply dropna_len in H1.
  bind_in H as d2 H2. apply astype_str_len in H2.
  bind_in H as i Hi.
  bind_in H as d3 H3. apply assign_where_len in H3.
  bind_in H as d4 H4. apply assign_where_len in H4.
  bind_in H as d5 H5. apply apply_len in H5.
  apply apply_len in H.
  pose proof (where_len i (contains PRICE_RE)
                (where_ i (fun v => negb (contains DASH_RE v)) d2)) as Hw.
  pose proof (where_len i (fun v => negb (contains DASH_RE v)) d2) as Hw'.
  lia.
Qed.

Lemma remove_whitespace_len (df df' : DataFrame) :
  __remove_whitespace df = Ok df' -> len df' = len df.
Proof.
  unfold __remove_whitespace. intros H. bind_in H as d1 H1.
  apply apply_len in H1. apply apply_len in H. congruence.
Qed.

Lemma rename_columns_len (df : DataFrame) (c : Columns) :
  len (__rename_columns df c) = len df.
Proof. reflexivity. Qed.

Lemma fold_apply_len (f : cell -> result cell) (cols : list string) :
  forall df df' : DataFrame,
    fold_result (fun df col => apply col f df) df cols = Ok df' ->
    len df' = len df /\ columns df' = columns df.
Proof.
  induction cols as [|c cols IH]; simpl; intros df df' H.
  - injection H as <-. split; reflexivity.
  - bind_in H as d Hd. apply IH in H. destruct H as [Hl Hc].
    pose proof (apply_len _ _ _ _ Hd) as Hl'.
    apply apply_columns in Hd. destruct Hd as [Hc' _].
    split; congruence.
Qed.

Lemma drop_len (l : string) (df df' : DataFrame) :
  drop l df = Ok df' -> len df' = len df.
Proof.
  unfold drop. intros H. bind_in H as i Hi. injection H as <-.
  unfold len. simpl. apply length_map.
Qed.

Lemma fold_drop_len (cols : list string) :
  forall df df' : DataFrame,
    fold_result (fun df c => drop c df) df cols = Ok df' -> len df' = len df.
Proof.
  induction cols as [|c cols IH]; simpl; intros df df' H.
  - injection H as <-. reflexivity.
  - bind_in H as d Hd. apply IH in H. apply drop_len in Hd. congruence.
Qed.

Lemma min_axis1_length (labels : list string) (df : DataFrame) (vs : list cell) :
  min_axis1 labels df = Ok vs -> List.length vs = len df.
Proof.
  unfold min_axis1. intros H. bind_in H as ixs Hixs. injection H as <-.
  apply length_map.
Qed.

Lemma assign_len (label : string) (values : list cell) (df : DataFrame) :
  List.length values = len df -> len (assign label values df) = len df.
Proof.
  unfold assign, len. intros H.
  destruct (index label (columns df)); simpl;
    rewrite length_map, length_combine, H; apply Nat.min_id.
Qed.

Lemma combine_price_columns_len (df df' : DataFrame) :
  __combine_price_columns df = Ok df' -> len df' = len df.
Proof.
  unfold __combine_price_columns. intros H.
  destruct (1 <? _)%nat.
  - bind_in H as d1 H1. apply fold_apply_len in H1. destruct H1 as [H1 _].
    bind_in H as vs Hvs. apply min_axis1_length in Hvs.
    apply fold_drop_len in H. rewrite H, assign_len; assumption.
  - injection H as <-. reflexivity.
Qed.

Lemma keyed_len (df df' : DataFrame) : keyed df = Ok df' -> (len df' <= len df)%nat.
Proof.
  unfold keyed. intros H. bind_in H as d Hd.
  apply dropna_len in Hd. apply astype_str_len in H. lia.
Qed.

Lemma drop_duplicates_len (df1 df2 d : DataFrame) :
  __drop_duplicates df1 df2 = Ok d -> (len d <= len df1)%nat.
Proof.
  unfold __drop_duplicates. intros H.
  bind_in H as k1 H1. apply keyed_len in H1.
  bind_in H as k2 H2. bind_in H as t2 Ht2. bind_in H as p2 Hp2.
  bind_in H as t1 Ht1. bind_in H as p1 Hp1. bind_in H as u Hu.
  injection H as <-. unfold len at 1. cbn [rows with_rows].
  rewrite merge_left_only.
  etransitivity; [apply filter_length_le | exact H1].
Qed.

Lemma compare_to_len (env : Env) (paths : list string) :
  forall df d : DataFrame, compare_to env df paths = Ok d -> (len d <= len df)%nat.
Proof.
  induction paths as [|file paths IH]; intros df d H; cbn [compare_to] in H.
  - injection H as <-. lia.
  - bind_in H as shown Hshown. bind_in H as o Ho. destruct o as [h|].
    + bind_in H as d1 Hd1. apply drop_duplicates_len in Hd1.
      destruct (len d1 =? 0)%nat.
      * injection H as <-. exact Hd1.
      * apply IH in H. lia.
    + apply IH in H. exact H.
Qed.

(** ** What one round of [run] leaves behind *)

Lemma run_file_shape (env : Env) (self self' : Deduplicator) (file : string) :
  run_file env self file = Ok self' ->
  exists pieces raw df,
    split (INPUT_NEW_PATH env) file = Ok pieces /\
    __read_file env file = Ok (Some raw) /\
    (len df <= len raw)%nat /\
    self' = append_stats
              (if (0 <? len df)%nat
               then append_dataframe (__save_to_csv env self df (last pieces "")) df
               else self)
              {| file_name := last pieces ""; products_count_before := Some (len raw);
                 products_count_after := Some (len df); error := None |}.
Proof.
  unfold run_file. intros H.
  bind_in H as pieces Hp. bind_in H as o Ho. bind_in H as n Hn.
  destruct o as [raw|]; [|discriminate Hn].
  injection Hn as <-.
  bind_in H as d1 H1.
  destruct (__get_columns (columns d1) _) as [cols stats'] eqn:E.
  destruct cols as [cols|].
  - apply get_columns_keeps_stats in E. subst stats'.
    bind_in H as d2 H2. bind_in H as d3 H3. bind_in H as files Hf. bind_in H as d4 H4.
    injection H as <-.
    exists pieces, raw, d4. repeat split; try assumption.
    apply combine_price_columns_len in H1.
    apply remove_whitespace_len in H2. rewrite rename_columns_len in H2.
    apply format_price_len in H3.
    apply compare_to_len in H4. lia.
  - bind_in H as u Hu. discriminate Hu.
Qed.

Lemma run_files_trace (env : Env) (files : list string) :
  forall self : Deduplicator,
  exists (records : list FileStats) (written : list (string * DataFrame)),
    file_stats (snd (run_files env self files)) = (file_stats self ++ records)%list /\
    saved (snd (run_files env self files)) = (saved self ++ written)%list /\
    dataframes (snd (run_files env self files)) = (dataframes self ++ map snd written)%list /\
    stats_csv (snd (run_files env self files)) = stats_csv self /\
    Forall (fun stats =>
              exists before after : nat,
                products_count_before stats = Some before /\
                products_count_after stats = Some after /\
                (after <= before)%nat /\
                error stats = None) records /\
    Forall2 (fun stats w =>
               fst w = (OUTPUT_PATH env
                        ++ replace ".csv" "_filtered.csv"
                             (replace ".xlsx" ".csv" (file_name stats)))%string /\
               products_count_after stats = Some (len (snd w)) /\
               (0 < len (snd w))%nat)
      (filter (fun stats => match products_count_after stats with
                            | Some n => (0 <? n)%nat
                            | None => false
                            end) records)
      written.
Proof.
  induction files as [|file files IH]; intros self; cbn [run_files].
  - exists [], []. simpl. rewrite !app_nil_r. repeat split; constructor.
  - destruct (run_file env self file) as [self1|e] eqn:E.
    + destruct (run_file_shape _ _ _ _ E) as (pieces & raw & df & Hp & Hr & Hle & ->).
      match goal with
      | |- context [run_files env ?s files] =>
          destruct (IH s) as (records & written & Hfs & Hsv & Hdf & Hst & Hall & Hw)
      end.
      destruct (0 <? len df)%nat eqn:Epos.
      * exists ({| file_name := last pieces ""; products_count_before := Some (len raw);
                   products_count_after := Some (len df); error := None |} :: records),
               (((OUTPUT_PATH env
                  ++ replace ".csv" "_filtered.csv"
                       (replace ".xlsx" ".csv" (last pieces "")))%string, df) :: written).
        rewrite Hfs, Hsv, Hdf, Hst. cbn [file_stats saved dataframes stats_csv
          append_stats append_dataframe __save_to_csv map snd].
        rewrite <- !app_assoc. cbn [app].
        repeat split.
        -- constructor; [|exact Hall]. exists (len raw), (len df). auto.
        -- cbn [filter products_count_after]. rewrite Epos.
           constructor; [|exact Hw]. cbn [fst snd file_name products_count_after].
           apply Nat.ltb_lt in Epos. auto.
      * exists ({| file_name := last pieces ""; products_count_before := Some (len raw);
                   products_count_after := Some (len df); error := None |} :: records),
               written.
        rewrite Hfs, Hsv, Hdf, Hst. cbn [file_stats saved dataframes stats_csv append_stats].
        rewrite <- !app_assoc. cbn [app].
        repeat split.
        -- constructor; [|exact Hall]. exists (len raw), (len df). auto.
        -- cbn [filter products_count_after]. rewrite Epos. exact Hw.
    + exists [], []. simpl. rewrite !app_nil_r. repeat split; constructor.
Qed.

Lemma run_snd (env : Env) (self : Deduplicator) :
  file_stats (snd (run env self)) = file_stats (snd (run_files env self (new_files self))) /\
  saved (snd (run env self)) = saved (snd (run_files env self (new_files self))) /\
  dataframes (snd (run env self)) = dataframes (snd (run_files env self (new_files self))).
Proof.
  unfold run. destruct (run_files env self (new_files self)) as [[e|] s]; simpl; auto.
Qed.

(** X1.  Every record that [run] appends to [file_stats] carries both
    counts and no error text, and the number of products after the run is
    never larger than the number before it. *)
Theorem recorded_counts_never_grow (env : Env) (self : Deduplicator) :
  exists records : list FileStats,
    file_stats (snd (run env self)) = (file_stats self ++ records)%list /\
    Forall (fun stats =>
              exists before after : nat,
                products_count_before stats = Some before /\
                products_count_after stats = Some after /\
                (after <= before)%nat /\
                error stats = None) records.
Proof.
  destruct (run_files_trace env (new_files self) self)
    as (records & written & Hfs & _ & _ & _ & Hall & _).
  exists records. destruct (run_snd env self) as (-> & _ & _). auto.
Qed.

(** X2.  [run] writes a filtered file exactly for the records whose count
    after the run is positive, in their order: under [OUTPUT_PATH] and the
    record's name with its extension replaced, holding as many rows as
    the record says.  A table without rows is never written, and
    [self.dataframes] holds the written tables. *)
Theorem written_files_match_records (env : Env) (self : Deduplicator) :
  exists (records : list FileStats) (written : list (string * DataFrame)),
    file_stats (snd (run env self)) = (file_stats self ++ records)%list /\
    saved (snd (run env self)) = (saved self ++ written)%list /\
    dataframes (snd (run env self)) = (dataframes self ++ map snd written)%list /\
    Forall2 (fun stats w =>
               fst w = (OUTPUT_PATH env
                        ++ replace ".csv" "_filtered.csv"
                             (replace ".xlsx" ".csv" (file_name stats)))%string /\
               products_count_after stats = Some (len (snd w)) /\
               (0 < len (snd w))%nat)
      (filter (fun stats => match products_count_after stats with
                            | Some n => (0 <? n)%nat
                            | None => false
                            end) records)
      written.
Proof.
  destruct (run_files_trace env (new_files self) self)
    as (records & written & Hfs & Hsv & Hdf & _ & _ & Hw).
  exists records, written. destruct (run_snd env self) as (-> & -> & ->). auto.
Qed.

Lemma run_files_completed (env : Env) (files : list string) :
  forall self self' : Deduplicator,
    run_files env self files = (None, self') ->
    exists records : list FileStats,
      file_stats self' = (file_stats self ++ records)%list /\
      stats_csv self' = stats_csv self /\
      Forall2 (fun file stats =>
                 exists pieces,
                   split (INPUT_NEW_PATH env) file = Ok pieces /\
                   file_name stats = last pieces "") files records.
Proof.
  induction files as [|file files IH]; intros self self' H; cbn [run_files] in H.
  - injection H as <-. exists []. rewrite app_nil_r. repeat split. constructor.
  - destruct (run_file env self file) as [self1|e] eqn:E; [|discriminate H].
    destruct (run_file_shape _ _ _ _ E) as (pieces & raw & df & Hp & Hr & Hle & ->).
    apply IH in H. destruct H as (records & Hfs & Hst & Hall).
    exists ({| file_name := last pieces ""; products_count_before := Some (len raw);
               products_count_after := Some (len df); error := None |} :: records).
    split; [|split].
    + rewrite Hfs. destruct (0 <? len df)%nat;
        cbn [file_stats append_stats append_dataframe __save_to_csv];
        rewrite <- app_assoc; reflexivity.
    + rewrite Hst. destruct (0 <? len df)%nat; reflexivity.
    + constructor; [|exact Hall]. exists pieces. split; [exact Hp | reflexivity].
Qed.

Lemma run_files_aborted (env : Env) (files : list string) :
  forall (self self' : Deduplicator) (e : exn),
    run_files env self files = (Some e, self') ->
    exists pre file rest,
      files = (pre ++ file :: rest)%list /\
      run_files env self pre = (None, self') /\
      run_file env self' file = Raise e.
Proof.
  induction files as [|file files IH]; intros self self' e H; cbn [run_files] in H.
  - discriminate H.
  - destruct (run_file env self file) as [self1|e1] eqn:E.
    + apply IH in H. destruct H as (pre & f & rest & -> & Hpre & Hf).
      exists (file :: pre), f, rest. repeat split.
      * cbn [run_files]. rewrite E. exact Hpre.
      * exact Hf.
    + injection H as <- <-. exists [], file, files. repeat split. exact E.
Qed.

(** X3.  A run that ends without an exception has appended one record per
    new file, in the order of [new_files], each under the file's name
    (what follows [INPUT_NEW_PATH] in its path), and has written all
    records to the statistics file: no new file is passed over. *)
Theorem completed_run_records_every_file (env : Env) (self : Deduplicator) :
  fst (run env self) = None ->
  exists records : list FileStats,
    file_stats (snd (run env self)) = (file_stats self ++ records)%list /\
    Forall2 (fun file stats =>
               exists pieces,
                 split (INPUT_NEW_PATH env) file = Ok pieces /\
                 file_name stats = last pieces "") (new_files self) records /\
    stats_csv (snd (run env self)) = Some (file_stats self ++ records)%list.
Proof.
  unfold run. destruct (run_files env self (new_files self)) as [[e|] self'] eqn:E;
    cbn [fst snd]; intros H; [discriminate H|].
  apply run_files_completed in E. destruct E as (records & Hfs & _ & Hall).
  exists records. cbn [file_stats stats_csv write_stats]. rewrite Hfs. auto.
Qed.

Lemma completed_run_records_every_file_witness :
  exists records : list FileStats,
    file_stats (snd (run (Sample.env_of Sample.shop)
                       (Sample.start Sample.shop_old_files ["./new/shop.com_2024.csv"])))
    = ([] ++ records)%list /\
    Forall2 (fun file stats =>
               exists pieces,
                 split "./new/" file = Ok pieces /\
                 file_name stats = last pieces "") ["./new/shop.com_2024.csv"] records /\
    stats_csv (snd (run (Sample.env_of Sample.shop)
                      (Sample.start Sample.shop_old_files ["./new/shop.com_2024.csv"])))
    = Some ([] ++ records)%list.
Proof.
  apply (completed_run_records_every_file (Sample.env_of Sample.shop)
           (Sample.start Sample.shop_old_files ["./new/shop.com_2024.csv"])).
  vm_compute. reflexivity.
Defined.

(** X4.  A run that ends with an exception stops at the first new file
    that raises: what it leaves is what the files before that one left,
    the failing file has added no record and no output, no later file is
    touched, and the statistics file is not written. *)
Theorem aborted_run_stops_at_first_error (env : Env) (self : Deduplicator) (e : exn) :
  fst (run env self) = Some e ->
  exists pre file rest,
    new_files self = (pre ++ file :: rest)%list /\
    run_files env self pre = (None, snd (run env self)) /\
    run_file env (snd (run env self)) file = Raise e /\
    stats_csv (snd (run env self)) = stats_csv self.
Proof.
  unfold run. destruct (run_files env self (new_files self)) as [[e1|] self'] eqn:E;
    cbn [fst snd]; intros H; [|discriminate H].
  injection H as ->.
  apply run_files_aborted in E. destruct E as (pre & file & rest & Hn & Hpre & Hf).
  exists pre, file, rest. repeat split; try assumption.
  apply run_files_completed in Hpre. destruct Hpre as (records & _ & Hst & _). exact Hst.
Qed.

Lemma aborted_run_stops_at_first_error_witness :
  exists pre file rest,
    ["./new/shop.com_2024.csv"; "./new/datacsv"] = (pre ++ file :: rest)%list /\
    run_files (Sample.env_of Sample.undotted)
      (Sample.start Sample.shop_old_files ["./new/shop.com_2024.csv"; "./new/datacsv"]) pre
    = (None,
       snd (run (Sample.env_of Sample.undotted)
              (Sample.start Sample.shop_old_files
                 ["./new/shop.com_2024.csv"; "./new/datacsv"]))) /\
    run_file (Sample.env_of Sample.undotted)
      (snd (run (Sample.env_of Sample.undotted)
              (Sample.start Sample.shop_old_files
                 ["./new/shop.com_2024.csv"; "./new/datacsv"]))) file
    = Raise (AttributeError "'NoneType' object has no attribute 'group'") /\
    stats_csv (snd (run (Sample.env_of Sample.undotted)
                      (Sample.start Sample.shop_old_files
                         ["./new/shop.com_2024.csv"; "./new/datacsv"]))) = None.
Proof.
  apply (aborted_run_stops_at_first_error (Sample.env_of Sample.undotted)
           (Sample.start Sample.shop_old_files ["./new/shop.com_2024.csv"; "./new/datacsv"])
           (AttributeError "'NoneType' object has no attribute 'group'")).
  vm_compute. reflexivity.
Defined.

(** ** [__drop_duplicates] applied twice *)

Lemma put_put (r : row) (i : nat) (v w : cell) : put i v (put i w r) = put i v r.
Proof.
  revert i. induction r as [|c r IH]; intros [|i]; simpl; try reflexivity.
  rewrite IH. reflexivity.
Qed.

Lemma keyed_has_columns (df k : DataFrame) : keyed df = Ok k -> has_columns df.
Proof.
  unfold keyed, dropna. intros H. bind_in H as d Hd. bind_in Hd as ixs Hixs.
  cbn [mapM] in Hixs. bind_in Hixs as t Ht. bind_in Hixs as ps Hps.
  bind_in Hps as p Hp. apply loc_Ok in Ht, Hp.
  split; [rewrite Ht | rewrite Hp]; discriminate.
Qed.

Lemma drop_duplicates_has_columns (df1 df2 d : DataFrame) :
  __drop_duplicates df1 df2 = Ok d -> has_columns df1 /\ has_columns df2.
Proof.
  unfold __drop_duplicates. intros H.
  bind_in H as k1 H1. bind_in H as k2 H2.
  split; eapply keyed_has_columns; eassumption.
Qed.

Lemma keyed_columns (df k : DataFrame) : keyed df = Ok k -> columns k = columns df.
Proof.
  unfold keyed. intros H. bind_in H as d Hd.
  apply dropna_columns in Hd. apply astype_str_columns in H. congruence.
Qed.

Lemma drop_duplicates_free (df1 df2 d : DataFrame) :
  __drop_duplicates df1 df2 = Ok d -> no_indicator_label df1.
Proof.
  unfold __drop_duplicates. intros H.
  bind_in H as k1 H1. bind_in H as k2 H2. bind_in H as t2 Ht2. bind_in H as p2 Hp2.
  bind_in H as t1 Ht1. bind_in H as p1 Hp1. bind_in H as u Hu.
  apply indicator_free_inv in Hu. unfold no_indicator_label in *.
  rewrite <- (keyed_columns _ _ H1). exact Hu.
Qed.

Lemma keyed_row_fixed (df : DataFrame) (r : row) :
  has_columns df -> In r (keyed_rows df) ->
  has_key df r = true /\ price_as_text df r = r.
Proof.
  intros Hc Hin. unfold keyed_rows in Hin. apply in_map_iff in Hin.
  destruct Hin as (r0 & <- & Hin). apply filter_In in Hin. destruct Hin as [_ Hk].
  destruct (has_columns_indices df Hc) as (t & p & Ht & Hp & Htp).
  unfold has_key, price_as_text, title_of, price_of in *. rewrite Ht, Hp in *.
  apply andb_true_iff in Hk. destruct Hk as [Hkt Hkp].
  apply negb_true_iff in Hkt, Hkp.
  pose proof (get_in_range _ _ Hkp) as Hr.
  rewrite get_put_other by exact Htp. rewrite get_put_same by exact Hr.
  split.
  - rewrite Hkt. reflexivity.
  - cbn [str]. apply put_put.
Qed.

Lemma keyed_rows_filter_keyed (df : DataFrame) (keep : row -> bool) :
  has_columns df ->
  keyed_rows (with_rows df (filter keep (keyed_rows df))) = filter keep (keyed_rows df).
Proof.
  intros Hc. unfold keyed_rows at 1. cbn [rows with_rows].
  assert (Hfix : forall r, In r (filter keep (keyed_rows df)) ->
                           has_key df r = true /\ price_as_text df r = r).
  { intros r Hin. apply filter_In in Hin. destruct Hin as [Hin _].
    apply keyed_row_fixed; assumption. }
  change (has_key (with_rows df (filter keep (keyed_rows df)))) with (has_key df).
  change (price_as_text (with_rows df (filter keep (keyed_rows df))))
    with (price_as_text df).
  rewrite filter_all by (intros r Hin; apply Hfix; exact Hin).
  rewrite <- (map_id (filter keep (keyed_rows df))) at 2.
  apply map_ext_in. intros r Hin. apply Hfix. exact Hin.
Qed.

Lemma filter_filter_same {A : Type} (p : A -> bool) (l : list A) :
  filter p (filter p l) = filter p l.
Proof.
  apply filter_all. intros x Hin. apply filter_In in Hin. apply Hin.
Qed.

(** X5.  Removing the products of a historical table a second time
    changes nothing: what [__drop_duplicates] returns is a fixed point of
    subtracting the same table. *)
Theorem drop_duplicates_twice (df1 df2 d : DataFrame) :
  __drop_duplicates df1 df2 = Ok d -> __drop_duplicates d df2 = Ok d.
Proof.
  intros H. destruct (drop_duplicates_has_columns _ _ _ H) as [H1 H2].
  pose proof (drop_duplicates_free _ _ _ H) as Hf.
  rewrite drop_duplicates_spec in H by assumption. injection H as <-.
  rewrite drop_duplicates_spec by assumption.
  rewrite keyed_rows_filter_keyed by exact H1.
  change (key_of (with_rows df1 _)) with (key_of df1).
  rewrite filter_filter_same. reflexivity.
Qed.

Lemma drop_duplicates_twice_witness :
  __drop_duplicates
    (with_rows Sample.left_dups
       [[CStr "B"; CStr "$2.00"]; [CStr "B"; CStr "$2.00"]; [CStr "C"; CStr "$3.00"]])
    Sample.right_dups
  = Ok (with_rows Sample.left_dups
          [[CStr "B"; CStr "$2.00"]; [CStr "B"; CStr "$2.00"]; [CStr "C"; CStr "$3.00"]]).
Proof.
  apply (drop_duplicates_twice Sample.left_dups Sample.right_dups). reflexivity.
Defined.

(** ** The [break] of [__process_matching_files] *)

Lemma compare_to_stops (env : Env) (pre rest : list string) :
  forall df d : DataFrame,
    compare_to env df pre = Ok d -> len d = 0%nat ->
    (0 < len df)%nat \/
    (exists file h, In file pre /\ old_table env file = Ok (Some h)) ->
    compare_to env df (pre ++ rest) = Ok d.
Proof.
  induction pre as [|file pre IH]; intros df d H Hd Hor; cbn [compare_to app] in *.
  - injection H as <-. destruct Hor as [Hpos | (f & h & [] & _)]. lia.
  - destruct (split (INPUT_OLD_PATH env) file) as [shown|e]; cbn [bind] in *;
      [|discriminate H].
    destruct (old_table env file) as [[h|]|e] eqn:E; cbn [bind] in *.
    + destruct (__drop_duplicates df h) as [d1|e] eqn:E1; cbn [bind] in *;
        [|discriminate H].
      destruct (len d1 =? 0)%nat eqn:E0; [exact H|].
      apply IH; try assumption. left. apply Nat.eqb_neq in E0. lia.
    + apply IH; try assumption.
      destruct Hor as [Hpos | (f & h & [<- | Hin] & Hf)].
      * left. exact Hpos.
      * congruence.
      * right. exists f, h. split; assumption.
    + discriminate H.
Qed.

(** X6.  Once the comparison with historical files has left no product of
    a non-empty new table, [__process_matching_files] stops: the
    historical files that follow are not read, so neither their content
    nor an error in reading them can change the result. *)
Theorem emptied_table_ends_comparison (env : Env) (df d : DataFrame)
  (files : SameDomainFiles) (rest : list string) :
  (0 < len df)%nat ->
  __process_matching_files env df files = Ok d ->
  len d = 0%nat ->
  __process_matching_files env df
    {| domain := domain files; file_paths := (file_paths files ++ rest)%list |}
  = Ok d.
Proof.
  unfold __process_matching_files. cbn [file_paths]. intros Hpos H Hd.
  apply compare_to_stops; auto.
Qed.

Lemma emptied_table_ends_comparison_witness :
  old_table (Sample.env_of Sample.archive) "./old/lost.csv"
  = Raise (OSError "No such file or directory")
  /\ __process_matching_files (Sample.env_of Sample.archive) Sample.shop_old
       {| domain := "shop.com";
          file_paths := ["./old/shop.com_1.csv"; "./old/lost.csv"] |}
     = Ok (Sample.table []).
Proof.
  split; [reflexivity|].
  apply (emptied_table_ends_comparison (Sample.env_of Sample.archive) Sample.shop_old
           (Sample.table [])
           {| domain := "shop.com"; file_paths := ["./old/shop.com_1.csv"] |}
           ["./old/lost.csv"]).
  - vm_compute. lia.
  - vm_compute. reflexivity.
  - reflexivity.
Defined.

(** ** [__remove_whitespace] *)

Lemma lstrip_by_head (p : ascii -> bool) (s : string) (c : ascii) (t : string) :
  lstrip_by p s = String c t -> p c = false.
Proof.
  induction s as [|a s IH]; simpl; intros H; [discriminate H|].
  destruct (p a) eqn:E; [auto|]. injection H as <- _. exact E.
Qed.

Lemma rstrip_by_twice (p : ascii -> bool) (s : string) :
  rstrip_by p (rstrip_by p s) = rstrip_by p s.
Proof.
  induction s as [|a s IH]; simpl; [reflexivity|].
  destruct (rstrip_by p s) as [|b r] eqn:E.
  - destruct (p a) eqn:Ea; simpl; [reflexivity|]. rewrite Ea. reflexivity.
  -
    change (rstrip_by p (String a (String b r)))
      with (match rstrip_by p (String b r) with
            | EmptyString => if p a then EmptyString else String a EmptyString
            | String b' r' => String a (String b' r')
            end).
    rewrite IH. reflexivity.
Qed.

Lemma rstrip_by_keeps_head (p : ascii -> bool) (c : ascii) (t : string) :
  p c = false -> exists r, rstrip_by p (String c t) = String c r.
Proof.
  intros H. simpl. destruct (rstrip_by p t) as [|b r].
  - rewrite H. eexists. reflexivity.
  - eexists. reflexivity.
Qed.

Lemma strip_twice (s : string) : strip (strip s) = strip s.
Proof.
  unfold strip. destruct (lstrip_by isspace s) as [|c t] eqn:E; [reflexivity|].
  apply lstrip_by_head in E.
  destruct (rstrip_by_keeps_head isspace c t E) as (r & Hr).
  rewrite Hr. cbn [lstrip_by]. rewrite E. rewrite <- Hr. apply rstrip_by_twice.
Qed.

Lemma mapM_total {A B : Type} (g : A -> B) (xs : list A) :
  mapM (fun x => Ok (g x)) xs = Ok (map g xs).
Proof.
  induction xs as [|x xs IH]; simpl; [reflexivity|]. rewrite IH. reflexivity.
Qed.

Lemma apply_total (l : string) (g : cell -> cell) (df : DataFrame) (i : nat) :
  index l (columns df) = Some i ->
  apply l (fun v => Ok (g v)) df
  = Ok (with_rows df (map (fun r => put i (g (get i r)) r) (rows df))).
Proof.
  intros H. unfold apply. rewrite (loc_index _ _ _ H). cbn [bind].
  rewrite (mapM_total (fun r => put i (g (get i r)) r)). reflexivity.
Qed.

(** one row through [__remove_whitespace] *)
Lemma remove_whitespace_rows (df : DataFrame) (t p : nat) :
  index COLUMNS_first (columns df) = Some t ->
  index COLUMNS_last (columns df) = Some p ->
  __remove_whitespace df
  = Ok (with_rows df
          (map (fun r => put t (CStr (strip (str (get t r))))
                           (put p (CStr (strip (str (get p r)))) r)) (rows df))).
Proof.
  intros Ht Hp. unfold __remove_whitespace.
  rewrite (apply_total _ (fun v => CStr (strip (str v))) _ _ Hp). cbn [bind].
  rewrite (apply_total _ (fun v => CStr (strip (str v))) _ t) by exact Ht.
  cbn [rows with_rows]. rewrite map_map.
  assert (Htp : t <> p).
  { eapply index_apart; [exact Ht | exact Hp | discriminate]. }
  f_equal. unfold with_rows. cbn [columns]. f_equal.
  apply map_ext. intros r. rewrite get_put_other by exact Htp. reflexivity.
Qed.

Lemma put_out_of_range (r : row) (i : nat) (v : cell) :
  (List.length r <= i)%nat -> put i v r = r.
Proof.
  revert i. induction r as [|c r IH]; intros [|i] H; simpl in *; try reflexivity.
  - lia.
  - rewrite IH by lia. reflexivity.
Qed.

Lemma put_fixed (r : row) (i : nat) (g : cell -> cell) (v : cell) :
  g v = v -> put i (g (get i (put i v r))) (put i v r) = put i v r.
Proof.
  intros Hg. destruct (Nat.lt_ge_cases i (List.length r)) as [Hlt | Hge].
  - rewrite get_put_same by exact Hlt. rewrite Hg. apply put_put.
  - rewrite !(put_out_of_range r) by exact Hge. reflexivity.
Qed.

Lemma put_comm (r : row) (i j : nat) (v w : cell) :
  i <> j -> put i v (put j w r) = put j w (put i v r).
Proof.
  revert i j. induction r as [|c r IH]; intros [|i] [|j] H; simpl; try reflexivity.
  - congruence.
  - rewrite IH by congruence. reflexivity.
Qed.

(** X7.  [__remove_whitespace] is idempotent: on a table whose labels
    are all different (so that [Title] and [Price] each name one column),
    what it has returned it leaves as it is. *)
Theorem remove_whitespace_twice (df df' : DataFrame) :
  NoDup (columns df) ->
  __remove_whitespace df = Ok df' -> __remove_whitespace df' = Ok df'.
Proof.
  intros _ H. pose proof (remove_whitespace_columns _ _ H) as [Ec Hc].
  destruct (has_columns_indices df Hc) as (t & p & Ht & Hp & Htp).
  rewrite (remove_whitespace_rows df t p Ht Hp) in H. injection H as <-.
  rewrite (remove_whitespace_rows _ t p) by assumption.
  cbn [rows with_rows columns]. unfold with_rows. cbn [columns]. do 2 f_equal.
  rewrite map_map. apply map_ext. intros r.
  set (g := fun v => CStr (strip (str v))).
  change (CStr (strip (str (get t r)))) with (g (get t r)).
  change (CStr (strip (str (get p r)))) with (g (get p r)).
  assert (Hg : forall v, g (g v) = g v).
  { intros v. unfold g. cbn [str]. rewrite strip_twice. reflexivity. }
  set (v := g (get p r)). set (w := g (get t r)).
  change (fun r0 => CStr (strip (str (get p r0)))) with (fun r0 => g (get p r0)).
  change (CStr (strip (str (get p (put t w (put p v r))))))
    with (g (get p (put t w (put p v r)))).
  change (CStr (strip (str (get t (put t w (put p v r))))))
    with (g (get t (put t w (put p v r)))).
  rewrite (put_comm r t p w v) by exact Htp.
  rewrite (put_fixed (put t w r) p g v) by apply Hg.
  rewrite <- (put_comm r t p w v) by exact Htp.
  apply (put_fixed (put p v r) t g w). apply Hg.
Qed.

Lemma remove_whitespace_twice_witness :
  __remove_whitespace
    (Sample.table [[CStr "nan"; CStr "u"; CStr "i"; CStr "$5"];
                   Sample.product "D" (CStr "nan")])
  = Ok (Sample.table [[CStr "nan"; CStr "u"; CStr "i"; CStr "$5"];
                      Sample.product "D" (CStr "nan")]).
Proof.
  apply (remove_whitespace_twice Cases.untitled).
  - repeat constructor; cbn; intuition discriminate.
  - reflexivity.
Defined.

(** X8.  After [__remove_whitespace] no title and no price is missing:
    every one of them is text, a missing value having become the text
    [nan].  The [dropna] calls of [__format_price] and
    [__drop_duplicates] therefore remove no row of such a table: a
    product without a title is kept, under the title [nan]. *)
Theorem remove_whitespace_leaves_text (df df' : DataFrame) :
  well_formed df ->
  __remove_whitespace df = Ok df' ->
  normalised df' /\ len df' = len df /\
  dropna [COLUMNS_last] df' = Ok df' /\ keyed df' = Ok df'.
Proof.
  intros Hwf H. pose proof (remove_whitespace_columns _ _ H) as [Ec Hc].
  pose proof (remove_whitespace_len _ _ H) as Hlen.
  destruct (has_columns_indices df Hc) as (t & p & Ht & Hp & Htp).
  rewrite (remove_whitespace_rows df t p Ht Hp) in H. injection H as <-.
  assert (Hn : normalised
                 (with_rows df
                    (map (fun r => put t (CStr (strip (str (get t r))))
                                     (put p (CStr (strip (str (get p r)))) r)) (rows df)))).
  { split; [exact Hc|]. cbn [rows with_rows]. apply Forall_forall. intros r' Hin.
    apply in_map_iff in Hin. destruct Hin as (r & <- & Hin).
    unfold well_formed in Hwf. rewrite Forall_forall in Hwf. specialize (Hwf r Hin).
    pose proof (index_in_range _ _ _ Ht) as Hlt. pose proof (index_in_range _ _ _ Hp) as Hlp.
    unfold title_of, price_of. cbn [columns with_rows]. rewrite Ht, Hp.
    rewrite get_put_same by (rewrite length_put; lia).
    rewrite get_put_other by (intros E; apply Htp; symmetry; exact E).
    rewrite get_put_same by lia. split; reflexivity. }
  split; [exact Hn|]. split; [exact Hlen|].
  set (d := with_rows df _) in *.
  assert (Hall : forall r, In r (rows d) -> isna (get p r) = false).
  { intros r Hin. destruct Hn as [_ Hrows]. rewrite Forall_forall in Hrows.
    destruct (Hrows r Hin) as [_ Hpr]. unfold price_of in Hpr.
    change (columns d) with (columns df) in Hpr. rewrite Hp in Hpr.
    apply is_text_not_na. exact Hpr. }
  split.
  - unfold dropna. cbn [mapM]. rewrite (loc_index COLUMNS_last d p) by exact Hp.
    cbn [bind forallb]. rewrite filter_all.
    + rewrite with_rows_same. reflexivity.
    + intros r Hin. rewrite (Hall r Hin). reflexivity.
  - rewrite keyed_rows_spec by exact Hc.
    rewrite normalised_keyed_rows by exact Hn. rewrite with_rows_same. reflexivity.
Qed.

Lemma remove_whitespace_leaves_text_witness :
  __remove_whitespace Cases.untitled
  = Ok (Sample.table [[CStr "nan"; CStr "u"; CStr "i"; CStr "$5"];
                      Sample.product "D" (CStr "nan")])
  /\ normalised (Sample.table [[CStr "nan"; CStr "u"; CStr "i"; CStr "$5"];
                               Sample.product "D" (CStr "nan")]).
Proof.
  split; [reflexivity|].
  apply (remove_whitespace_leaves_text Cases.untitled).
  - repeat constructor.
  - reflexivity.
Defined.

(** ** The rows that [__format_price] keeps *)

Lemma string_app_assoc (a b c : string) : (a ++ (b ++ c) = (a ++ b) ++ c)%string.
Proof. induction a as [|x a IH]; simpl; [reflexivity|]. rewrite IH. reflexivity. Qed.

(** What a match consumes is a prefix of what was left. *)
Lemma exec_suffix (i : bool) (r : regex) :
  forall (cu : cursor) (k : cursor -> option cursor) (res : cursor),
    exec i r cu k = Some res ->
    exists cu' w, rest cu = (w ++ rest cu')%string /\ k cu' = Some res.
Proof.
  assert (Hone : forall ok cu k res,
             one ok cu k = Some res ->
             exists cu' w, rest cu = (w ++ rest cu')%string /\ k cu' = Some res).
  { intros ok cu k res. unfold one. destruct (rest cu) as [|c s']; [discriminate|].
    destruct (ok c); [|discriminate]. intros H.
    exists (step cu s'), (String c EmptyString). split; [reflexivity | exact H]. }
  induction r as [| a | | p | r1 IH1 r2 IH2 | r1 IH1 r2 IH2 | r1 IH1 | n r1 IH1 | r1 IH1 |];
    intros cu k res H; cbn [exec] in H.
  - exists cu, EmptyString. split; [reflexivity | exact H].
  - eapply Hone; exact H.
  - eapply Hone; exact H.
  - eapply Hone; exact H.
  - apply IH1 in H. destruct H as (cu1 & w1 & E1 & H).
    apply IH2 in H. destruct H as (cu2 & w2 & E2 & H).
    exists cu2, (w1 ++ w2)%string. split; [|exact H].
    rewrite E1, E2. apply string_app_assoc.
  - apply orelse_Some in H. destruct H as [H|H]; [apply IH1 in H | apply IH2 in H];
      exact H.
  - remember (String.length (rest cu)) as fuel eqn:Ef. clear Ef. revert cu H.
    induction fuel as [|fuel IHf]; intros cu H.
    + exists cu, EmptyString. split; [reflexivity | exact H].
    + apply orelse_Some in H. destruct H as [H|H].
      * apply IH1 in H. destruct H as (cu1 & w1 & E1 & H).
        destruct (pos cu1 =? pos cu)%nat; [discriminate H|].
        apply IHf in H. destruct H as (cu2 & w2 & E2 & H).
        exists cu2, (w1 ++ w2)%string. split; [|exact H].
        rewrite E1, E2. apply string_app_assoc.
      * exists cu, EmptyString. split; [reflexivity | exact H].
  - apply IH1 in H. destruct H as (cu1 & w1 & E1 & H).
    exists (close_group n (pos cu) cu1), w1. split; [exact E1 | exact H].
  - destruct (exec i r1 cu Some); [discriminate H|].
    exists cu, EmptyString. split; [reflexivity | exact H].
  - destruct (at_end (rest cu)); [|discriminate H].
    exists cu, EmptyString. split; [reflexivity | exact H].
Qed.

Lemma has_digit_app (w s : string) : has_digit s = true -> has_digit (w ++ s) = true.
Proof.
  intros H. induction w as [|c w IH]; simpl; [exact H|].
  rewrite IH. apply orb_true_r.
Qed.

(** [str.contains("-")] *)
Lemma search_DASH_RE (whole s : string) (n : nat) :
  found (search_from false DASH_RE whole s n) = mem "-" s.
Proof.
  revert n. induction s as [|c s IH]; intros n; [reflexivity|].
  cbn [search_from exec DASH_RE]. unfold one. cbn [rest lit_matches mem].
  destruct (Ascii.eqb "-" c); [reflexivity|]. apply IH.
Qed.

Lemma exec_PRICE_RE_digit (cu res : cursor) :
  exec false PRICE_RE cu Some = Some res -> has_digit (rest cu) = true.
Proof.
  unfold PRICE_RE, Plus.
  change (exec false (Cat ?a ?b) cu Some)
    with (exec false a cu (fun cu' => exec false b cu' Some)).
  intros H. apply exec_suffix in H. destruct H as (cu1 & w & E & H).
  rewrite E. apply has_digit_app.
  change (exec false (Cat (Cat (OneOf isdigit) ?b) ?c) cu1 Some)
    with (one (class_matches false isdigit) cu1
            (fun cu' => exec false b cu' (fun cu'' => exec false c cu'' Some))) in H.
  unfold one in H. destruct (rest cu1) as [|c s']; [discriminate H|].
  cbn [class_matches has_digit] in *. destruct (isdigit c); [reflexivity | discriminate H].
Qed.

Lemma no_dash_ahead (cu : cursor) :
  mem "-" (rest cu) = false ->
  exec false (NotAhead (OneOf hyphen)) cu Some = Some cu.
Proof.
  intros H. cbn [exec]. unfold one. destruct (rest cu) as [|c s']; [reflexivity|].
  cbn [mem class_matches] in *. apply orb_false_iff in H. destruct H as [H _].
  unfold hyphen. cbn [mem]. rewrite Ascii.eqb_sym, H. reflexivity.
Qed.

Lemma exec_PRICE_RE_at_digit (cu : cursor) (c : ascii) (s' : string) :
  rest cu = String c s' -> isdigit c = true -> mem "-" s' = false ->
  exec false PRICE_RE cu Some <> None.
Proof.
  intros E Hd Hm. unfold PRICE_RE, Plus.
  change (exec false (Cat ?a ?b) cu Some)
    with (exec false a cu (fun cu' => exec false b cu' Some)).
  apply exec_Star_some.
  change (exec false (Cat (Cat (OneOf isdigit) ?b) ?c) cu Some)
    with (one (class_matches false isdigit) cu
            (fun cu' => exec false b cu' (fun cu'' => exec false c cu'' Some))).
  unfold one. rewrite E. cbn [class_matches]. rewrite Hd.
  apply exec_Star_some.
  change (exec false (Cat ?a ?b) ?cu ?k)
    with (exec false a cu (fun cu' => exec false b cu' k)).
  apply exec_Star_some.
  change (exec false (Cat ?a ?b) ?cu ?k)
    with (exec false a cu (fun cu' => exec false b cu' k)).
  apply exec_Star_some.
  rewrite no_dash_ahead by exact Hm. discriminate.
Qed.

(** [str.contains(r"\$*\d+\.*\d*(?![\-])")] on a text without a hyphen *)
Lemma search_PRICE_RE (whole s : string) (n : nat) :
  mem "-" s = false ->
  found (search_from false PRICE_RE whole s n) = has_digit s.
Proof.
  revert n. induction s as [|c s IH]; intros n Hm; [reflexivity|].
  cbn [mem] in Hm. apply orb_false_iff in Hm. destruct Hm as [Hc Hm].
  cbn [has_digit]. destruct (isdigit c) eqn:Ed.
  - apply search_from_hit. eapply exec_PRICE_RE_at_digit; [reflexivity | exact Ed | exact Hm].
  - cbn [search_from orb].
    destruct (exec false PRICE_RE _ Some) as [res|] eqn:E.
    + apply exec_PRICE_RE_digit in E. cbn [rest has_digit] in E. rewrite Ed in E.
      symmetry. exact E.
    + apply IH. exact Hm.
Qed.

Lemma apply_Forall2 (l : string) (f : cell -> result cell) (df df' : DataFrame) (i : nat) :
  index l (columns df) = Some i ->
  apply l f df = Ok df' ->
  Forall2 (fun r r' => exists v, f (get i r) = Ok v /\ r' = put i v r) (rows df) (rows df').
Proof.
  intros Hi H. unfold apply in H. rewrite (loc_index _ _ _ Hi) in H. cbn [bind] in H.
  bind_in H as rs Hrs. injection H as <-. cbn [rows with_rows].
  apply mapM_Ok in Hrs. eapply Forall2_impl; [|exact Hrs].
  cbv beta. intros r r' Hr. bind_in Hr as v Hv. injection Hr as <-.
  exists v. split; [exact Hv | reflexivity].
Qed.

Lemma assign_where_Forall2 (i : nat) (mask : cell -> bool) (f : cell -> result cell)
  (df df' : DataFrame) :
  assign_where i mask f df = Ok df' ->
  Forall2 (fun r r' => exists v, f (get i r) = Ok v /\
                                 r' = if mask (get i r) then put i v r else r)
    (rows df) (rows df').
Proof.
  unfold assign_where. intros H. bind_in H as vs Hvs. injection H as <-.
  cbn [rows with_rows]. apply mapM_Ok in Hvs.
  induction Hvs as [|r v rs vs Hv Hvs IH]; simpl; constructor.
  - exists v. split; [exact Hv | reflexivity].
  - exact IH.
Qed.

Lemma Forall2_compose {A B C : Type} (R1 : A -> B -> Prop) (R2 : B -> C -> Prop)
  (l1 : list A) (l2 : list B) (l3 : list C) :
  Forall2 R1 l1 l2 -> Forall2 R2 l2 l3 ->
  Forall2 (fun a c => exists b, R1 a b /\ R2 b c) l1 l3.
Proof.
  intros H. revert l3. induction H as [|a b l1 l2 Hab H IH]; intros l3 H3;
    inversion H3; subst; constructor.
  - exists b. split; assumption.
  - apply IH. assumption.
Qed.

Lemma Forall2_map_left {A B C : Type} (R : B -> C -> Prop) (g : A -> B)
  (l : list A) (l' : list C) :
  Forall2 R (map g l) l' -> Forall2 (fun a c => R (g a) c) l l'.
Proof.
  revert l'. induction l as [|a l IH]; intros l' H; inversion H; subst; constructor.
  - assumption.
  - apply IH. assumption.
Qed.

Lemma filter_of_map {A B : Type} (f : B -> bool) (g : A -> B) (l : list A) :
  filter f (map g l) = map g (filter (fun x => f (g x)) l).
Proof.
  induction l as [|a l IH]; simpl; [reflexivity|].
  destruct (f (g a)); simpl; rewrite IH; reflexivity.
Qed.

Lemma money_text (v c : cell) : money v = Ok c -> exists s, c = CStr s.
Proof.
  destruct v as [|s|n|x]; simpl; intros H; try discriminate H.
  - bind_in H as x Hx. injection H as <-. eexists. reflexivity.
  - injection H as <-. eexists. reflexivity.
Qed.

(** the three filters of [__format_price] on one row *)
Lemma price_filters (p : nat) (r : row) :
  negb (isna (get p r))
  && negb (contains DASH_RE (get p (put p (CStr (str (get p r))) r)))
  && contains PRICE_RE (get p (put p (CStr (str (get p r))) r))
  = priceable (get p r).
Proof.
  unfold priceable. destruct (isna (get p r)) eqn:En; [reflexivity|].
  rewrite get_put_same by (apply get_in_range; exact En).
  unfold contains, search. cbn [str negb andb].
  rewrite search_DASH_RE. destruct (mem "-" (str (get p r))) eqn:Em; [reflexivity|].
  cbn [negb andb]. apply search_PRICE_RE. exact Em.
Qed.

Lemma format_price_kept (df df' : DataFrame) (p : nat) :
  index COLUMNS_last (columns df) = Some p ->
  __format_price df = Ok df' ->
  Forall2 (fun r r' => exists s, r' = put p (CStr s) r)
    (filter (fun r => priceable (get p r)) (rows df)) (rows df').
Proof.
  intros Hp H. unfold __format_price in H.
  bind_in H as d1 H1. bind_in H as d2 H2. bind_in H as i Hi.
  bind_in H as d5 H5. bind_in H as d6 H6. bind_in H as d7 H7.
  pose proof (dropna_columns _ _ _ H1) as C1.
  pose proof (astype_str_columns _ _ _ H2) as C2.
  pose proof (assign_where_columns _ _ _ _ _ H5) as C5. cbn [columns where_ with_rows] in C5.
  pose proof (assign_where_columns _ _ _ _ _ H6) as C6.
  pose proof (apply_columns _ _ _ _ H7) as [C7 _].
  assert (i = p) as ->.
  { apply loc_Ok in Hi. rewrite C2, C1, Hp in Hi. congruence. }
  apply assign_where_Forall2 in H5, H6.
  apply (apply_Forall2 _ _ _ _ p) in H7; [|rewrite C6, C5, C2, C1; exact Hp].
  apply (apply_Forall2 _ _ _ _ p) in H; [|rewrite C7, C6, C5, C2, C1; exact Hp].
  (* the rows that reach the conversion *)
  unfold dropna in H1. cbn [mapM] in H1. rewrite (loc_index _ _ _ Hp) in H1.
  cbn [bind forallb] in H1. injection H1 as <-.
  unfold astype_str in H2. rewrite (loc_index COLUMNS_last _ p) in H2 by exact Hp.
  cbn [bind rows with_rows] in H2. injection H2 as <-.
  cbn [rows where_ with_rows] in H5.
  rewrite !filter_of_map, <- !filter_and in H5.
  rewrite (filter_ext _ (fun r => priceable (get p r))) in H5.
  2:{ intros r. rewrite andb_true_r, andb_assoc. apply price_filters. }
  apply Forall2_map_left in H5.
  pose proof (Forall2_compose _ _ _ _ _
                (Forall2_compose _ _ _ _ _ (Forall2_compose _ _ _ _ _ H5 H6) H7) H) as HF.
  eapply Forall2_impl; [|exact HF]. cbv beta.
  intros r r' (r7 & (r6 & (r5 & (v5 & _ & E5) & (v6 & _ & E6)) & (v7 & _ & E7))
                   & (v & Hv & E)).
  apply money_text in Hv. destruct Hv as (s & ->). exists s.
  rewrite !digits_spaces_everywhere in *. subst. rewrite !put_put. reflexivity.
Qed.

(** X9.  [__format_price] keeps, in their order, exactly the rows whose
    price is present, holds no hyphen and holds a digit; in a row it keeps
    it replaces the price by a text and changes no other cell.  The
    labels stay as they are. *)
Theorem format_price_keeps_priceable_rows (df df' : DataFrame) (p : nat) :
  index COLUMNS_last (columns df) = Some p ->
  __format_price df = Ok df' ->
  columns df' = columns df /\
  Forall2 (fun r r' => exists s, r' = put p (CStr s) r)
    (filter (fun r => priceable (get p r)) (rows df)) (rows df').
Proof.
  intros Hp H. split.
  - apply format_price_columns in H. apply H.
  - apply format_price_kept; assumption.
Qed.

Lemma format_price_keeps_priceable_rows_witness :
  columns (Sample.table [Sample.product "A" (CStr "$1,234.50");
                         Sample.product "C" (CStr "$5.00")])
  = columns Sample.four_prices /\
  Forall2 (fun r r' => exists s, r' = put 3 (CStr s) r)
    (filter (fun r => priceable (get 3 r)) (rows Sample.four_prices))
    (rows (Sample.table [Sample.product "A" (CStr "$1,234.50");
                         Sample.product "C" (CStr "$5.00")])).
Proof.
  apply (format_price_keeps_priceable_rows Sample.four_prices
           (Sample.table [Sample.product "A" (CStr "$1,234.50");
                          Sample.product "C" (CStr "$5.00")]) 3).
  - reflexivity.
  - vm_compute. reflexivity.
Defined.

(** ** [__get_columns] and [__rename_columns] *)

Lemma keyword_found (kw column : string) :
  mem "." kw = false ->
  found (search_I (Word kw) column) = contains_literal kw column.
Proof.
  intros H. unfold search_I.
  replace (Word kw) with (domain_pattern kw).
  - rewrite search_domain_pattern. apply contains_wildcard_literal. exact H.
  - clear column. induction kw as [|c kw IH]; [reflexivity|].
    cbn [mem] in H. apply orb_false_iff in H. destruct H as [Hc H].
    cbn [domain_pattern Word]. rewrite Ascii.eqb_sym, Hc, IH by exact H. reflexivity.
Qed.

(** one round of the loop, by the keyword of the label *)
Lemma classify_keyword (v : Found) (column : string) :
  classify v column
  = match keyword_of column with
    | None => v
    | Some _ =>
        {| v_title := if filed_under "title" column then Some column else v_title v;
           v_url := if filed_under "url" column then Some column else v_url v;
           v_image := if filed_under "image" column then Some column else v_image v;
           v_price := if filed_under "price" column then Some column else v_price v |}
    end.
Proof.
  unfold classify, filed_under, keyword_of.
  rewrite !keyword_found by reflexivity.
  destruct (contains_literal "title" column); [reflexivity|].
  destruct (contains_literal "url" column); [reflexivity|].
  destruct (contains_literal "image" column); [reflexivity|].
  destruct (contains_literal "price" column); [reflexivity|].
  reflexivity.
Qed.

Lemma find_snoc {A : Type} (f : A -> bool) (l : list A) (x : A) :
  find f (l ++ [x])
  = match find f l with
    | Some y => Some y
    | None => if f x then Some x else None
    end.
Proof.
  induction l as [|a l IH]; simpl; [reflexivity|].
  destruct (f a); [reflexivity | exact IH].
Qed.

Lemma fold_classify (columns : list string) :
  forall v : Found,
    fold_left classify columns v
    = {| v_title := match last_under "title" columns with
                    | Some c => Some c
                    | None => v_title v
                    end;
         v_url := match last_under "url" columns with
                  | Some c => Some c
                  | None => v_url v
                  end;
         v_image := match last_under "image" columns with
                    | Some c => Some c
                    | None => v_image v
                    end;
         v_price := match last_under "price" columns with
                    | Some c => Some c
                    | None => v_price v
                    end |}.
Proof.
  unfold last_under.
  induction columns as [|c columns IH]; intros v; cbn [fold_left rev].
  - destruct v; reflexivity.
  - rewrite IH, !find_snoc, classify_keyword.
    destruct (find (filed_under "title") (rev columns));
      destruct (find (filed_under "url") (rev columns));
      destruct (find (filed_under "image") (rev columns));
      destruct (find (filed_under "price") (rev columns));
      unfold filed_under; destruct (keyword_of c) as [k|]; cbn [v_title v_url v_image v_price];
      try reflexivity;
      destruct (String.eqb k "title"), (String.eqb k "url"),
        (String.eqb k "image"), (String.eqb k "price"); reflexivity.
Qed.

Lemma get_columns_takes_last_of_each_kind_aux (columns : list string)
  (stats : option FileStats) :
  fst (__get_columns columns stats)
  = match last_under "title" columns, last_under "url" columns,
          last_under "image" columns, last_under "price" columns with
    | Some t, Some u, Some i, Some p =>
        Some {| title := t; url := u; image := i; price := p |}
    | _, _, _, _ => None
    end.
Proof.
  rewrite get_columns_fst. unfold __get_columns. rewrite fold_classify.
  unfold make_columns. cbn [v_title v_url v_image v_price].
  destruct (last_under "title" columns); [|reflexivity].
  destruct (last_under "url" columns); [|reflexivity].
  destruct (last_under "image" columns); [|reflexivity].
  destruct (last_under "price" columns); reflexivity.
Qed.

(** X10.  [__get_columns] files every label under the first keyword it
    contains, in the order title, url, image, price and letter case
    apart, and resolves each field to the last label filed under it; it
    returns [None] exactly when some keyword has no label.  So [Image URL]
    is taken for the url, and of two titles the later one wins. *)
Theorem get_columns_takes_last_of_each_kind :
  (forall (columns : list string) (stats : option FileStats),
      fst (__get_columns columns stats)
      = match last_under "title" columns, last_under "url" columns,
              last_under "image" columns, last_under "price" columns with
        | Some t, Some u, Some i, Some p =>
            Some {| title := t; url := u; image := i; price := p |}
        | _, _, _, _ => None
        end)
  /\ fst (__get_columns Cases.export_labels None)
     = Some {| title := "Subtitle"; url := "Image URL"; image := "Picture (image)";
               price := "Price (USD)" |}.
Proof.
  split; [exact get_columns_takes_last_of_each_kind_aux | reflexivity].
Qed.

Lemma last_under_Some (kw : string) (columns : list string) (x : string) :
  last_under kw columns = Some x -> In x columns /\ filed_under kw x = true.
Proof.
  unfold last_under. intros H. apply find_some in H. destruct H as [Hin Hf].
  split; [apply in_rev; exact Hin | exact Hf].
Qed.

Lemma filed_under_one (kw kw' x : string) :
  filed_under kw x = true -> filed_under kw' x = true -> kw = kw'.
Proof.
  unfold filed_under. destruct (keyword_of x) as [k|]; [|discriminate].
  intros H H'. apply String.eqb_eq in H, H'. congruence.
Qed.

Lemma resolved_columns (columns : list string) (stats : option FileStats) (c : Columns) :
  fst (__get_columns columns stats) = Some c ->
  (In (title c) columns /\ filed_under "title" (title c) = true) /\
  (In (url c) columns /\ filed_under "url" (url c) = true) /\
  (In (image c) columns /\ filed_under "image" (image c) = true) /\
  (In (price c) columns /\ filed_under "price" (price c) = true).
Proof.
  rewrite get_columns_takes_last_of_each_kind_aux.
  destruct (last_under "title" columns) as [t|] eqn:Et; [|discriminate].
  destruct (last_under "url" columns) as [u|] eqn:Eu; [|discriminate].
  destruct (last_under "image" columns) as [i|] eqn:Ei; [|discriminate].
  destruct (last_under "price" columns) as [p|] eqn:Ep; [|discriminate].
  intros H. injection H as <-. cbn [title url image price].
  repeat split; eapply last_under_Some; eassumption.
Qed.

Lemma resolved_columns_distinct (columns : list string) (stats : option FileStats)
  (c : Columns) :
  fst (__get_columns columns stats) = Some c ->
  NoDup [title c; url c; image c; price c].
Proof.
  intros H. apply resolved_columns in H.
  destruct H as ((_ & Ht) & (_ & Hu) & (_ & Hi) & (_ & Hp)).
  assert (D : forall kw kw' x y, filed_under kw x = true -> filed_under kw' y = true ->
                                 kw <> kw' -> x <> y).
  { intros kw kw' x y Hx Hy Hne ->. apply Hne. eapply filed_under_one; eassumption. }
  repeat constructor; cbn [In]; intros F;
    repeat (destruct F as [F|F]; [revert F; eapply D; try eassumption; discriminate|]);
    exact F.
Qed.

Lemma rename_resolved (c : Columns) (l : string) :
  NoDup [title c; url c; image c; price c] ->
  match dict_get [(title c, nth 0 COLUMNS ""); (url c, nth 1 COLUMNS "");
                  (image c, nth 2 COLUMNS ""); (price c, COLUMNS_last)] l with
  | Some l' => l'
  | None => l
  end
  = if String.eqb l (title c) then "Title"
    else if String.eqb l (url c) then "Url"
    else if String.eqb l (image c) then "Image"
    else if String.eqb l (price c) then "Price"
    else l.
Proof.
  intros Hd. cbn [dict_get nth COLUMNS COLUMNS_last last].
  destruct (String.eqb l (title c)) eqn:E1; destruct (String.eqb l (url c)) eqn:E2;
    destruct (String.eqb l (image c)) eqn:E3; destruct (String.eqb l (price c)) eqn:E4;
    try reflexivity; exfalso;
    repeat match goal with
           | H : String.eqb _ _ = true |- _ => apply String.eqb_eq in H
           | H : String.eqb _ _ = false |- _ => clear H
           end;
    inversion Hd as [|? ? N1 Hd1]; inversion Hd1 as [|? ? N2 Hd2];
    inversion Hd2 as [|? ? N3 Hd3]; subst; cbn [In] in *;
    first [apply N1; tauto | apply N2; tauto | apply N3; tauto
          | apply N1; left; congruence | apply N1; right; left; congruence
          | apply N1; right; right; left; congruence
          | apply N2; left; congruence | apply N2; right; left; congruence
          | apply N3; left; congruence ].
Qed.

(** X11.  When the columns of a table resolve, the four resolved labels
    are four different columns of the table, and [__rename_columns] gives
    exactly these the labels [Title], [Url], [Image] and [Price]: every
    other label and every row stays as it is, and the renamed table has all
    four labels. *)
Theorem rename_columns_labels_resolved_columns (df : DataFrame)
  (stats : option FileStats) (c : Columns) :
  fst (__get_columns (columns df) stats) = Some c ->
  NoDup [title c; url c; image c; price c] /\
  incl [title c; url c; image c; price c] (columns df) /\
  rows (__rename_columns df c) = rows df /\
  columns (__rename_columns df c)
  = map (fun l => if String.eqb l (title c) then "Title"
                  else if String.eqb l (url c) then "Url"
                  else if String.eqb l (image c) then "Image"
                  else if String.eqb l (price c) then "Price"
                  else l) (columns df) /\
  incl COLUMNS (columns (__rename_columns df c)).
Proof.
  intros H. pose proof (resolved_columns_distinct _ _ _ H) as Hd.
  pose proof (resolved_columns _ _ _ H) as ((It & _) & (Iu & _) & (Ii & _) & (Ip & _)).
  assert (Hcols : columns (__rename_columns df c)
                  = map (fun l => if String.eqb l (title c) then "Title"
                                  else if String.eqb l (url c) then "Url"
                                  else if String.eqb l (image c) then "Image"
                                  else if String.eqb l (price c) then "Price"
                                  else l) (columns df)).
  { unfold __rename_columns, rename. cbn [columns]. apply map_ext.
    intros l. apply rename_resolved. exact Hd. }
  split; [exact Hd|]. split.
  { intros x Hx. cbn [In] in Hx.
    destruct Hx as [<-|[<-|[<-|[<-|[]]]]]; assumption. }
  split; [reflexivity|]. split; [exact Hcols|].
  rewrite Hcols.
  inversion Hd as [|? ? N1 Hd1]; inversion Hd1 as [|? ? N2 Hd2];
    inversion Hd2 as [|? ? N3 Hd3]; subst; cbn [In] in *.
  assert (E : forall a b : string, a <> b -> String.eqb a b = false).
  { intros a b Hab. apply String.eqb_neq. exact Hab. }
  intros x Hx. cbn [COLUMNS In] in Hx. apply in_map_iff.
  destruct Hx as [<-|[<-|[<-|[<-|[]]]]].
  - exists (title c). rewrite String.eqb_refl. auto.
  - exists (url c). rewrite (E (url c) (title c)) by (intros F; apply N1; auto).
    rewrite String.eqb_refl. auto.
  - exists (image c). rewrite (E (image c) (title c)) by (intros F; apply N1; auto).
    rewrite (E (image c) (url c)) by (intros F; apply N2; auto).
    rewrite String.eqb_refl. auto.
  - exists (price c). rewrite (E (price c) (title c)) by (intros F; apply N1; auto).
    rewrite (E (price c) (url c)) by (intros F; apply N2; auto).
    rewrite (E (price c) (image c)) by (intros F; apply N3; auto).
    rewrite String.eqb_refl. auto.
Qed.

Lemma rename_columns_labels_resolved_columns_witness :
  NoDup ["Subtitle"; "Image URL"; "Picture (image)"; "Price (USD)"] /\
  incl ["Subtitle"; "Image URL"; "Picture (image)"; "Price (USD)"] Cases.export_labels /\
  rows (__rename_columns Cases.export
          {| title := "Subtitle"; url := "Image URL"; image := "Picture (image)";
             price := "Price (USD)" |}) = rows Cases.export /\
  columns (__rename_columns Cases.export
             {| title := "Subtitle"; url := "Image URL"; image := "Picture (image)";
                price := "Price (USD)" |})
  = ["Product Title"; "Title"; "Url"; "Image"; "Price"; "SKU"] /\
  incl COLUMNS ["Product Title"; "Title"; "Url"; "Image"; "Price"; "SKU"].
Proof.
  apply (rename_columns_labels_resolved_columns Cases.export None
           {| title := "Subtitle"; url := "Image URL"; image := "Picture (image)";
              price := "Price (USD)" |}).
  reflexivity.
Defined.

(** ** [__get_files], [__init__] and [__read_file] *)

Lemma exec_Word (w : string) :
  forall (cu : cursor) (k : cursor -> option cursor),
    exec true (Word w) cu k
    = match after_word w (rest cu) with
      | Some r => k {| rest := r; pos := pos cu + String.length w; spans := spans cu |}
      | None => None
      end.
Proof.
  induction w as [|a w IH]; intros cu k; cbn [Word exec after_word String.length].
  - destruct cu as [s n sp]. cbn [rest pos spans]. rewrite Nat.add_0_r. reflexivity.
  - unfold one. destruct (rest cu) as [|c s'] eqn:E; [reflexivity|].
    unfold lit_matches. destruct (Ascii.eqb (lower a) (lower c)); [|reflexivity].
    rewrite IH. cbn [rest pos spans step]. rewrite Nat.add_succ_r. reflexivity.
Qed.

Lemma exec_FILES_RE (cu : cursor) :
  found (option_map
           (fun c => {| subject := ""; m_start := 0; m_end := pos c; m_spans := spans c |})
           (exec true FILES_RE cu Some))
  = is_ext "csv" (rest cu) || is_ext "xlsx" (rest cu).
Proof.
  unfold FILES_RE. cbn [exec]. fold (Word "csv") (Word "xlsx").
  rewrite !exec_Word. unfold is_ext.
  destruct (after_word "csv" (rest cu)) as [r|]; cbn [orelse rest close_group].
  - destruct (at_end r); [reflexivity|]. cbn [orelse orb].
    destruct (after_word "xlsx" (rest cu)) as [r'|]; cbn [rest]; [|reflexivity].
    destruct (at_end r'); reflexivity.
  - destruct (after_word "xlsx" (rest cu)) as [r'|]; cbn [rest orb]; [|reflexivity].
    destruct (at_end r'); reflexivity.
Qed.

(** [re.search(r"(csv|xlsx)$", name, re.I)] *)
Lemma search_FILES_RE (whole s : string) (n : nat) :
  found (search_from true FILES_RE whole s n) = ends_in "csv" s || ends_in "xlsx" s.
Proof.
  revert n. induction s as [|c s IH]; intros n.
  - reflexivity.
  - cbn [search_from ends_in].
    pose proof (exec_FILES_RE {| rest := String c s; pos := n; spans := [] |}) as E.
    cbn [rest] in E.
    destruct (exec true FILES_RE _ Some) as [cu|]; cbn [option_map found] in E.
    + cbn [found]. destruct (is_ext "csv" (String c s)); [reflexivity|].
      cbn [orb] in *. rewrite <- E. cbn [orb]. symmetry. apply orb_true_r.
    + symmetry in E. apply orb_false_iff in E. destruct E as [-> ->]. cbn [orb]. apply IH.
Qed.

Lemma get_files_keeps_csv_and_xlsx_aux (env : Env) (path key : string)
  (names : list string) :
  listdir env path = Ok names ->
  __get_files env path key
  = match filter (fun name => ends_in "csv" name || ends_in "xlsx" name) names with
    | [] => Raise (SystemExit 1)
    | kept => Ok (map (fun name => (path ++ name)%string) kept)
    end.
Proof.
  intros H. unfold __get_files. rewrite H. cbn [bind].
  rewrite (filter_ext (fun file => found (search_I FILES_RE file))
             (fun name => ends_in "csv" name || ends_in "xlsx" name))
    by (intros name; apply search_FILES_RE).
  destruct (filter _ names) as [|name kept]; reflexivity.
Qed.

(** X12.  [__get_files] returns the entries of the directory whose name
    ends in [csv] or [xlsx], in any letter case and with or without a dot
    before it, in the order of the listing and each behind the path of
    the directory; when there is none it ends the process with status 1
    (through [Logger.error]). *)
Theorem get_files_keeps_csv_and_xlsx (env : Env) (path key : string)
  (names : list string) :
  listdir env path = Ok names ->
  __get_files env path key
  = match filter (fun name => ends_in "csv" name || ends_in "xlsx" name) names with
    | [] => Raise (SystemExit 1)
    | kept => Ok (map (fun name => (path ++ name)%string) kept)
    end.
Proof. exact (get_files_keeps_csv_and_xlsx_aux env path key names). Qed.

Lemma get_files_keeps_csv_and_xlsx_witness :
  __get_files (Sample.env_of Cases.mixed) "./new/" "new"
  = Ok ["./new/Shop.CSV"; "./new/datacsv"; "./new/book.XLSX"].
Proof.
  apply (get_files_keeps_csv_and_xlsx (Sample.env_of Cases.mixed) "./new/" "new"
           ["notes.txt"; "Shop.CSV"; "datacsv"; "book.XLSX"; "csv.bak"]).
  reflexivity.
Defined.

Lemma get_files_Ok (env : Env) (path key : string) (files : list string) :
  __get_files env path key = Ok files ->
  exists names,
    listdir env path = Ok names /\
    files = map (fun name => (path ++ name)%string)
              (filter (fun name => ends_in "csv" name || ends_in "xlsx" name) names) /\
    files <> [].
Proof.
  intros H. pose proof H as H0. unfold __get_files in H0. bind_in H0 as names Hn.
  exists names. split; [exact Hn|].
  rewrite (get_files_keeps_csv_and_xlsx_aux env path key names Hn) in H.
  destruct (filter _ names) as [|name kept]; [discriminate H|].
  injection H as <-. split; [reflexivity | discriminate].
Qed.

(** X13.  A [Deduplicator] exists only when both directories hold a csv or
    xlsx file: [__init__] then starts with the paths of these files, both
    lists non-empty, and with no record and no table. *)
Theorem init_lists_both_directories (env : Env) (self : Deduplicator) :
  __init__ env = Ok self ->
  exists olds news : list string,
    listdir env (INPUT_OLD_PATH env) = Ok olds /\
    listdir env (INPUT_NEW_PATH env) = Ok news /\
    old_files self
    = map (fun name => (INPUT_OLD_PATH env ++ name)%string)
        (filter (fun name => ends_in "csv" name || ends_in "xlsx" name) olds) /\
    new_files self
    = map (fun name => (INPUT_NEW_PATH env ++ name)%string)
        (filter (fun name => ends_in "csv" name || ends_in "xlsx" name) news) /\
    old_files self <> [] /\ new_files self <> [] /\
    file_stats self = [] /\ dataframes self = [] /\ saved self = [] /\
    stats_csv self = None.
Proof.
  unfold __init__. intros H. bind_in H as old Hold. bind_in H as new Hnew.
  injection H as <-. cbn [old_files new_files file_stats dataframes saved stats_csv].
  apply get_files_Ok in Hold, Hnew.
  destruct Hold as (olds & Ho & -> & Hone). destruct Hnew as (news & Hn & -> & Hnne).
  exists olds, news. repeat split; assumption.
Qed.

Lemma init_lists_both_directories_witness :
  exists olds news : list string,
    Sample.names_under Cases.mixed "./old/" = Ok olds /\
    Sample.names_under Cases.mixed "./new/" = Ok news /\
    ["./old/shop.com_2023.csv"]
    = map (fun name => ("./old/" ++ name)%string)
        (filter (fun name => ends_in "csv" name || ends_in "xlsx" name) olds) /\
    ["./new/Shop.CSV"; "./new/datacsv"; "./new/book.XLSX"]
    = map (fun name => ("./new/" ++ name)%string)
        (filter (fun name => ends_in "csv" name || ends_in "xlsx" name) news) /\
    ["./old/shop.com_2023.csv"] <> [] /\
    ["./new/Shop.CSV"; "./new/datacsv"; "./new/book.XLSX"] <> [] /\
    @nil FileStats = [] /\ @nil DataFrame = [] /\ @nil (string * DataFrame) = [] /\
    @None (list FileStats) = None.
Proof.
  apply (init_lists_both_directories (Sample.env_of Cases.mixed)
           (Sample.start ["./old/shop.com_2023.csv"]
              ["./new/Shop.CSV"; "./new/datacsv"; "./new/book.XLSX"])).
  reflexivity.
Defined.

(** X14.  Without a csv or xlsx file in the directory of historical files
    [__init__] ends the process with status 1, whatever the directory of
    new files holds: a first run, with nothing to compare with, filters
    nothing. *)
Theorem init_exits_without_history (env : Env) (names : list string) :
  listdir env (INPUT_OLD_PATH env) = Ok names ->
  Forall (fun name => ends_in "csv" name || ends_in "xlsx" name = false) names ->
  __init__ env = Raise (SystemExit 1).
Proof.
  intros H Hall. unfold __init__.
  rewrite (get_files_keeps_csv_and_xlsx_aux env _ "old" names H).
  rewrite filter_none; [reflexivity|].
  intros name Hin. rewrite Forall_forall in Hall. apply Hall. exact Hin.
Qed.

Lemma init_exits_without_history_witness :
  __init__ (Sample.env_of Cases.first_run) = Raise (SystemExit 1).
Proof.
  apply (init_exits_without_history (Sample.env_of Cases.first_run) ["readme.txt"]).
  - reflexivity.
  - repeat constructor.
Defined.

Lemma exec_any_ext (ext : string) (cu : cursor) :
  (exists res, exec true (Cat Dot (Cat (Word ext) Eos)) cu Some = Some res) <->
  (exists c s', rest cu = String c s' /\ Ascii.eqb c newline = false /\ is_ext ext s' = true).
Proof.
  cbn [exec]. unfold one. destruct (rest cu) as [|c s'].
  - split; [intros (res & H); discriminate H | intros (c & s' & H & _); discriminate H].
  - destruct (Ascii.eqb c newline) eqn:Ec; cbn [negb].
    + split; [intros (res & H); discriminate H|].
      intros (c0 & s0 & H & Hc & _). injection H as <- <-. congruence.
    + rewrite exec_Word. cbn [rest step].
      destruct (after_word ext s') as [r|] eqn:Ea.
      * cbn [rest]. destruct (at_end r) eqn:Er.
        -- split; [|intros _; eexists; reflexivity].
           intros _. exists c, s'. unfold is_ext. rewrite Ea, Er. auto.
        -- split; [intros (res & H); discriminate H|].
           intros (c0 & s0 & H & _ & F). injection H as <- <-.
           unfold is_ext in F. rewrite Ea, Er in F. discriminate F.
      * split; [intros (res & H); discriminate H|].
        intros (c0 & s0 & H & _ & F). injection H as <- <-.
        unfold is_ext in F. rewrite Ea in F. discriminate F.
Qed.

(** [re.search(r".xlsx$", path, re.I)] and [re.search(r".csv$", path, re.I)] *)
Lemma search_any_ext (ext whole s : string) (n : nat) :
  found (search_from true (Cat Dot (Cat (Word ext) Eos)) whole s n) = ends_in_any ext s.
Proof.
  revert n. induction s as [|c s IH]; intros n.
  - reflexivity.
  - cbn [search_from ends_in_any].
    pose proof (exec_any_ext ext {| rest := String c s; pos := n; spans := [] |}) as E.
    cbn [rest] in E.
    destruct (exec true (Cat Dot (Cat (Word ext) Eos)) _ Some) as [cu|].
    + destruct E as [E _]. destruct E as (c0 & s0 & H & Hc & He); [eexists; reflexivity|].
      injection H as <- <-. rewrite Hc, He. reflexivity.
    + rewrite IH.
      destruct (negb (Ascii.eqb c newline) && is_ext ext s) eqn:F; [|reflexivity].
      apply andb_true_iff in F. destruct F as [Fc Fe]. apply negb_true_iff in Fc.
      destruct E as [_ E]. destruct E as (res & H); [exists c, s; auto | discriminate H].
Qed.

Lemma read_file_by_ending_aux (env : Env) (file_path : string) :
  __read_file env file_path
  = if ends_in_any "xlsx" file_path then df <- read_excel env file_path ;; Ok (Some df)
    else if ends_in_any "csv" file_path then df <- read_csv env file_path ;; Ok (Some df)
    else Ok None.
Proof.
  unfold __read_file, search_I, XLSX_RE, CSV_RE. rewrite !search_any_ext. reflexivity.
Qed.

(** X15.  [__read_file] chooses the reader by the end of the path alone:
    any character but a newline followed by [xlsx] (in any letter case)
    gives [read_excel], else the same with [csv] gives [read_csv], else
    the result is [None]; an exception of the reader is passed on. *)
Theorem read_file_by_ending (env : Env) (file_path : string) :
  __read_file env file_path
  = if ends_in_any "xlsx" file_path then df <- read_excel env file_path ;; Ok (Some df)
    else if ends_in_any "csv" file_path then df <- read_csv env file_path ;; Ok (Some df)
    else Ok None.
Proof.
  unfold __read_file, search_I, XLSX_RE, CSV_RE.
  rewrite (search_any_ext "xlsx"), (search_any_ext "csv"). reflexivity.
Qed.

Lemma ends_in_app (ext w s : string) : ends_in ext s = true -> ends_in ext (w ++ s) = true.
Proof.
  intros H. induction w as [|c w IH]; [exact H|].
  cbn [append ends_in]. rewrite IH. apply orb_true_r.
Qed.

Lemma ends_in_any_app (ext w s : string) :
  ends_in_any ext s = true -> ends_in_any ext (w ++ s) = true.
Proof.
  intros H. induction w as [|c w IH]; [exact H|].
  cbn [append ends_in_any]. rewrite IH. apply orb_true_r.
Qed.

Lemma ends_in_any_ends_in (ext s : string) :
  ends_in_any ext s = true -> ends_in ext s = true.
Proof.
  induction s as [|c s IH]; cbn [ends_in_any ends_in]; intros H; [discriminate H|].
  apply orb_true_iff in H. apply orb_true_iff. right. destruct H as [H|H].
  - apply andb_true_iff in H. destruct H as [_ H].
    destruct s; cbn [ends_in]; rewrite H; reflexivity.
  - apply IH. exact H.
Qed.

Lemma ends_in_cases (ext s : string) :
  ends_in ext s = true -> no_newline s = true ->
  is_ext ext s = true \/ ends_in_any ext s = true.
Proof.
  unfold no_newline. induction s as [|c s IH]; cbn [ends_in ends_in_any all_chars];
    intros H Hn.
  - left. rewrite orb_false_r in H. exact H.
  - apply andb_true_iff in Hn. destruct Hn as [Hc Hn].
    apply orb_true_iff in H. destruct H as [H|H]; [left; exact H|].
    right. destruct (IH H Hn) as [He|He].
    + rewrite Hc, He. reflexivity.
    + rewrite He. apply orb_true_r.
Qed.

Lemma listed_name_is_read (ext path name : string) :
  path <> "" -> no_newline (path ++ name) = true -> ends_in ext name = true ->
  ends_in_any ext (path ++ name) = true.
Proof.
  intros Hp Hn He. destruct path as [|c path]; [congruence|]. clear Hp.
  revert c Hn. induction path as [|d path IH]; intros c Hn.
  - cbn [append] in *. unfold no_newline in Hn. cbn [all_chars] in Hn.
    apply andb_true_iff in Hn. destruct Hn as [Hc Hn].
    cbn [ends_in_any]. destruct (ends_in_cases ext name He Hn) as [H|H].
    + rewrite Hc, H. reflexivity.
    + rewrite H. apply orb_true_r.
  - change (String c (String d path) ++ name)%string
      with (String c (String d path ++ name)) in *.
    cbn [ends_in_any]. rewrite IH; [apply orb_true_r|].
    unfold no_newline in *. cbn [all_chars] in Hn.
    apply andb_true_iff in Hn. apply Hn.
Qed.

Lemma is_ext_length (ext s : string) :
  is_ext ext s = true -> no_newline s = true -> String.length s = String.length ext.
Proof.
  unfold is_ext, no_newline. revert s. induction ext as [|a ext IH]; intros s H Hn.
  - cbn [after_word] in H. destruct s as [|c [|d s]]; cbn [at_end] in H;
      try reflexivity; try discriminate H.
    cbn [all_chars] in Hn. rewrite H in Hn. discriminate Hn.
  - destruct s as [|c s]; cbn [after_word] in H; [discriminate H|].
    destruct (Ascii.eqb (lower a) (lower c)); [|discriminate H].
    cbn [all_chars] in Hn. apply andb_true_iff in Hn. destruct Hn as [_ Hn].
    cbn [String.length]. f_equal. apply IH; assumption.
Qed.

Lemma ends_in_length (ext s : string) :
  ends_in ext s = true -> no_newline s = true ->
  (String.length ext <= String.length s)%nat.
Proof.
  unfold no_newline. induction s as [|c s IH]; cbn [ends_in]; intros H Hn.
  - rewrite orb_false_r in H. rewrite (is_ext_length _ _ H Hn). lia.
  - apply orb_true_iff in H. destruct H as [H|H].
    + rewrite (is_ext_length _ _ H Hn). lia.
    + cbn [all_chars] in Hn. apply andb_true_iff in Hn. destruct Hn as [_ Hn].
      specialize (IH H Hn). cbn [String.length]. lia.
Qed.

(** no text ends both in [csv] and in [xlsx] *)
Lemma csv_or_xlsx (s : string) :
  no_newline s = true -> ends_in "csv" s = true -> ends_in "xlsx" s = true -> False.
Proof.
  induction s as [|c s IH]; intros Hn Hc Hx.
  - discriminate Hc.
  - assert (Hn' : no_newline s = true).
    { unfold no_newline in *. cbn [all_chars] in Hn. apply andb_true_iff in Hn. apply Hn. }
    cbn [ends_in] in Hc, Hx.
    apply orb_true_iff in Hc. apply orb_true_iff in Hx.
    destruct Hc as [Hc|Hc], Hx as [Hx|Hx].
    + pose proof (is_ext_length _ _ Hc Hn) as L1.
      pose proof (is_ext_length _ _ Hx Hn) as L2.
      rewrite L1 in L2. discriminate L2.
    + pose proof (is_ext_length _ _ Hc Hn) as L1.
      pose proof (ends_in_length _ _ Hx Hn') as L2.
      cbn [String.length] in *. lia.
    + pose proof (is_ext_length _ _ Hx Hn) as L2.
      destruct s as [|d s]; [discriminate Hc|].
      cbn [ends_in] in Hc. apply orb_true_iff in Hc. destruct Hc as [Hc|Hc].
      * unfold is_ext in Hc, Hx. cbn [after_word] in Hc, Hx.
        destruct (Ascii.eqb (lower "x") (lower c)); [|discriminate Hx].
        destruct (Ascii.eqb (lower "l") (lower d)) eqn:El; [|discriminate Hx].
        destruct (Ascii.eqb (lower "c") (lower d)) eqn:Ec; [|discriminate Hc].
        apply Ascii.eqb_eq in El, Ec. rewrite <- El in Ec. discriminate Ec.
      * assert (Hn'' : no_newline s = true).
        { unfold no_newline in *. cbn [all_chars] in Hn'.
          apply andb_true_iff in Hn'. apply Hn'. }
        pose proof (ends_in_length _ _ Hc Hn'') as L1.
        cbn [String.length] in *. lia.
    + exact (IH Hn' Hc Hx).
Qed.

(** X16.  Every path that [__get_files] returns is handed to a reader by
    [__read_file], [read_excel] when the name ends in [xlsx] and
    [read_csv] otherwise, as long as the directory path is not empty and
    no newline occurs: for a listed file [__read_file] does not return
    [None]. *)
Theorem listed_files_reach_a_reader (env : Env) (path key : string)
  (files : list string) (file : string) :
  __get_files env path key = Ok files ->
  In file files ->
  path <> "" ->
  no_newline file = true ->
  __read_file env file
  = if ends_in "xlsx" file then df <- read_excel env file ;; Ok (Some df)
    else df <- read_csv env file ;; Ok (Some df).
Proof.
  intros H Hin Hp Hn. apply get_files_Ok in H. destruct H as (names & _ & -> & _).
  apply in_map_iff in Hin. destruct Hin as (name & <- & Hin).
  apply filter_In in Hin. destruct Hin as [_ He].
  rewrite read_file_by_ending_aux.
  destruct (ends_in "xlsx" (path ++ name)) eqn:Ex.
  - destruct (ends_in "xlsx" name) eqn:Exn.
    + rewrite (listed_name_is_read "xlsx" path name Hp Hn Exn). reflexivity.
    + rewrite orb_false_r in He.
      exfalso. apply (csv_or_xlsx (path ++ name) Hn); [|exact Ex].
      apply ends_in_app. exact He.
  - destruct (ends_in_any "xlsx" (path ++ name)) eqn:Ea.
    + apply ends_in_any_ends_in in Ea. congruence.
    + destruct (ends_in "xlsx" name) eqn:Exn.
      * apply (ends_in_app "xlsx" path) in Exn. congruence.
      * rewrite orb_false_r in He.
        rewrite (listed_name_is_read "csv" path name Hp Hn He). reflexivity.
Qed.

Lemma listed_files_reach_a_reader_witness :
  __read_file (Sample.env_of Cases.mixed) "./new/datacsv" = Ok (Some Sample.shop_new).
Proof.
  apply (listed_files_reach_a_reader (Sample.env_of Cases.mixed) "./new/" "new"
           ["./new/Shop.CSV"; "./new/datacsv"; "./new/book.XLSX"] "./new/datacsv").
  - reflexivity.
  - right. left. reflexivity.
  - discriminate.
  - reflexivity.
Defined.

(** ** The name of the filtered file *)

Lemma prefix_cons (a : ascii) (tl : string) (c : ascii) (s : string) :
  prefix (String a tl) (String c s) = Ascii.eqb a c && prefix tl s.
Proof.
  cbn [prefix]. destruct (ascii_dec a c) as [->|N].
  - rewrite Ascii.eqb_refl. reflexivity.
  - apply Ascii.eqb_neq in N. rewrite N. reflexivity.
Qed.

Lemma replace_from_skip (old new : string) (s : string) :
  forall k, (String.length s <= k)%nat -> replace_from old new k s = EmptyString.
Proof.
  induction s as [|c s IH]; intros k H; [reflexivity|].
  destruct k as [|k]; cbn [String.length] in H; [lia|].
  cbn [replace_from]. apply IH. lia.
Qed.

(** a text in which [old] does not occur is left as it is *)
Lemma replace_none (old new s : string) :
  occurs_in old s = false -> replace old new s = s.
Proof.
  unfold replace. induction s as [|c s IH]; cbn [occurs_in replace_from]; intros H.
  - reflexivity.
  - apply orb_false_iff in H. destruct H as [Hp H]. rewrite Hp, IH by exact H. reflexivity.
Qed.

(** [a] is the first character of the pattern and occurs nowhere else in
    it: no occurrence can then begin before a later [a] and end after it *)
Lemma prefix_across (a : ascii) (tl t x : string) :
  mem a tl = false -> prefix tl t = false -> prefix tl (t ++ String a x) = false.
Proof.
  revert t. induction tl as [|b tl IH]; intros t Hm Hp.
  - destruct t; discriminate Hp.
  - cbn [mem] in Hm. apply orb_false_iff in Hm. destruct Hm as [Hab Hm].
    destruct t as [|d t].
    + cbn [append]. rewrite prefix_cons. rewrite Ascii.eqb_sym, Hab. reflexivity.
    + change (String d t ++ String a x)%string with (String d (t ++ String a x)).
      rewrite prefix_cons in *. destruct (Ascii.eqb b d); [|reflexivity].
      cbn [andb] in *. apply IH; assumption.
Qed.

Lemma occurs_in_across (a : ascii) (tl stem x : string) :
  mem a tl = false ->
  occurs_in (String a tl) stem = false ->
  occurs_in (String a tl) (stem ++ String a x) = occurs_in (String a tl) (String a x).
Proof.
  intros Hm. induction stem as [|c stem IH]; intros H; [reflexivity|].
  cbn [occurs_in] in H. apply orb_false_iff in H. destruct H as [Hp H].
  change (String c stem ++ String a x)%string with (String c (stem ++ String a x)).
  cbn [occurs_in]. rewrite IH by exact H.
  rewrite prefix_cons in *. destruct (Ascii.eqb a c); [|reflexivity].
  cbn [andb] in *. rewrite (prefix_across a tl stem x Hm Hp). reflexivity.
Qed.

Lemma prefix_refl (s t : string) : prefix s (s ++ t) = true.
Proof.
  induction s as [|c s IH]; [destruct t; reflexivity|].
  change (String c s ++ t)%string with (String c (s ++ t)).
  rewrite prefix_cons, Ascii.eqb_refl. exact IH.
Qed.

(** a text that ends in its only occurrence of [old] *)
Lemma replace_at_end (a : ascii) (tl new stem : string) :
  mem a tl = false ->
  occurs_in (String a tl) stem = false ->
  replace (String a tl) new (stem ++ String a tl) = (stem ++ new)%string.
Proof.
  intros Hm. unfold replace. induction stem as [|c stem IH]; intros H.
  - cbn [append replace_from].
    replace (prefix (String a tl) (String a tl)) with true.
    2:{ symmetry. rewrite prefix_cons, Ascii.eqb_refl. cbn [andb].
        clear. induction tl as [|b tl IH]; [reflexivity|].
        rewrite prefix_cons, Ascii.eqb_refl. exact IH. }
    rewrite replace_from_skip by (cbn [String.length]; lia).
    clear. induction new; simpl; congruence.
  - cbn [occurs_in] in H. apply orb_false_iff in H. destruct H as [Hp H].
    change (String c stem ++ String a tl)%string with (String c (stem ++ String a tl)).
    cbn [replace_from].
    replace (prefix (String a tl) (String c (stem ++ String a tl))) with false.
    + rewrite IH by exact H. reflexivity.
    + symmetry. rewrite prefix_cons in *. destruct (Ascii.eqb a c); [|reflexivity].
      cbn [andb] in *. apply prefix_across; assumption.
Qed.

(** X17.  A name whose only [.csv] or [.xlsx] is its extension is written
    under [OUTPUT_PATH] with the extension replaced by [_filtered.csv].
    A csv file and an xlsx file of one stem are therefore written to the
    same path. *)
Theorem save_to_csv_replaces_extension (env : Env) (self : Deduplicator)
  (df : DataFrame) (stem : string) :
  occurs_in ".csv" stem = false ->
  occurs_in ".xlsx" stem = false ->
  saved (__save_to_csv env self df (stem ++ ".csv"))
  = (saved self ++ [((OUTPUT_PATH env ++ stem ++ "_filtered.csv")%string, df)])%list /\
  saved (__save_to_csv env self df (stem ++ ".xlsx"))
  = (saved self ++ [((OUTPUT_PATH env ++ stem ++ "_filtered.csv")%string, df)])%list.
Proof.
  intros Hc Hx. unfold __save_to_csv. cbn [saved]. split.
  - rewrite (replace_none ".xlsx").
    + rewrite (replace_at_end "." "csv") by (reflexivity || exact Hc). reflexivity.
    + rewrite (occurs_in_across "." "xlsx" stem "csv") by (reflexivity || exact Hx).
      reflexivity.
  - rewrite (replace_at_end "." "xlsx") by (reflexivity || exact Hx).
    rewrite (replace_at_end "." "csv") by (reflexivity || exact Hc). reflexivity.
Qed.

Lemma save_to_csv_replaces_extension_witness :
  saved (__save_to_csv (Sample.env_of Sample.shop) (Sample.start [] []) Sample.shop_new
           "shop.com_2024.csv")
  = [("./out/shop.com_2024_filtered.csv", Sample.shop_new)] /\
  saved (__save_to_csv (Sample.env_of Sample.shop) (Sample.start [] []) Sample.shop_new
           "shop.com_2024.xlsx")
  = [("./out/shop.com_2024_filtered.csv", Sample.shop_new)].
Proof.
  apply (save_to_csv_replaces_extension (Sample.env_of Sample.shop) (Sample.start [] [])
           Sample.shop_new "shop.com_2024"); reflexivity.
Defined.

(** X18.  The replacement of the extension counts letter case: a name
    without [.csv] and [.xlsx] in lower case, such as [Shop.CSV], which
    [__get_files] accepts, is written under [OUTPUT_PATH] with the name
    it has. *)
Theorem save_to_csv_keeps_other_names (env : Env) (self : Deduplicator)
  (df : DataFrame) (filename : string) :
  occurs_in ".csv" filename = false ->
  occurs_in ".xlsx" filename = false ->
  saved (__save_to_csv env self df filename)
  = (saved self ++ [((OUTPUT_PATH env ++ filename)%string, df)])%list.
Proof.
  intros Hc Hx. unfold __save_to_csv. cbn [saved].
  rewrite (replace_none ".xlsx") by exact Hx.
  rewrite (replace_none ".csv") by exact Hc. reflexivity.
Qed.

Lemma save_to_csv_keeps_other_names_witness :
  saved (__save_to_csv (Sample.env_of Cases.mixed) (Sample.start [] []) Sample.shop_new
           "Shop.CSV")
  = [("./out/Shop.CSV", Sample.shop_new)].
Proof.
  apply (save_to_csv_keeps_other_names (Sample.env_of Cases.mixed) (Sample.start [] [])
           Sample.shop_new "Shop.CSV"); reflexivity.
Defined.

(** ** The name of a new file *)

Lemma rev_string_app (acc s : string) :
  rev_string acc s = (rev_string EmptyString s ++ acc)%string.
Proof.
  revert acc. induction s as [|c s IH]; intros acc; cbn [rev_string]; [reflexivity|].
  rewrite IH, (IH (String c EmptyString)).
  rewrite <- string_app_assoc. reflexivity.
Qed.

Lemma split_from_none (sep s : string) :
  occurs_in sep s = false ->
  forall cur, split_from sep 0 cur s = [(rev_string EmptyString cur ++ s)%string].
Proof.
  induction s as [|c s IH]; cbn [occurs_in split_from]; intros H cur.
  - clear. induction (rev_string "" cur); simpl; congruence.
  - apply orb_false_iff in H. destruct H as [Hp H]. rewrite Hp, IH by exact H.
    cbn [rev_string]. rewrite (rev_string_app (String c EmptyString)).
    rewrite <- string_app_assoc. reflexivity.
Qed.

Lemma split_from_skip (sep : string) (w s : string) :
  forall cur, split_from sep (String.length w) cur (w ++ s) = split_from sep 0 cur s.
Proof.
  induction w as [|c w IH]; intros cur; [reflexivity|].
  change (String c w ++ s)%string with (String c (w ++ s)).
  cbn [String.length split_from]. apply IH.
Qed.

(** [(path + name).split(path)[-1]] *)
Lemma split_path_name (path name : string) :
  occurs_in path name = false ->
  split path (path ++ name) = Ok [EmptyString; name].
Proof.
  intros H. destruct path as [|a tl].
  - destruct name; discriminate H.
  - unfold split. change (String a tl ++ name)%string with (String a (tl ++ name)).
    cbn [split_from].
    replace (prefix (String a tl) (String a (tl ++ name))) with true
      by (symmetry; exact (prefix_refl (String a tl) name)).
    replace (String.length (String a tl) - 1)%nat with (String.length tl)
      by (cbn [String.length]; lia).
    rewrite split_from_skip, split_from_none by exact H. reflexivity.
Qed.

(** X19.  The name under which a new file is recorded, and from which the
    name of its filtered file is made, is the name of the directory entry:
    [run] takes the part of the path that follows the last occurrence of
    [INPUT_NEW_PATH], and [__get_files] had put the path in front of the
    name. *)
Theorem recorded_name_is_the_listed_name (env : Env) (self self' : Deduplicator)
  (name : string) :
  occurs_in (INPUT_NEW_PATH env) name = false ->
  run_file env self (INPUT_NEW_PATH env ++ name) = Ok self' ->
  exists before after : nat,
    file_stats self'
    = (file_stats self
       ++ [{| file_name := name; products_count_before := Some before;
              products_count_after := Some after; error := None |}])%list.
Proof.
  intros Hn H. apply run_file_shape in H.
  destruct H as (pieces & raw & df & Hp & _ & _ & ->).
  rewrite (split_path_name _ _ Hn) in Hp. injection Hp as <-.
  exists (len raw), (len df). cbn [last].
  destruct (0 <? len df)%nat; reflexivity.
Qed.

Lemma recorded_name_is_the_listed_name_witness :
  exists before after : nat,
    [{| file_name := "shop.com_2024.csv"; products_count_before := Some 2%nat;
        products_count_after := Some 1%nat; error := None |}]
    = ([] ++ [{| file_name := "shop.com_2024.csv"; products_count_before := Some before;
                 products_count_after := Some after; error := None |}])%list.
Proof.
  apply (recorded_name_is_the_listed_name (Sample.env_of Sample.shop)
           (Sample.start Sample.shop_old_files ["./new/shop.com_2024.csv"])
           {| file_stats := [{| file_name := "shop.com_2024.csv";
                                products_count_before := Some 2%nat;
                                products_count_after := Some 1%nat; error := None |}];
              dataframes := [Sample.table [Sample.product "Gadget" (CStr "$20.00")]];
              old_files := Sample.shop_old_files;
              new_files := ["./new/shop.com_2024.csv"];
              saved := [("./out/shop.com_2024_filtered.csv",
                         Sample.table [Sample.product "Gadget" (CStr "$20.00")])];
              stats_csv := None |}
           "shop.com_2024.csv").
  - reflexivity.
  - vm_compute. reflexivity.
Defined.

(** ** [__combine_price_columns] *)

Lemma index_None_notin (c : string) (cols : list string) :
  index c cols = None <-> ~ In c cols.
Proof.
  induction cols as [|l ls IH]; cbn [index In]; [tauto|].
  destruct (String.eqb l c) eqn:E.
  - apply String.eqb_eq in E. split; [discriminate | intros H; exfalso; apply H; auto].
  - apply String.eqb_neq in E. destruct (index c ls); cbn [option_map].
    + split; [discriminate|]. intros H. exfalso. apply H. right.
      destruct (in_dec string_dec c ls) as [Hin|Hn]; [exact Hin|].
      apply IH in Hn. discriminate Hn.
    + split; [|reflexivity]. intros _ [F|F]; [congruence|].
      exact (proj1 IH eq_refl F).
Qed.

Lemma remove_at_index (c : string) (cols : list string) (i : nat) :
  NoDup cols -> index c cols = Some i ->
  remove_at i cols = filter (fun l => negb (String.eqb l c)) cols.
Proof.
  intros Hd. revert i. induction Hd as [|l ls Hn Hd IH]; intros i H; [discriminate H|].
  cbn [index] in H. cbn [filter]. destruct (String.eqb l c) eqn:E.
  - injection H as <-. cbn [remove_at negb]. apply String.eqb_eq in E. subst l.
    symmetry. apply filter_all. intros x Hx. apply negb_true_iff, String.eqb_neq.
    intros ->. contradiction.
  - destruct (index c ls) as [j|]; [|discriminate H]. injection H as <-.
    cbn [remove_at negb]. rewrite (IH j) by reflexivity. reflexivity.
Qed.

Lemma NoDup_filter {A : Type} (p : A -> bool) (l : list A) : NoDup l -> NoDup (filter p l).
Proof.
  induction 1 as [|x l Hn Hd IH]; cbn [filter]; [constructor|].
  destruct (p x); [|exact IH]. constructor; [|exact IH].
  intros F. apply filter_In in F. apply Hn, F.
Qed.

Lemma fold_drop_columns (cs : list string) :
  forall d d' : DataFrame,
    NoDup (columns d) ->
    fold_result (fun df c => drop c df) d cs = Ok d' ->
    columns d' = filter (fun l => negb (existsb (String.eqb l) cs)) (columns d).
Proof.
  induction cs as [|c cs IH]; intros d d' Hd H; cbn [fold_result existsb] in *.
  - injection H as <-. symmetry. apply filter_all. reflexivity.
  - bind_in H as d1 H1. unfold drop in H1. bind_in H1 as i Hi. apply loc_Ok in Hi.
    injection H1 as <-. apply IH in H.
    + cbn [columns] in H. rewrite H, (remove_at_index c _ i Hd Hi), <- filter_and.
      apply filter_ext. intros l. rewrite negb_orb. reflexivity.
    + cbn [columns]. rewrite (remove_at_index c _ i Hd Hi). apply NoDup_filter. exact Hd.
Qed.

Lemma assign_columns (label : string) (values : list cell) (df : DataFrame) :
  columns (assign label values df)
  = match index label (columns df) with
    | Some _ => columns df
    | None => (columns df ++ [label])%list
    end.
Proof. unfold assign. destruct (index label (columns df)); reflexivity. Qed.

Lemma filter_one (x : string) (l : list string) :
  NoDup l -> In x l -> filter (fun y => String.eqb y x) l = [x].
Proof.
  induction 1 as [|a l Hn Hd IH]; intros Hin; [contradiction|].
  cbn [filter]. destruct (String.eqb a x) eqn:E.
  - apply String.eqb_eq in E. subst a. f_equal. apply filter_none.
    intros y Hy. apply String.eqb_neq. intros ->. contradiction.
  - apply String.eqb_neq in E. destruct Hin as [F|Hin]; [congruence|]. apply IH. exact Hin.
Qed.

Lemma find_only {A : Type} (f : A -> bool) (l : list A) (x : A) :
  (forall y, In y l -> f y = true -> y = x) -> In x l -> f x = true -> find f l = Some x.
Proof.
  induction l as [|a l IH]; intros Hall Hin Hx; [contradiction|].
  cbn [find]. destruct (f a) eqn:E.
  - f_equal. apply Hall; [left; reflexivity | exact E].
  - apply IH; [intros y Hy; apply Hall; right; exact Hy | | exact Hx].
    destruct Hin as [->|Hin]; [congruence | exact Hin].
Qed.

Lemma filed_under_price_mentions (l : string) :
  filed_under "price" l = true -> contains_literal "price" l = true.
Proof.
  unfold filed_under, keyword_of.
  destruct (contains_literal "title" l); [discriminate|].
  destruct (contains_literal "url" l); [discriminate|].
  destruct (contains_literal "image" l); [discriminate|].
  destruct (contains_literal "price" l); [reflexivity | discriminate].
Qed.

Lemma combine_price_columns_labels (df df' : DataFrame) :
  NoDup (columns df) ->
  (1 < List.length (filter (contains_literal "price") (columns df)))%nat ->
  __combine_price_columns df = Ok df' ->
  columns df'
  = filter (fun l => String.eqb l "Price" || negb (contains_literal "price" l))
      (match index "Price" (columns df) with
       | Some _ => columns df
       | None => (columns df ++ ["Price"])%list
       end)
  /\ NoDup (match index "Price" (columns df) with
            | Some _ => columns df
            | None => (columns df ++ ["Price"])%list
            end).
Proof.
  intros Hd Hmany H. unfold __combine_price_columns in H.
  rewrite (filter_ext (fun c => found (search_I (Word "price") c))
             (contains_literal "price")) in H
    by (intros c; apply keyword_found; reflexivity).
  apply Nat.ltb_lt in Hmany. rewrite Hmany in H.
  bind_in H as d1 H1. apply fold_apply_len in H1. destruct H1 as [_ C1].
  bind_in H as vs Hvs.
  assert (Hd2 : NoDup (match index "Price" (columns df) with
                       | Some _ => columns df
                       | None => (columns df ++ ["Price"])%list
                       end)).
  { destruct (index "Price" (columns df)) eqn:E; [exact Hd|].
    apply index_None_notin in E. apply NoDup_app; [exact Hd | repeat constructor; auto |].
    intros x Hx [<-|[]]. contradiction. }
  split; [|exact Hd2].
  apply fold_drop_columns in H; [|rewrite assign_columns, C1; exact Hd2].
  rewrite assign_columns, C1 in H. rewrite H.
  apply filter_ext_in. intros l Hl.
  destruct (String.eqb l "Price") eqn:E.
  - apply String.eqb_eq in E. subst l. cbn [orb]. apply negb_true_iff.
    apply not_true_is_false. intros F. apply existsb_exists in F.
    destruct F as (x & Hx & Ex). apply String.eqb_eq in Ex. subst x.
    apply filter_In in Hx. destruct Hx as [_ Hx]. discriminate Hx.
  - cbn [orb]. f_equal.
    assert (Hin : In l (columns df)).
    { destruct (index "Price" (columns df)); [exact Hl|].
      apply in_app_or in Hl. destruct Hl as [Hl|[<-|[]]]; [exact Hl|].
      rewrite String.eqb_refl in E. discriminate E. }
    destruct (contains_literal "price" l) eqn:P.
    + apply existsb_exists. exists l. split; [|apply String.eqb_refl].
      apply filter_In. split; [apply filter_In; auto | rewrite E; reflexivity].
    + apply not_true_is_false. intros F. apply existsb_exists in F.
      destruct F as (x & Hx & Ex). apply String.eqb_eq in Ex. subst x.
      apply filter_In in Hx. destruct Hx as [Hx _]. apply filter_In in Hx.
      destruct Hx as [_ Hx]. congruence.
Qed.

(** X20.  When the labels of a table are distinct and more than one of
    them mentions a price, [__combine_price_columns] keeps all rows and
    leaves exactly one label that mentions a price, [Price]; the other
    labels stay as they are and in their order.  [__get_columns] then
    resolves the price to the combined column. *)
Theorem combine_price_columns_leaves_one_price (df df' : DataFrame) :
  NoDup (columns df) ->
  (1 < List.length (filter (contains_literal "price") (columns df)))%nat ->
  __combine_price_columns df = Ok df' ->
  len df' = len df /\
  filter (contains_literal "price") (columns df') = ["Price"] /\
  filter (fun l => negb (contains_literal "price" l)) (columns df')
  = filter (fun l => negb (contains_literal "price" l)) (columns df) /\
  last_under "price" (columns df') = Some "Price".
Proof.
  intros Hd Hmany H. split; [apply combine_price_columns_len; exact H|].
  destruct (combine_price_columns_labels df df' Hd Hmany H) as [Hc Hd2].
  set (cols2 := match index "Price" (columns df) with
                | Some _ => columns df
                | None => (columns df ++ ["Price"])%list
                end) in *.
  assert (Hin2 : In "Price" cols2).
  { subst cols2. destruct (index "Price" (columns df)) eqn:E.
    - apply index_nth_error, nth_error_In in E. exact E.
    - apply in_or_app. right. left. reflexivity. }
  assert (Hp : filter (contains_literal "price") (columns df') = ["Price"]).
  { rewrite Hc, <- filter_and.
    rewrite (filter_ext _ (fun y => String.eqb y "Price")).
    - apply filter_one; assumption.
    - intros l. destruct (String.eqb l "Price") eqn:E.
      + apply String.eqb_eq in E. subst l. reflexivity.
      + cbn [orb]. destruct (contains_literal "price" l); reflexivity. }
  split; [exact Hp|]. split.
  - rewrite Hc, <- filter_and.
    rewrite (filter_ext _ (fun l => negb (contains_literal "price" l))).
    + subst cols2. destruct (index "Price" (columns df)); [reflexivity|].
      rewrite filter_app. cbn [filter]. change (contains_literal "price" "Price") with true.
      cbn [negb]. apply app_nil_r.
    + intros l. destruct (String.eqb l "Price") eqn:E.
      * apply String.eqb_eq in E. subst l. reflexivity.
      * cbn [orb]. destruct (contains_literal "price" l); reflexivity.
  - unfold last_under. apply find_only.
    + intros y Hy Fy. apply in_rev in Hy. apply filed_under_price_mentions in Fy.
      assert (Hy' : In y (filter (contains_literal "price") (columns df'))).
      { apply filter_In. split; assumption. }
      rewrite Hp in Hy'. destruct Hy' as [<-|[]]. reflexivity.
    + apply in_rev. rewrite rev_involutive.
      assert (Hy' : In "Price" (filter (contains_literal "price") (columns df'))).
      { rewrite Hp. left. reflexivity. }
      apply filter_In in Hy'. apply Hy'.
    + reflexivity.
Qed.

Lemma combine_price_columns_leaves_one_price_witness :
  __combine_price_columns Cases.listed_and_sale
  = Ok {| columns := ["title"; "url"; "image"; "Price"];
          rows := [[CStr "A"; CStr "u"; CStr "i"; CFloat (of_decimal false 8 0)];
                   [CStr "B"; CStr "u"; CStr "i"; CFloat (of_decimal false 3 0)]] |}
  /\ last_under "price" ["title"; "url"; "image"; "Price"] = Some "Price".
Proof.
  split; [vm_compute; reflexivity|].
  apply (combine_price_columns_leaves_one_price Cases.listed_and_sale
           {| columns := ["title"; "url"; "image"; "Price"];
              rows := [[CStr "A"; CStr "u"; CStr "i"; CFloat (of_decimal false 8 0)];
                       [CStr "B"; CStr "u"; CStr "i"; CFloat (of_decimal false 3 0)]] |}).
  - repeat constructor; cbn [In]; intros F;
      repeat (destruct F as [F|F]; [discriminate F|]); exact F.
  - vm_compute. lia.
  - vm_compute. reflexivity.
Defined.

(** ** What [__process_matching_files] removes *)

Lemma compare_to_sound (env : Env) (paths : list string) :
  forall df d : DataFrame,
    normalised df ->
    compare_to env df paths = Ok d ->
    columns d = columns df /\
    (exists keep, rows d = filter keep (rows df)) /\
    (forall r, In r (rows d) ->
       forall file h, In file paths -> old_table env file = Ok (Some h) ->
                      occurs (key_of df r) (pairs h) = false) /\
    (forall r, In r (rows df) ->
       In r (rows d) \/
       exists file h, In file paths /\ old_table env file = Ok (Some h) /\
                      occurs (key_of df r) (pairs h) = true).
Proof.
  induction paths as [|file paths IH]; intros df d Hn H; cbn [compare_to] in H.
  - injection H as <-. split; [reflexivity|]. split; [|split].
    + exists (fun _ => true). symmetry. apply filter_all. reflexivity.
    + intros r _ f h [].
    + intros r Hr. left. exact Hr.
  - bind_in H as shown Hshown. bind_in H as o Ho. destruct o as [h|].
    + pose proof (old_table_has_columns _ _ _ Ho) as Hh.
      assert (Hfree : no_indicator_label df).
      { destruct (__drop_duplicates df h) as [d1|e] eqn:E; [|discriminate H].
        exact (drop_duplicates_free _ _ _ E). }
      rewrite (drop_duplicates_normalised df h Hn Hh Hfree) in H. cbn [bind] in H.
      set (d1 := with_rows df _) in H.
      assert (Hn1 : normalised d1) by (apply normalised_filter; exact Hn).
      assert (Hd1 : forall r, In r (rows df) ->
                      In r (rows d1) \/ occurs (key_of df r) (pairs h) = true).
      { intros r Hr. destruct (occurs (key_of df r) (pairs h)) eqn:E; [right; reflexivity|].
        left. subst d1. cbn [rows with_rows]. apply filter_In. rewrite E. auto. }
      destruct (len d1 =? 0)%nat eqn:E0.
      * injection H as <-. split; [reflexivity|]. split; [|split].
        -- eexists. reflexivity.
        -- apply Nat.eqb_eq in E0. unfold len in E0. apply length_zero_iff_nil in E0.
           rewrite E0. intros r [].
        -- intros r Hr. destruct (Hd1 r Hr) as [Hin|Hocc]; [left; exact Hin|].
           right. exists file, h. repeat split; auto. left. reflexivity.
      * destruct (IH d1 d Hn1 H) as (Hc & (keep & Hk) & Hs & Hcpl).
        split; [rewrite Hc; reflexivity|]. split; [|split].
        -- exists (fun r => negb (occurs (key_of df r) (pairs h)) && keep r).
           rewrite Hk. subst d1. cbn [rows with_rows]. symmetry. apply filter_and.
        -- intros r Hr f h' [<-|Hf] Hf'.
           ++ rewrite Ho in Hf'. injection Hf' as <-.
              rewrite Hk in Hr. apply filter_In in Hr. destruct Hr as [Hr _].
              subst d1. cbn [rows with_rows] in Hr. apply filter_In in Hr.
              destruct Hr as [_ Hr]. apply negb_true_iff in Hr. exact Hr.
           ++ exact (Hs r Hr f h' Hf Hf').
        -- intros r Hr. destruct (Hd1 r Hr) as [Hin|Hocc].
           ++ destruct (Hcpl r Hin) as [Hd|(f & h' & Hf & Hf' & Ho')].
              ** left. exact Hd.
              ** right. exists f, h'. repeat split; auto. right. exact Hf.
           ++ right. exists file, h. repeat split; auto. left. reflexivity.
    + destruct (IH df d Hn H) as (Hc & Hk & Hs & Hcpl).
      split; [exact Hc|]. split; [exact Hk|]. split.
      * intros r Hr f h' [<-|Hf] Hf'; [congruence|]. exact (Hs r Hr f h' Hf Hf').
      * intros r Hr. destruct (Hcpl r Hr) as [Hd|(f & h' & Hf & Hf' & Ho')].
        -- left. exact Hd.
        -- right. exists f, h'. repeat split; auto. right. exact Hf.
Qed.

(** X21.  On a normalised new table, whenever [__process_matching_files]
    returns (also when it stopped early, and whatever files it did not
    read), the result is a selection of the rows of the new table in their
    order such that no returned row has its (title, price) pair in a
    historical file of the list that resolves, and every row that is not
    returned has its pair in one of them. *)
Theorem returned_rows_are_the_unseen_ones (env : Env) (df d : DataFrame)
  (files : SameDomainFiles) :
  normalised df ->
  __process_matching_files env df files = Ok d ->
  columns d = columns df /\
  (exists keep, rows d = filter keep (rows df)) /\
  (forall r, In r (rows d) ->
     forall file h, In file (file_paths files) -> old_table env file = Ok (Some h) ->
                    occurs (key_of df r) (pairs h) = false) /\
  (forall r, In r (rows df) ->
     In r (rows d) \/
     exists file h, In file (file_paths files) /\ old_table env file = Ok (Some h) /\
                    occurs (key_of df r) (pairs h) = true).
Proof.
  unfold __process_matching_files. intros Hn H. apply compare_to_sound; assumption.
Qed.

Lemma returned_rows_are_the_unseen_ones_witness :
  columns (Sample.table []) = columns Sample.shop_old /\
  (exists keep, rows (Sample.table []) = filter keep (rows Sample.shop_old)) /\
  (forall r, In r (rows (Sample.table [])) ->
     forall file h,
       In file ["./old/shop.com_1.csv"; "./old/lost.csv"] ->
       old_table (Sample.env_of Sample.archive) file = Ok (Some h) ->
       occurs (key_of Sample.shop_old r) (pairs h) = false) /\
  (forall r, In r (rows Sample.shop_old) ->
     In r (rows (Sample.table [])) \/
     exists file h,
       In file ["./old/shop.com_1.csv"; "./old/lost.csv"] /\
       old_table (Sample.env_of Sample.archive) file = Ok (Some h) /\
       occurs (key_of Sample.shop_old r) (pairs h) = true).
Proof.
  apply (returned_rows_are_the_unseen_ones (Sample.env_of Sample.archive) Sample.shop_old
           (Sample.table [])
           {| domain := "shop.com";
              file_paths := ["./old/shop.com_1.csv"; "./old/lost.csv"] |}).
  - split; [split; discriminate|]. repeat constructor.
  - vm_compute. reflexivity.
Defined.

(** ** The error that [__get_columns] reports *)

(** X22.  When the columns do not resolve, [__get_columns] writes into
    [stats.error] the text [missing column!] followed by the message of
    the exception (as Python 3.11 words it), which names the first field,
    in the order title, url, image, price, that no label is filed under;
    the other fields of [stats] stay as they are.  Called without [stats]
    it only returns [None]. *)
Theorem get_columns_reports_first_missing_field (columns : list string)
  (st : FileStats) (kw : string) :
  first_missing columns = Some kw ->
  __get_columns columns (Some st)
  = (None,
     Some {| file_name := file_name st;
             products_count_before := products_count_before st;
             products_count_after := products_count_after st;
             error := Some ("missing column! cannot access local variable '" ++ kw
                            ++ "' where it is not associated with a value") |})
  /\ __get_columns columns None = (None, None).
Proof.
  unfold first_missing, __get_columns. rewrite fold_classify.
  unfold make_columns. cbn [v_title v_url v_image v_price find].
  destruct (last_under "title" columns); cbn [local bind].
  2:{ intros H. injection H as <-. split; reflexivity. }
  destruct (last_under "url" columns); cbn [local bind].
  2:{ intros H. injection H as <-. split; reflexivity. }
  destruct (last_under "image" columns); cbn [local bind].
  2:{ intros H. injection H as <-. split; reflexivity. }
  destruct (last_under "price" columns); cbn [local bind].
  2:{ intros H. injection H as <-. split; reflexivity. }
  intros H. discriminate H.
Qed.

Lemma get_columns_reports_first_missing_field_witness :
  __get_columns ["Product"; "Link URL"; "Cost"]
    (Some {| file_name := "bare.com.csv"; products_count_before := Some 1%nat;
             products_count_after := None; error := None |})
  = (None,
     Some {| file_name := "bare.com.csv"; products_count_before := Some 1%nat;
             products_count_after := None;
             error := Some "missing column! cannot access local variable 'title' where it is not associated with a value" |})
  /\ __get_columns ["Product"; "Link URL"; "Cost"] None = (None, None).
Proof.
  apply (get_columns_reports_first_missing_field ["Product"; "Link URL"; "Cost"]
           {| file_name := "bare.com.csv"; products_count_before := Some 1%nat;
              products_count_after := None; error := None |} "title").
  reflexivity.
Defined.

(** ** The historical file of the same name *)

Lemma all_chars_app (p : ascii -> bool) (a b : string) :
  all_chars p (a ++ b) = all_chars p a && all_chars p b.
Proof.
  induction a as [|c a IH]; cbn [append all_chars]; [reflexivity|].
  rewrite IH. apply andb_assoc.
Qed.

Lemma all_chars_impl (p q : ascii -> bool) (s : string) :
  (forall c, p c = true -> q c = true) -> all_chars p s = true -> all_chars q s = true.
Proof.
  intros Hpq. induction s as [|c s IH]; cbn [all_chars]; [reflexivity|].
  intros H. apply andb_true_iff in H. destruct H as [Hc H].
  rewrite (Hpq c Hc), (IH H). reflexivity.
Qed.

(** What a match consumes is made of characters its pattern can take. *)
Lemma exec_eats (i : bool) (r : regex) :
  forall (cu : cursor) (k : cursor -> option cursor) (res : cursor),
    exec i r cu k = Some res ->
    exists cu' w,
      rest cu = (w ++ rest cu')%string /\ all_chars (eats i r) w = true /\
      k cu' = Some res.
Proof.
  assert (Hone : forall ok cu k res,
             one ok cu k = Some res ->
             exists cu' w, rest cu = (w ++ rest cu')%string /\
                           all_chars ok w = true /\ k cu' = Some res).
  { intros ok cu k res. unfold one. destruct (rest cu) as [|c s']; [discriminate|].
    destruct (ok c) eqn:E; [|discriminate]. intros H.
    exists (step cu s'), (String c EmptyString).
    cbn [all_chars]. rewrite E. repeat split. exact H. }
  induction r as [| a | | p | r1 IH1 r2 IH2 | r1 IH1 r2 IH2 | r1 IH1 | n r1 IH1 | r1 IH1 |];
    intros cu k res H; cbn [exec] in H.
  - exists cu, EmptyString. repeat split. exact H.
  - eapply Hone; exact H.
  - eapply Hone; exact H.
  - eapply Hone; exact H.
  - apply IH1 in H. destruct H as (cu1 & w1 & E1 & A1 & H).
    apply IH2 in H. destruct H as (cu2 & w2 & E2 & A2 & H).
    exists cu2, (w1 ++ w2)%string. split; [|split; [|exact H]].
    + rewrite E1, E2. apply string_app_assoc.
    + rewrite all_chars_app. apply andb_true_iff. split.
      * eapply all_chars_impl; [|exact A1]. intros c Hc. cbn [eats]. rewrite Hc. reflexivity.
      * eapply all_chars_impl; [|exact A2]. intros c Hc. cbn [eats]. rewrite Hc.
        apply orb_true_r.
  - apply orelse_Some in H. destruct H as [H|H]; [apply IH1 in H | apply IH2 in H];
      destruct H as (cu1 & w1 & E1 & A1 & H); exists cu1, w1;
      (split; [exact E1 | split; [|exact H]]);
      (eapply all_chars_impl; [|exact A1]); intros c Hc; cbn [eats]; rewrite Hc;
      [reflexivity | apply orb_true_r].
  - remember (String.length (rest cu)) as fuel eqn:Ef. clear Ef. revert cu H.
    induction fuel as [|fuel IHf]; intros cu H.
    + exists cu, EmptyString. repeat split. exact H.
    + apply orelse_Some in H. destruct H as [H|H].
      * apply IH1 in H. destruct H as (cu1 & w1 & E1 & A1 & H).
        destruct (pos cu1 =? pos cu)%nat; [discriminate H|].
        apply IHf in H. destruct H as (cu2 & w2 & E2 & A2 & H).
        exists cu2, (w1 ++ w2)%string. split; [|split; [|exact H]].
        -- rewrite E1, E2. apply string_app_assoc.
        -- rewrite all_chars_app. apply andb_true_iff. split; [|exact A2].
           eapply all_chars_impl; [|exact A1]. intros c Hc. exact Hc.
      * exists cu, EmptyString. repeat split. exact H.
  - apply IH1 in H. destruct H as (cu1 & w1 & E1 & A1 & H).
    exists (close_group n (pos cu) cu1), w1. split; [exact E1 | split; [|exact H]].
    eapply all_chars_impl; [|exact A1]. intros c Hc. exact Hc.
  - destruct (exec i r1 cu Some); [discriminate H|].
    exists cu, EmptyString. repeat split. exact H.
  - destruct (at_end (rest cu)); [|discriminate H].
    exists cu, EmptyString. repeat split. exact H.
Qed.

(** A match of an anchored pattern ends where the text ends. *)
Lemma exec_anchored (i : bool) (r : regex) :
  anchored r = true ->
  forall (cu : cursor) (k : cursor -> option cursor) (res : cursor),
    exec i r cu k = Some res ->
    exists cu', at_end (rest cu') = true /\ k cu' = Some res.
Proof.
  induction r as [| a | | p | r1 IH1 r2 IH2 | r1 IH1 r2 IH2 | r1 IH1 | n r1 IH1 | r1 IH1 |];
    cbn [anchored]; intros Ha cu k res H; try discriminate Ha.
  - cbn [exec] in H. apply exec_suffix in H. destruct H as (cu1 & w & _ & H).
    exact (IH2 Ha cu1 k res H).
  - cbn [exec] in H. destruct (at_end (rest cu)) eqn:E; [|discriminate H].
    exists cu. split; assumption.
Qed.

Lemma domain_re_takes_no_slash (c : ascii) :
  eats true DOMAIN_RE c = true -> Ascii.eqb c "/" = false.
Proof.
  destruct (Ascii.eqb c "/") eqn:E; [|reflexivity].
  apply Ascii.eqb_eq in E. subst c. vm_compute. intros H. discriminate H.
Qed.

Lemma at_end_no_slash (s : string) : at_end s = true -> mem "/" s = false.
Proof.
  destruct s as [|c [|d s]]; cbn [at_end mem]; intros H; try reflexivity; try discriminate H.
  apply Ascii.eqb_eq in H. subst c. reflexivity.
Qed.

Lemma mem_app (c : ascii) (a b : string) : mem c (a ++ b) = mem c a || mem c b.
Proof.
  induction a as [|x a IH]; cbn [append mem]; [reflexivity|].
  rewrite IH. apply orb_assoc.
Qed.

(** a match of [DOMAIN_RE] lies behind the last slash *)
Lemma exec_DOMAIN_RE_no_slash (cu res : cursor) :
  exec true DOMAIN_RE cu Some = Some res -> mem "/" (rest cu) = false.
Proof.
  intros H. pose proof H as H'.
  apply exec_anchored in H'; [|reflexivity]. destruct H' as (cu1 & He & Hs).
  injection Hs as ->.
  apply exec_eats in H. destruct H as (cu2 & w & E & A & Hs). injection Hs as ->.
  rewrite E, mem_app, (at_end_no_slash _ He), orb_false_r.
  clear E. induction w as [|c w IH]; [reflexivity|].
  cbn [all_chars mem] in *. apply andb_true_iff in A. destruct A as [Hc A].
  rewrite (IH A), orb_false_r. rewrite Ascii.eqb_sym.
  apply domain_re_takes_no_slash. exact Hc.
Qed.

Lemma behind_the_slash (name s : string) :
  mem "/" s = false ->
  forall pre dir : string,
    (pre ++ s = dir ++ String "/" name)%string -> exists u, name = (u ++ s)%string.
Proof.
  intros Hm pre dir. revert pre. induction dir as [|d dir IH]; intros pre H.
  - destruct pre as [|c pre]; cbn [append] in H.
    + subst s. cbn [mem] in Hm. discriminate Hm.
    + injection H as _ H. exists pre. symmetry. exact H.
  - destruct pre as [|c pre].
    + cbn [append] in H. subst s. exfalso.
      change (String d (dir ++ String "/" name)) with (String d dir ++ String "/" name)%string
        in Hm.
      rewrite mem_app in Hm. cbn [mem] in Hm. rewrite Ascii.eqb_refl in Hm.
      rewrite orb_true_r in Hm. discriminate Hm.
    + change (String c pre ++ s)%string with (String c (pre ++ s)) in H.
      change (String d dir ++ String "/" name)%string
        with (String d (dir ++ String "/" name)) in H.
      injection H as _ H. exact (IH pre H).
Qed.

Lemma wildcard_at_self (w t : string) :
  all_chars domain_chr w = true -> wildcard_at w (w ++ t) = true.
Proof.
  induction w as [|c w IH]; intros H; [destruct t; reflexivity|].
  cbn [all_chars] in H. apply andb_true_iff in H. destruct H as [Hc H].
  change (String c w ++ t)%string with (String c (w ++ t)).
  cbn [wildcard_at]. rewrite (IH H), andb_true_r.
  destruct (Ascii.eqb c ".") eqn:E.
  - apply Ascii.eqb_eq in E. subst c. reflexivity.
  - apply Ascii.eqb_refl.
Qed.

Lemma contains_wildcard_app (w u s : string) :
  wildcard_at w s = true -> contains_wildcard w (u ++ s) = true.
Proof.
  intros H. induction u as [|c u IH].
  - destruct s; cbn [append contains_wildcard]; rewrite H; reflexivity.
  - change (String c u ++ s)%string with (String c (u ++ s)).
    cbn [contains_wildcard]. rewrite IH. apply orb_true_r.
Qed.

Lemma search_DOMAIN_RE_token (whole : string) :
  forall (s pre : string) (n : nat) (m : Match),
    whole = (pre ++ s)%string -> String.length pre = n ->
    search_from true DOMAIN_RE whole s n = Some m ->
    exists pre' t,
      whole = (pre' ++ group 1 m ++ t)%string /\ mem "/" (group 1 m ++ t) = false /\
      all_chars domain_chr (group 1 m) = true.
Proof.
  induction s as [|x s IH]; intros pre n m Hw Hn H; cbn [search_from] in H.
  - destruct (exec true DOMAIN_RE _ Some) as [cu|] eqn:E; [|discriminate H].
    apply exec_DOMAIN_RE in E. destruct E as (w & t & Hr & Hne & _).
    cbn [rest] in Hr. destruct w; [congruence | discriminate Hr].
  - destruct (exec true DOMAIN_RE _ Some) as [cu|] eqn:E.
    + injection H as <-. pose proof (exec_DOMAIN_RE_no_slash _ _ E) as Hs.
      apply exec_DOMAIN_RE in E.
      destruct E as (w & t & Hr & Hne & Hall & Hsp). cbn [rest pos] in Hr, Hsp, Hs.
      unfold group. cbn [m_spans subject]. rewrite Hsp.
      replace (n + String.length w - n)%nat with (String.length w) by lia.
      subst whole n. rewrite Hr, substring_middle.
      exists pre, t. rewrite <- Hr. repeat split; assumption.
    + apply (IH (pre ++ String x "")%string (S n) m).
      * rewrite append_cons_assoc. exact Hw.
      * rewrite length_append_one. congruence.
      * exact H.
Qed.

(** X23.  A historical file that has the name of the new file is always
    among its matches: the domain token is taken from the part of the
    path behind its last slash, so the name itself holds it. *)
Theorem same_name_history_is_matched (self : Deduplicator) (dir name label other : string)
  (files : SameDomainFiles) :
  __get_matching_files self (dir ++ String "/" name) label = Ok files ->
  In (other ++ name)%string (old_files self) ->
  In (other ++ name)%string (file_paths files).
Proof.
  unfold __get_matching_files. intros H Hin.
  destruct (search_I DOMAIN_RE (dir ++ String "/" name)) as [m|] eqn:E; [|discriminate H].
  injection H as <-. cbn [file_paths]. apply filter_In. split; [exact Hin|].
  unfold search_I. rewrite search_domain_pattern.
  unfold search_I in E.
  apply (search_DOMAIN_RE_token _ _ EmptyString 0) in E; [|reflexivity|reflexivity].
  destruct E as (pre' & t & Hw & Hs & Hall).
  symmetry in Hw. apply behind_the_slash in Hw; [|exact Hs].
  destruct Hw as (u & ->).
  rewrite string_app_assoc. apply contains_wildcard_app. apply wildcard_at_self. exact Hall.
Qed.

Lemma same_name_history_is_matched_witness :
  In "./old/shop.com_2024.csv"
    (file_paths {| domain := "shop.com";
                   file_paths := ["./old/shop.com_2023.csv"; "./old/shop.com_2024.csv"] |}).
Proof.
  apply (same_name_history_is_matched
           (Sample.start ["./old/other.csv"; "./old/shop.com_2023.csv";
                          "./old/shop.com_2024.csv"] [])
           "./new" "shop.com_2024.csv" "shop.com_2024.csv" "./old/").
  - vm_compute. reflexivity.
  - right. right. left. reflexivity.
Defined.

(** ** A canonical price read back *)

Local Open Scope Z_scope.

Lemma div_half_even_bound (a b : Z) :
  0 <= a -> 0 < b ->
  2 * (div_half_even a b * b - a) <= b /\ - b <= 2 * (div_half_even a b * b - a).
Proof.
  intros Ha Hb. unfold div_half_even.
  pose proof (Z.div_mod a b ltac:(lia)) as E.
  pose proof (Z.mod_pos_bound a b Hb) as Hr.
  destruct (2 * (a mod b) <? b) eqn:E1; [apply Z.ltb_lt in E1; nia|].
  apply Z.ltb_ge in E1.
  destruct (b <? 2 * (a mod b)) eqn:E2; [apply Z.ltb_lt in E2; nia|].
  apply Z.ltb_ge in E2.
  destruct (Z.even (a / b)); nia.
Qed.

(** cents below [2^52] survive the way through a float *)
Lemma hundredths_nearest (c : Z) :
  0 < c < 2 ^ 52 ->
  exists m e, nearest false c 100 = Fin false m e /\ hundredths m e = c.
Proof.
  intros [Hc0 Hc]. unfold nearest.
  rewrite (proj2 (Z.eqb_neq c 0)) by lia.
  assert (Hl : 0 <= Z.log2 c <= 51).
  { split; [apply Z.log2_nonneg|]. apply Z.lt_succ_r. apply Z.log2_lt_pow2; lia. }
  change (Z.log2 100) with 6.
  set (l := Z.log2 c - 6).
  set (above := if 0 <=? l then 100 * 2 ^ l <=? c else 100 <=? c * 2 ^ (- l)).
  set (top := if above then l else l - 1).
  assert (Htop : l - 1 <= top <= l) by (subst top; destruct above; lia).
  assert (He : Z.max (top - 52) emin = top - 52) by (unfold emin; lia).
  rewrite He. set (e := top - 52).
  assert (Hen : e <= -7 /\ -59 <= e) by (subst e l; lia).
  rewrite (proj2 (Z.leb_gt 0 e)) by lia.
  set (D := 2 ^ (- e)).
  assert (HD : 128 <= D).
  { subst D. change 128 with (2 ^ 7). apply Z.pow_le_mono_r; lia. }
  set (m := div_half_even (c * D) 100).
  pose proof (div_half_even_bound (c * D) 100 ltac:(nia) ltac:(lia)) as Hm.
  fold m in Hm.
  assert (Hm0 : 0 <= m) by (subst m; apply div_half_even_nonneg; nia).
  destruct (m =? 2 ^ 53) eqn:Efix.
  - apply Z.eqb_eq in Efix.
    rewrite (proj2 (Z.ltb_ge emax (e + 1))) by (unfold emax; lia).
    exists (2 ^ 52), (e + 1). split; [reflexivity|].
    unfold hundredths. rewrite (proj2 (Z.leb_gt 0 (e + 1))) by lia.
    assert (HD2 : D = 2 * 2 ^ (- (e + 1))).
    { subst D. replace (- e) with (Z.succ (- (e + 1))) by lia.
      rewrite Z.pow_succ_r by lia. reflexivity. }
    set (D' := 2 ^ (- (e + 1))) in *.
    pose proof (div_half_even_bound (2 ^ 52 * 100) D' ltac:(lia) ltac:(lia)) as Hh.
    set (h := div_half_even (2 ^ 52 * 100) D') in *.
    assert (Hm53 : m = 2 * 2 ^ 52) by (rewrite Efix; reflexivity).
    nia.
  - rewrite (proj2 (Z.ltb_ge emax e)) by (unfold emax; lia).
    exists m, e. split; [reflexivity|].
    unfold hundredths. rewrite (proj2 (Z.leb_gt 0 e)) by lia. fold D.
    pose proof (div_half_even_bound (m * 100) D ltac:(nia) ltac:(lia)) as Hh.
    set (h := div_half_even (m * 100) D) in *.
    nia.
Qed.

Lemma digit_chr_val (c : ascii) : isdigit c = true -> digit_chr (digit_val c) = c.
Proof.
  destruct c as [[] [] [] [] [] [] [] []]; intros H; try discriminate H; reflexivity.
Qed.

Lemma digit_val_chr (k : Z) : 0 <= k <= 9 -> digit_val (digit_chr k) = k.
Proof.
  intros H.
  assert (E : k = 0 \/ k = 1 \/ k = 2 \/ k = 3 \/ k = 4 \/ k = 5 \/ k = 6 \/ k = 7 \/
              k = 8 \/ k = 9) by lia.
  repeat (destruct E as [->|E]; [reflexivity|]). subst k. reflexivity.
Qed.

Lemma digit_val_range (c : ascii) : isdigit c = true -> 0 <= digit_val c <= 9.
Proof.
  destruct c as [[] [] [] [] [] [] [] []]; intros H; try discriminate H;
    vm_compute; split; discriminate.
Qed.

Lemma digit_other (c : ascii) :
  isdigit c = true ->
  Ascii.eqb c "," = false /\ Ascii.eqb c " " = false /\ Ascii.eqb c "$" = false /\
  Ascii.eqb c "." = false /\ Ascii.eqb c "_" = false /\ Ascii.eqb c newline = false.
Proof.
  destruct c as [[] [] [] [] [] [] [] []]; intros H; try discriminate H;
    repeat split; reflexivity.
Qed.

(** reading on after a run of digits *)
Lemma more_digits_skip (t : string) :
  match t with
  | EmptyString => true
  | String c _ => negb (isdigit c) && negb (Ascii.eqb c "_")
  end = true ->
  forall a cnt, more_digits t a cnt = (a, cnt, t).
Proof.
  destruct t as [|c t]; intros H a cnt; [reflexivity|].
  apply andb_true_iff in H. destruct H as [H1 H2].
  apply negb_true_iff in H1, H2. cbn [more_digits]. rewrite H1, H2. reflexivity.
Qed.

(** the digits that [decimal] writes, read back *)
Lemma digits_from_read (f : nat) :
  forall (n : Z) (acc : string),
    0 <= n < 2 ^ Z.of_nat (S f) ->
    exists ds,
      digits_from (S f) n acc = (ds ++ acc)%string /\ ds <> EmptyString /\
      all_chars isdigit ds = true /\
      forall t a cnt,
        more_digits (ds ++ t) a cnt
        = more_digits t (a * 10 ^ Z.of_nat (String.length ds) + n)
            (cnt + Z.of_nat (String.length ds)).
Proof.
  induction f as [|f IH]; intros n acc Hn.
  - assert (Hn' : 0 <= n <= 9) by (change (2 ^ Z.of_nat 1) with 2 in Hn; lia).
    cbn [digits_from]. rewrite (proj2 (Z.ltb_lt n 10)) by lia.
    rewrite Z.mod_small by lia.
    exists (String (digit_chr n) EmptyString). repeat split.
    + discriminate.
    + cbn [all_chars]. rewrite isdigit_digit_chr by lia. reflexivity.
    + intros t a cnt. cbn [append more_digits String.length].
      rewrite isdigit_digit_chr, digit_val_chr by lia.
      reflexivity.
  - change (digits_from (S (S f)) n acc)
      with (let acc' := String (digit_chr (n mod 10)) acc in
            if n <? 10 then acc' else digits_from (S f) (n / 10) acc').
    cbv zeta. pose proof (Z.mod_pos_bound n 10 ltac:(lia)) as Hr.
    destruct (n <? 10) eqn:E.
    + apply Z.ltb_lt in E. rewrite Z.mod_small by lia.
      exists (String (digit_chr n) EmptyString). repeat split.
      * discriminate.
      * cbn [all_chars]. rewrite isdigit_digit_chr by lia. reflexivity.
      * intros t a cnt. cbn [append more_digits String.length].
        rewrite isdigit_digit_chr, digit_val_chr by lia.
        reflexivity.
    + apply Z.ltb_ge in E.
      assert (Hq : 0 <= n / 10 < 2 ^ Z.of_nat (S f)).
      { split; [apply Z.div_pos; lia|].
        apply Z.div_lt_upper_bound; [lia|].
        rewrite (Nat2Z.inj_succ (S f)), Z.pow_succ_r in Hn by lia. lia. }
      destruct (IH (n / 10) (String (digit_chr (n mod 10)) acc) Hq)
        as (ds & Eds & Hne & Hall & Hread).
      exists (ds ++ String (digit_chr (n mod 10)) EmptyString)%string. repeat split.
      * rewrite Eds, <- string_app_assoc. reflexivity.
      * destruct ds; [congruence | discriminate].
      * rewrite all_chars_app, Hall. cbn [all_chars].
        rewrite isdigit_digit_chr by lia. reflexivity.
      * intros t a cnt. rewrite <- string_app_assoc, Hread.
        cbn [append more_digits]. rewrite isdigit_digit_chr, digit_val_chr by lia.
        rewrite length_append_one, Nat2Z.inj_succ, Z.pow_succ_r by lia.
        f_equal; [|lia].
        pose proof (Z.div_mod n 10 ltac:(lia)). lia.
Qed.

Lemma decimal_read (n : Z) :
  0 <= n ->
  decimal n <> EmptyString /\ all_chars isdigit (decimal n) = true /\
  forall t a cnt,
    more_digits (decimal n ++ t) a cnt
    = more_digits t (a * 10 ^ Z.of_nat (String.length (decimal n)) + n)
        (cnt + Z.of_nat (String.length (decimal n))).
Proof.
  intros Hn. unfold decimal.
  assert (Hb : 0 <= n < 2 ^ Z.of_nat (S (Z.to_nat (Z.log2 n)))).
  { split; [exact Hn|]. rewrite Nat2Z.inj_succ, Z2Nat.id by apply Z.log2_nonneg.
    destruct (Z.eq_dec n 0) as [->|N]; [reflexivity|].
    apply Z.log2_spec. lia. }
  destruct (digits_from_read (Z.to_nat (Z.log2 n)) n EmptyString Hb)
    as (ds & E & Hne & Hall & Hr).
  assert (E' : digits_from (S (Z.to_nat (Z.log2 n))) n "" = ds).
  { rewrite E. clear. induction ds; simpl; congruence. }
  rewrite E'. repeat split; assumption.
Qed.

Lemma rstrip_by_last (p : ascii -> bool) (w : string) (x : ascii) :
  p x = false ->
  rstrip_by p (w ++ String x EmptyString) = (w ++ String x EmptyString)%string.
Proof.
  intros H. induction w as [|c w IH]; cbn [append rstrip_by].
  - rewrite H. reflexivity.
  - rewrite IH. destruct w; reflexivity.
Qed.

(** a text that begins and ends with something else than white space *)
Lemma strip_fixed (c : ascii) (w : string) (x : ascii) :
  isspace c = false -> isspace x = false ->
  strip (String c (w ++ String x EmptyString)) = String c (w ++ String x EmptyString).
Proof.
  intros Hc Hx. unfold strip. cbn [lstrip_by]. rewrite Hc.
  exact (rstrip_by_last isspace (String c w) x Hx).
Qed.

Lemma float_strip_fixed (c : ascii) (w : string) (x : ascii) :
  float_space c = false -> float_space x = false ->
  float_strip (String c (w ++ String x EmptyString)) = String c (w ++ String x EmptyString).
Proof.
  intros Hc Hx. unfold float_strip. cbn [lstrip_by]. rewrite Hc.
  exact (rstrip_by_last float_space (String c w) x Hx).
Qed.

Lemma digitpart_more (acc : Z) (c : ascii) (s : string) :
  isdigit c = true -> digitpart acc (String c s) = Some (more_digits (String c s) acc 0).
Proof. intros H. cbn [digitpart more_digits]. rewrite H. reflexivity. Qed.

(** [float] of digits, a point and two digits *)
Lemma float_of_plain (q : Z) (d1 d2 : ascii) :
  0 <= q -> isdigit d1 = true -> isdigit d2 = true ->
  float_of_str (decimal q ++ String "." (String d1 (String d2 EmptyString)))
  = Ok (of_decimal false (q * 100 + (digit_val d1 * 10 + digit_val d2)) (-2)).
Proof.
  intros Hq H1 H2. destruct (decimal_read q Hq) as (Hne & Hall & Hread).
  destruct (decimal q) as [|c ds] eqn:Ed; [congruence|]. clear Hne.
  cbn [all_chars] in Hall. apply andb_true_iff in Hall. destruct Hall as [Hc Hds].
  destruct (digit_facts c Hc) as (Fs & Fm & Fp & Fl & Fi & Fn).
  destruct (digit_facts d2 H2) as (Fs2 & _).
  unfold float_of_str.
  change (String c ds ++ String "." (String d1 (String d2 "")))%string
    with (String c (ds ++ String "." (String d1 (String d2 "")))).
  replace (ds ++ String "." (String d1 (String d2 "")))%string
    with ((ds ++ String "." (String d1 "")) ++ String d2 "")%string
    by (rewrite <- string_app_assoc; reflexivity).
  rewrite float_strip_fixed by (apply digit_not_float_space; assumption).
  replace ((ds ++ String "." (String d1 "")) ++ String d2 "")%string
    with (ds ++ String "." (String d1 (String d2 "")))%string
    by (rewrite <- string_app_assoc; reflexivity).
  cbn [sign_of]. rewrite Fm, Fp. cbn [str_lower]. rewrite Fl.
  cbn [String.eqb]. rewrite Fi, Fn. cbn [orb andb].
  unfold floatnumber.
  rewrite digitpart_more by exact Hc.
  change (String c (ds ++ String "." (String d1 (String d2 ""))))
    with (String c ds ++ String "." (String d1 (String d2 "")))%string.
  rewrite Hread, more_digits_skip by reflexivity.
  cbn [after_point Ascii.eqb Bool.eqb]. cbn [digitpart more_digits].
  rewrite H1, H2. cbn [exponent option_map].
  do 2 f_equal. lia.
Qed.

Lemma hundredths_zero (e : Z) : hundredths 0 e = 0.
Proof.
  unfold hundredths. destruct (0 <=? e) eqn:E; [reflexivity|].
  apply Z.leb_gt in E. unfold div_half_even.
  rewrite Z.div_0_l, Z.mod_0_l by (apply Z.pow_nonzero; lia).
  assert (0 < 2 ^ (- e)) by (apply Z.pow_pos_nonneg; lia).
  rewrite (proj2 (Z.ltb_lt (2 * 0) (2 ^ (- e)))) by lia. reflexivity.
Qed.

(** ["${:,.2f}".format] of the float of [q] dollars and [d1 d2] cents *)
Lemma money_plain (q : Z) (d1 d2 : ascii) :
  0 <= q < 10 ^ 13 -> isdigit d1 = true -> isdigit d2 = true ->
  money (CFloat (of_decimal false (q * 100 + (digit_val d1 * 10 + digit_val d2)) (-2)))
  = Ok (CStr (dollars q d1 d2)).
Proof.
  intros Hq H1 H2.
  pose proof (digit_val_range d1 H1) as R1. pose proof (digit_val_range d2 H2) as R2.
  set (c := q * 100 + (digit_val d1 * 10 + digit_val d2)).
  assert (Hdiv : c / 100 = q).
  { symmetry. apply (Z.div_unique c 100 q (digit_val d1 * 10 + digit_val d2)); subst c; lia. }
  assert (Hmod : c mod 100 = digit_val d1 * 10 + digit_val d2).
  { symmetry. apply (Z.mod_unique c 100 q); subst c; lia. }
  assert (Htwo : two_digits (c mod 100) = String d1 (String d2 EmptyString)).
  { unfold two_digits. rewrite Hmod.
    replace ((digit_val d1 * 10 + digit_val d2) / 10) with (digit_val d1)
      by (apply (Z.div_unique _ 10 _ (digit_val d2)); lia).
    replace ((digit_val d1 * 10 + digit_val d2) mod 10) with (digit_val d2)
      by (apply (Z.mod_unique _ 10 (digit_val d1)); lia).
    rewrite !digit_chr_val by assumption. reflexivity. }
  assert (Hfmt : forall m e, hundredths m e = c ->
                             money (CFloat (Fin false m e)) = Ok (CStr (dollars q d1 d2))).
  { intros m e Hh. cbn [money format_comma_2f sign_text]. rewrite Hh, Hdiv, Htwo.
    reflexivity. }
  unfold of_decimal. destruct (c =? 0) eqn:E0.
  - apply Z.eqb_eq in E0. apply Hfmt. rewrite E0. apply hundredths_zero.
  - apply Z.eqb_neq in E0. change (0 <=? -2) with false. cbv iota.
    change (10 ^ (- -2)) with 100.
    destruct (hundredths_nearest c) as (m & e & -> & Hh).
    + split; [subst c; lia|]. change (10 ^ 13) with 10000000000000 in Hq.
      change (2 ^ 52) with 4503599627370496. subst c. lia.
    + apply Hfmt. exact Hh.
Qed.

Lemma replace_commas (ds t : string) :
  all_chars isdigit ds = true ->
  replace "," "" (commas ds ++ t) = (ds ++ replace "," "" t)%string.
Proof.
  unfold replace. induction ds as [|c ds IH]; intros H; [reflexivity|].
  cbn [all_chars] in H. apply andb_true_iff in H. destruct H as [Hc H].
  destruct (digit_other c Hc) as (Fc & _).
  cbn [commas].
  change (String c ?x ++ t)%string with (String c (x ++ t)).
  cbn [replace_from]. rewrite prefix_cons, Ascii.eqb_sym, Fc. cbn [andb].
  change (String c ds ++ replace_from "," "" 0 t)%string
    with (String c (ds ++ replace_from "," "" 0 t)).
  f_equal.
  destruct ((0 <? String.length ds) && (String.length ds mod 3 =? 0))%nat.
  - change (("," ++ commas ds) ++ t)%string with (String "," (commas ds ++ t)).
    cbn [replace_from]. rewrite prefix_cons, Ascii.eqb_refl. cbn [andb prefix].
    replace (prefix "" (commas ds ++ t)) with true by (destruct (commas ds ++ t)%string; reflexivity).
    cbn [append String.length Nat.sub]. apply IH. exact H.
  - apply IH. exact H.
Qed.

Lemma occurs_in_char (x : ascii) (s : string) :
  mem x s = false -> occurs_in (String x EmptyString) s = false.
Proof.
  induction s as [|c s IH]; cbn [mem occurs_in]; intros H; [reflexivity|].
  apply orb_false_iff in H. destruct H as [Hc H].
  rewrite prefix_cons, Hc, (IH H). reflexivity.
Qed.

Lemma digits_without (x : ascii) (ds : string) :
  isdigit x = false -> all_chars isdigit ds = true -> mem x ds = false.
Proof.
  intros Hx. induction ds as [|c ds IH]; cbn [all_chars mem]; intros H; [reflexivity|].
  apply andb_true_iff in H. destruct H as [Hc H]. rewrite (IH H), orb_false_r.
  destruct (Ascii.eqb x c) eqn:E; [|reflexivity].
  apply Ascii.eqb_eq in E. congruence.
Qed.

(** the first lambda of [__format_price] on a canonical price *)
Lemma clean_canonical (q : Z) (d1 d2 : ascii) :
  0 <= q -> isdigit d1 = true -> isdigit d2 = true ->
  clean (CStr (dollars q d1 d2))
  = Ok (CStr (decimal q ++ String "." (String d1 (String d2 EmptyString)))).
Proof.
  intros Hq H1 H2. destruct (decimal_read q Hq) as (Hne & Hall & _).
  unfold clean, dollars. cbn [str]. do 2 f_equal.
  set (tail := String "." (String d1 (String d2 EmptyString))).
  change ("." ++ String d1 (String d2 ""))%string with tail.
  assert (Hstrip : strip (strip_chars "$" ("$" ++ commas (decimal q) ++ tail))
                   = (commas (decimal q) ++ tail)%string).
  { destruct (decimal q) as [|c ds] eqn:Ed; [congruence|].
    cbn [all_chars] in Hall. apply andb_true_iff in Hall. destruct Hall as [Hc _].
    destruct (digit_other c Hc) as (_ & _ & Fd & _).
    destruct (digit_other d2 H2) as (_ & _ & Fd2 & _).
    destruct (digit_facts c Hc) as (Fs & _). destruct (digit_facts d2 H2) as (Fs2 & _).
    cbn [commas]. set (mid := if (_ && _)%bool then _ else _).
    change ("$" ++ String c mid ++ tail)%string with (String "$" (String c (mid ++ tail))).
    unfold strip_chars. cbn [lstrip_by mem]. rewrite Ascii.eqb_refl. cbn [orb].
    rewrite Fd. cbn [orb].
    subst tail.
    replace (mid ++ String "." (String d1 (String d2 "")))%string
      with ((mid ++ String "." (String d1 "")) ++ String d2 "")%string
      by (rewrite <- string_app_assoc; reflexivity).
    set (body := (mid ++ String "." (String d1 ""))%string).
    change (String c (body ++ String d2 "")) with (String c body ++ String d2 "")%string.
    rewrite (rstrip_by_last (fun c0 => Ascii.eqb c0 "$" || false) (String c body) d2)
      by (rewrite Fd2; reflexivity).
    change (String c body ++ String d2 "")%string with (String c (body ++ String d2 "")).
    rewrite strip_fixed by assumption.
    subst body. rewrite <- string_app_assoc. reflexivity. }
  rewrite Hstrip, replace_commas by exact Hall.
  assert (Htail : forall x, isdigit x = false -> Ascii.eqb x "." = false ->
                            mem x tail = false).
  { intros x Hx Hp. subst tail. cbn [mem]. rewrite Hp.
    destruct (Ascii.eqb x d1) eqn:E1; [apply Ascii.eqb_eq in E1; congruence|].
    destruct (Ascii.eqb x d2) eqn:E2; [apply Ascii.eqb_eq in E2; congruence|].
    reflexivity. }
  rewrite (replace_none "," "" tail)
    by (apply occurs_in_char, Htail; reflexivity).
  apply replace_none, occurs_in_char. rewrite mem_app.
  rewrite (digits_without " "%char _ eq_refl Hall), (Htail " "%char eq_refl eq_refl).
  reflexivity.
Qed.

Local Close Scope Z_scope.

Lemma one_step (ok : ascii -> bool) (cu : cursor) (k : cursor -> option cursor)
  (c : ascii) (s' : string) :
  rest cu = String c s' -> ok c = true -> one ok cu k = k (step cu s').
Proof. intros Hr Hc. unfold one. rewrite Hr, Hc. reflexivity. Qed.

Lemma one_stop (ok : ascii -> bool) (cu : cursor) (k : cursor -> option cursor) :
  match rest cu with
  | EmptyString => true
  | String c _ => negb (ok c)
  end = true ->
  one ok cu k = None.
Proof.
  unfold one. destruct (rest cu) as [|c s']; intros H; [reflexivity|].
  apply negb_true_iff in H. rewrite H. reflexivity.
Qed.

(** a greedy repetition of a class takes the whole run *)
Lemma star_greedy (i : bool) (p : ascii -> bool) (k : cursor -> option cursor)
  (res : cursor) (t : string) :
  match t with
  | EmptyString => true
  | String c _ => negb (class_matches i p c)
  end = true ->
  forall (w : string) (cu : cursor),
    rest cu = (w ++ t)%string ->
    all_chars (class_matches i p) w = true ->
    k {| rest := t; pos := pos cu + String.length w; spans := spans cu |} = Some res ->
    exec i (Star (OneOf p)) cu k = Some res.
Proof.
  intros Ht w cu Hr Hall Hk. cbn [exec].
  assert (Hf : (String.length w <= String.length (rest cu))%nat).
  { rewrite Hr. clear. induction w; simpl; lia. }
  remember (String.length (rest cu)) as fuel eqn:Ef. clear Ef.
  revert w cu Hr Hall Hk Hf. induction fuel as [|fuel IH]; intros w cu Hr Hall Hk Hf.
  - destruct w; [|simpl in Hf; lia]. destruct cu as [s n sp]. cbn [rest pos spans] in *.
    cbn [append] in Hr. subst s. cbn [String.length] in Hk. rewrite Nat.add_0_r in Hk.
    exact Hk.
  - destruct w as [|c w].
    + rewrite one_stop by (rewrite Hr; exact Ht).
      destruct cu as [s n sp]. cbn [rest pos spans] in *. cbn [append] in Hr. subst s.
      cbn [String.length] in Hk. rewrite Nat.add_0_r in Hk. exact Hk.
    + cbn [all_chars] in Hall. apply andb_true_iff in Hall. destruct Hall as [Hc Hall].
      rewrite (one_step _ cu _ c (w ++ t)) by assumption.
      cbn [pos step]. rewrite (proj2 (Nat.eqb_neq (S (pos cu)) (pos cu))) by lia.
      rewrite (IH w (step cu (w ++ t))).
      * reflexivity.
      * reflexivity.
      * exact Hall.
      * cbn [pos spans step]. cbn [String.length] in Hk.
        rewrite Nat.add_succ_r in Hk. exact Hk.
      * cbn [String.length] in Hf. lia.
Qed.

Lemma search_from_first (i : bool) (r : regex) (whole s : string) (n : nat) (cu : cursor) :
  exec i r {| rest := s; pos := n; spans := [] |} Some = Some cu ->
  search_from i r whole s n
  = Some {| subject := whole; m_start := n; m_end := pos cu; m_spans := spans cu |}.
Proof. intros H. destruct s; cbn [search_from]; rewrite H; reflexivity. Qed.

Lemma substring_all (s : string) : substring 0 (String.length s) s = s.
Proof. induction s as [|c s IH]; [reflexivity|]. cbn [String.length substring]. rewrite IH. reflexivity. Qed.

Lemma length_app (a b : string) :
  String.length (a ++ b) = (String.length a + String.length b)%nat.
Proof. induction a as [|c a IH]; simpl; [reflexivity|]. rewrite IH. reflexivity. Qed.

(** the second lambda of [__format_price] on digits, a point and two
    digits: the whole text is the number *)
Lemma first_number_plain (ds : string) (d1 d2 : ascii) :
  ds <> EmptyString -> all_chars isdigit ds = true ->
  isdigit d1 = true -> isdigit d2 = true ->
  first_number (CStr (ds ++ String "." (String d1 (String d2 EmptyString))))
  = Ok (CStr (ds ++ String "." (String d1 (String d2 EmptyString)))).
Proof.
  intros Hne Hall H1 H2. destruct ds as [|c ds]; [congruence|]. clear Hne.
  cbn [all_chars] in Hall. apply andb_true_iff in Hall. destruct Hall as [Hc Hall].
  set (tail := String "." (String d1 (String d2 EmptyString))).
  set (s := (String c ds ++ tail)%string).
  assert (E : exec false NUMBER_RE {| rest := s; pos := 0; spans := [] |} Some
              = Some {| rest := EmptyString; pos := String.length s; spans := [] |}).
  { unfold NUMBER_RE, Plus, Opt.
    change (exec false (Cat (Cat (OneOf isdigit) ?b) ?c) ?cu Some)
      with (one (class_matches false isdigit) cu
              (fun cu' => exec false b cu' (fun cu'' => exec false c cu'' Some))).
    rewrite (one_step _ _ _ c (ds ++ tail)) by (reflexivity || exact Hc).
    apply (star_greedy false isdigit _ _ tail eq_refl ds); [reflexivity | exact Hall |].
    cbn [pos spans step].
    change (exec false (Cat (Or Dot Empty) ?c) ?cu Some)
      with (orelse (one (fun x => negb (Ascii.eqb x newline)) cu
                      (fun cu' => exec false c cu' Some))
              (exec false c cu Some)).
    rewrite (one_step _ _ _ "."%char (String d1 (String d2 EmptyString)))
      by reflexivity.
    rewrite (star_greedy false isdigit Some
               {| rest := ""; pos := String.length s; spans := [] |}
               EmptyString eq_refl (String d1 (String d2 EmptyString))).
    - reflexivity.
    - reflexivity.
    - cbn [all_chars class_matches]. rewrite H1, H2. reflexivity.
    - cbn [pos spans step String.length]. f_equal. f_equal. subst s tail.
      change (String c ds ++ String "." (String d1 (String d2 "")))%string
        with (String c (ds ++ String "." (String d1 (String d2 "")))).
      cbn [String.length]. rewrite length_app. cbn [String.length]. lia. }
  unfold first_number, search. cbn [str]. fold tail. fold s.
  rewrite (search_from_first _ _ _ _ _ _ E). unfold group0. cbn [m_start m_end subject pos].
  rewrite Nat.sub_0_r, substring_all. reflexivity.
Qed.

Lemma commas_without (x : ascii) (ds : string) :
  isdigit x = false -> Ascii.eqb x "," = false ->
  all_chars isdigit ds = true -> mem x (commas ds) = false.
Proof.
  intros Hx Hc. induction ds as [|c ds IH]; cbn [all_chars]; intros H; [reflexivity|].
  apply andb_true_iff in H. destruct H as [Hd H]. cbn [commas mem].
  assert (E : Ascii.eqb x c = false).
  { destruct (Ascii.eqb x c) eqn:E; [|reflexivity]. apply Ascii.eqb_eq in E. congruence. }
  rewrite E. cbn [orb].
  destruct ((0 <? String.length ds) && (String.length ds mod 3 =? 0))%nat.
  - cbn [append mem]. rewrite Hc. cbn [orb]. apply IH. exact H.
  - apply IH. exact H.
Qed.

(** a canonical price passes the filters of [__format_price] *)
Lemma dollars_priceable (q : Z) (d1 d2 : ascii) :
  (0 <= q)%Z -> isdigit d1 = true -> isdigit d2 = true ->
  mem "-" (dollars q d1 d2) = false /\ has_digit (dollars q d1 d2) = true.
Proof.
  intros Hq H1 H2. destruct (decimal_read q Hq) as (_ & Hall & _).
  destruct (digit_facts d1 H1) as (_ & M1 & _). destruct (digit_facts d2 H2) as (_ & M2 & _).
  unfold dollars. split.
  - cbn [append mem]. rewrite mem_app.
    rewrite (commas_without "-"%char _ eq_refl eq_refl Hall).
    cbn [append mem orb].
    rewrite (Ascii.eqb_sym "-" d1), (Ascii.eqb_sym "-" d2), M1, M2. reflexivity.
  - replace ("$" ++ commas (decimal q) ++ "." ++ String d1 (String d2 ""))%string
      with (("$" ++ commas (decimal q) ++ ".") ++ String d1 (String d2 ""))%string.
    + apply has_digit_app. cbn [has_digit]. rewrite H1. reflexivity.
    + rewrite <- !string_app_assoc. reflexivity.
Qed.

(** ** [__format_price] where every price converts *)

Lemma mapM_on {A B : Type} (f : A -> result B) (h : A -> B) (xs : list A) :
  (forall x, In x xs -> f x = Ok (h x)) -> mapM f xs = Ok (map h xs).
Proof.
  induction xs as [|x xs IH]; intros H; cbn [mapM map]; [reflexivity|].
  rewrite (H x) by (left; reflexivity). cbn [bind].
  rewrite IH by (intros y Hy; apply H; right; exact Hy). reflexivity.
Qed.

Lemma map_combine_map {A B C : Type} (g : A -> B) (f : A * B -> C) (l : list A) :
  map f (combine l (map g l)) = map (fun x => f (x, g x)) l.
Proof. induction l as [|x l IH]; cbn [map combine]; [reflexivity|]. rewrite IH. reflexivity. Qed.

(** a stage of [__format_price] that succeeds on every row *)
Lemma apply_on (l : string) (f : cell -> result cell) (df : DataFrame) (i : nat) :
  index l (columns df) = Some i ->
  (forall r, In r (rows df) -> exists v, f (get i r) = Ok v) ->
  apply l f df
  = Ok (with_rows df
          (map (fun r => put i (match f (get i r) with
                                | Ok v => v
                                | Raise _ => CNone
                                end) r) (rows df))).
Proof.
  intros Hi H. unfold apply. rewrite (loc_index _ _ _ Hi). cbn [bind].
  rewrite (mapM_on _ (fun r => put i (match f (get i r) with
                                      | Ok v => v
                                      | Raise _ => CNone
                                      end) r)); [reflexivity|].
  intros r Hr. destruct (H r Hr) as (v & ->). reflexivity.
Qed.

Lemma assign_where_on (i : nat) (mask : cell -> bool) (f : cell -> result cell)
  (df : DataFrame) :
  (forall v, mask v = true) ->
  (forall r, In r (rows df) -> exists v, f (get i r) = Ok v) ->
  assign_where i mask f df
  = Ok (with_rows df
          (map (fun r => put i (match f (get i r) with
                                | Ok v => v
                                | Raise _ => CNone
                                end) r) (rows df))).
Proof.
  intros Hm H. unfold assign_where.
  rewrite (mapM_on _ (fun r => match f (get i r) with
                               | Ok v => v
                               | Raise _ => CNone
                               end)).
  - cbn [bind]. rewrite map_combine_map. do 2 f_equal.
    apply map_ext. intros r. cbn [fst snd]. rewrite Hm. reflexivity.
  - intros r Hr. destruct (H r Hr) as (v & ->). reflexivity.
Qed.

Lemma format_price_on (T : DataFrame) (p : nat) (out : row -> cell) :
  index COLUMNS_last (columns T) = Some p ->
  (forall r, In r (rows T) ->
     priceable (get p r) = true /\
     exists v1 v2 v3,
       clean (CStr (str (get p r))) = Ok v1 /\ first_number v1 = Ok v2 /\
       to_float v2 = Ok v3 /\ money v3 = Ok (out r)) ->
  __format_price T = Ok (with_rows T (map (fun r => put p (out r) r) (rows T))).
Proof.
  intros Hp H.
  assert (Hrange : forall r, In r (rows T) -> (p < List.length r)%nat).
  { intros r Hr. destruct (H r Hr) as [Hpr _]. unfold priceable in Hpr.
    apply andb_true_iff in Hpr. destruct Hpr as [Hpr _].
    apply andb_true_iff in Hpr. destruct Hpr as [Hna _].
    apply negb_true_iff in Hna. apply get_in_range. exact Hna. }
  assert (Hflt : forall r, In r (rows T) ->
            negb (isna (get p r)) = true /\
            negb (contains DASH_RE (get p (put p (CStr (str (get p r))) r))) = true /\
            contains PRICE_RE (get p (put p (CStr (str (get p r))) r)) = true).
  { intros r Hr. destruct (H r Hr) as [Hpr _]. rewrite <- price_filters in Hpr.
    apply andb_true_iff in Hpr. destruct Hpr as [Hpr H3].
    apply andb_true_iff in Hpr. destruct Hpr as [H1 H2]. auto. }
  unfold __format_price.
  (* dropna *)
  unfold dropna. cbn [mapM]. rewrite (loc_index _ _ _ Hp). cbn [bind forallb].
  rewrite filter_all by (intros r Hr; rewrite andb_true_r; apply (Hflt r Hr)).
  rewrite with_rows_same.
  (* astype *)
  unfold astype_str. rewrite (loc_index _ _ _ Hp). cbn [bind].
  rewrite (loc_index COLUMNS_last (with_rows T _) p) by exact Hp. cbn [bind].
  (* the two filters *)
  unfold where_. cbn [rows with_rows].
  rewrite (filter_all (fun r => negb (contains DASH_RE (get p r)))).
  2:{ intros r' Hr'. apply in_map_iff in Hr'. destruct Hr' as (r & <- & Hr).
      apply (Hflt r Hr). }
  rewrite (filter_all (fun r => contains PRICE_RE (get p r))).
  2:{ intros r' Hr'. apply in_map_iff in Hr'. destruct Hr' as (r & <- & Hr).
      apply (Hflt r Hr). }
  (* the four conversions, row by row *)
  assert (Hrow : forall r, In r (rows T) ->
            exists v1 v2 v3,
              get p (put p (CStr (str (get p r))) r) = CStr (str (get p r)) /\
              clean (CStr (str (get p r))) = Ok v1 /\ first_number v1 = Ok v2 /\
              to_float v2 = Ok v3 /\ money v3 = Ok (out r)).
  { intros r Hr. destruct (H r Hr) as [_ (v1 & v2 & v3 & H1 & H2 & H3 & H4)].
    exists v1, v2, v3. rewrite get_put_same by (apply Hrange; exact Hr). auto. }
  assert (Hget : forall r v (w : row), In r (rows T) -> List.length w = List.length r ->
                          get p (put p v w) = v).
  { intros r v w Hr Hl. apply get_put_same. rewrite Hl. apply Hrange. exact Hr. }
  rewrite assign_where_on.
  2:{ apply digits_spaces_everywhere. }
  2:{ cbn [rows with_rows]. intros r' Hr'. apply in_map_iff in Hr'.
      destruct Hr' as (r & <- & Hr). destruct (Hrow r Hr) as (v1 & _ & _ & -> & E1 & _).
      exists v1. exact E1. }
  cbn [bind rows with_rows]. rewrite map_map.
  rewrite assign_where_on.
  2:{ apply digits_spaces_everywhere. }
  2:{ cbn [rows with_rows]. intros r' Hr'. apply in_map_iff in Hr'.
      destruct Hr' as (r & <- & Hr).
      destruct (Hrow r Hr) as (v1 & v2 & _ & -> & -> & E2 & _).
      rewrite (Hget r) by (rewrite ?length_put; auto).
      exists v2. exact E2. }
  cbn [bind rows with_rows]. rewrite map_map.
  rewrite (apply_on _ to_float _ p).
  2:{ exact Hp. }
  2:{ cbn [rows with_rows]. intros r' Hr'. apply in_map_iff in Hr'.
      destruct Hr' as (r & <- & Hr).
      destruct (Hrow r Hr) as (v1 & v2 & v3 & -> & -> & E2 & E3 & _).
      rewrite !(Hget r) by (rewrite ?length_put; auto).
      cbv iota. rewrite E2. exists v3. exact E3. }
  cbn [bind rows with_rows]. rewrite map_map.
  rewrite (apply_on _ money _ p).
  2:{ exact Hp. }
  2:{ cbn [rows with_rows]. intros r' Hr'. apply in_map_iff in Hr'.
      destruct Hr' as (r & <- & Hr).
      destruct (Hrow r Hr) as (v1 & v2 & v3 & -> & -> & E2 & E3 & E4).
      rewrite !(Hget r) by (rewrite ?length_put; auto).
      cbv iota. rewrite E2. cbv iota. rewrite E3. exists (out r). exact E4. }
  cbn [rows with_rows]. rewrite map_map. unfold with_rows. cbn [columns]. do 2 f_equal.
  apply map_ext_in. intros r Hr.
  destruct (Hrow r Hr) as (v1 & v2 & v3 & -> & -> & E2 & E3 & E4).
  rewrite !(Hget r) by (rewrite ?length_put; auto).
  cbv iota. rewrite E2. cbv iota. rewrite E3. cbv iota. rewrite E4.
  rewrite !put_put. reflexivity.
Qed.

Lemma strip_dollars (q : Z) (d1 d2 : ascii) :
  isdigit d2 = true -> strip (dollars q d1 d2) = dollars q d1 d2.
Proof.
  intros H2. destruct (digit_facts d2 H2) as (Fs & _). unfold dollars.
  replace ("$" ++ commas (decimal q) ++ "." ++ String d1 (String d2 ""))%string
    with (String "$" ((commas (decimal q) ++ String "." (String d1 "")) ++ String d2 "")).
  - apply strip_fixed; [reflexivity | exact Fs].
  - cbn [append]. rewrite <- string_app_assoc. reflexivity.
Qed.

(** the four conversions of [__format_price] on a canonical price *)
Lemma canonical_price_converts (q : Z) (d1 d2 : ascii) :
  (0 <= q < 10 ^ 13)%Z -> isdigit d1 = true -> isdigit d2 = true ->
  priceable (CStr (dollars q d1 d2)) = true /\
  exists v1 v2 v3,
    clean (CStr (str (CStr (dollars q d1 d2)))) = Ok v1 /\ first_number v1 = Ok v2 /\
    to_float v2 = Ok v3 /\ money v3 = Ok (CStr (dollars q d1 d2)).
Proof.
  intros Hq H1 H2. assert (Hq0 : (0 <= q)%Z) by lia.
  destruct (dollars_priceable q d1 d2 Hq0 H1 H2) as [Hm Hd].
  destruct (decimal_read q Hq0) as (Hne & Hall & _).
  split.
  - unfold priceable. cbn [isna str negb andb]. rewrite Hm, Hd. reflexivity.
  - eexists _, _, _. cbn [str]. split; [apply clean_canonical; assumption|].
    split; [apply first_number_plain; assumption|].
    split.
    + cbn [to_float]. rewrite float_of_plain by assumption. reflexivity.
    + apply money_plain; assumption.
Qed.

(** X24.  A table in canonical form is a fixed point of the price
    normalisation of [run] ([__remove_whitespace], then
    [__format_price]): when the labels are all different (so that [Title]
    and [Price] each name one column), every title is text without white
    space around it and every price is [$], the dollars in groups of
    three, a point and two digits, below ten trillion dollars, the table
    is returned as it is.  The canonical text that normalisation writes is
    read back to the same text. *)
Theorem canonical_table_is_fixed (T : DataFrame) :
  has_columns T -> NoDup (columns T) ->
  Forall (fun r =>
            (exists s, title_of T r = CStr s /\ strip s = s) /\
            (exists q d1 d2,
                (0 <= q < 10 ^ 13)%Z /\ isdigit d1 = true /\ isdigit d2 = true /\
                price_of T r = CStr (dollars q d1 d2))) (rows T) ->
  normalise_prices T = Ok T.
Proof.
  intros Hc _ Hall. rewrite Forall_forall in Hall.
  destruct (has_columns_indices T Hc) as (t & p & Ht & Hp & Htp).
  unfold title_of, price_of in Hall. rewrite Ht, Hp in Hall.
  unfold normalise_prices.
  assert (Hws : __remove_whitespace T = Ok T).
  { rewrite (remove_whitespace_rows T t p Ht Hp). f_equal.
    transitivity (with_rows T (rows T)); [|apply with_rows_same]. f_equal.
    transitivity (map (fun r : row => r) (rows T)); [|apply map_id].
    apply map_ext_in. intros r Hr.
    destruct (Hall r Hr) as ((s & Es & Hs) & (q & d1 & d2 & _ & _ & H2 & Ep)).
    rewrite Es, Ep. cbn [str]. rewrite Hs, strip_dollars by exact H2.
    rewrite <- Ep, put_get, <- Es, put_get. reflexivity. }
  rewrite Hws. cbn [bind].
  rewrite (format_price_on T p (fun r => get p r) Hp).
  - f_equal. transitivity (with_rows T (rows T)); [|apply with_rows_same]. f_equal.
    transitivity (map (fun r : row => r) (rows T)); [|apply map_id].
    apply map_ext. intros r. apply put_get.
  - intros r Hr. destruct (Hall r Hr) as (_ & (q & d1 & d2 & Hq & H1 & H2 & Ep)).
    rewrite Ep. apply canonical_price_converts; assumption.
Qed.

Lemma canonical_table_is_fixed_witness :
  normalise_prices (Sample.table [Sample.product "A" (CStr "$1,234.50");
                                  Sample.product "C" (CStr "$5.00")])
  = Ok (Sample.table [Sample.product "A" (CStr "$1,234.50");
                      Sample.product "C" (CStr "$5.00")]).
Proof.
  apply (canonical_table_is_fixed
           (Sample.table [Sample.product "A" (CStr "$1,234.50");
                          Sample.product "C" (CStr "$5.00")])).
  - split; discriminate.
  - repeat constructor; cbn; intuition discriminate.
  - constructor; [|constructor; [|constructor]].
    + split; [exists "A"; split; reflexivity|].
      exists 1234%Z, "5"%char, "0"%char. repeat split; try reflexivity; vm_compute; congruence.
    + split; [exists "C"; split; reflexivity|].
      exists 5%Z, "0"%char, "0"%char. repeat split; try reflexivity; vm_compute; congruence.
Defined.

(** ** Whole prices *)

Local Open Scope Z_scope.

Lemma div_half_even_exact (k D : Z) : 0 < D -> div_half_even (k * D) D = k.
Proof.
  intros HD. unfold div_half_even. rewrite Z.div_mul, Z.mod_mul by lia.
  rewrite (proj2 (Z.ltb_lt (2 * 0) D)) by lia. reflexivity.
Qed.

Lemma div_half_even_one (a : Z) : div_half_even a 1 = a.
Proof.
  unfold div_half_even. rewrite Z.div_1_r, Z.mod_1_r. reflexivity.
Qed.

(** a whole number below [2^53] is a float, and so are its cents *)
Lemma hundredths_whole (q : Z) :
  0 < q < 2 ^ 53 ->
  exists m e, nearest false q 1 = Fin false m e /\ hundredths m e = q * 100.
Proof.
  intros [Hq0 Hq]. unfold nearest. cbv zeta.
  rewrite (proj2 (Z.eqb_neq q 0)) by lia.
  change (Z.log2 1) with 0. rewrite Z.sub_0_r.
  pose proof (Z.log2_spec q Hq0) as [Hlo Hhi].
  assert (Hl : 0 <= Z.log2 q <= 52).
  { split; [apply Z.log2_nonneg|]. apply Z.lt_succ_r. apply Z.log2_lt_pow2; lia. }
  remember (Z.log2 q) as l eqn:El. clear El.
  rewrite (proj2 (Z.leb_le 0 l)) by lia.
  rewrite (proj2 (Z.leb_le (1 * 2 ^ l) q)) by lia.
  assert (He : Z.max (l - 52) emin = l - 52) by (unfold emin; lia).
  rewrite He.
  destruct (0 <=? l - 52) eqn:E.
  - apply Z.leb_le in E. assert (l = 52) by lia. subst l.
    change (52 - 52) with 0. change (1 * 2 ^ 0) with 1.
    rewrite div_half_even_one.
    rewrite (proj2 (Z.eqb_neq q (2 ^ 53))) by lia.
    change (emax <? 0) with false. cbv iota.
    exists q, 0. split; [reflexivity|]. unfold hundredths. cbn [Z.leb Z.compare].
    change (2 ^ 0) with 1. lia.
  - apply Z.leb_gt in E.
    remember (2 ^ (- (l - 52))) as D eqn:ED.
    assert (HD : 0 < D) by (subst D; apply Z.pow_pos_nonneg; lia).
    rewrite div_half_even_one.
    assert (Hm : q * D < 2 ^ 53).
    { replace (2 ^ 53) with (2 ^ Z.succ l * D).
      - apply Z.mul_lt_mono_pos_r; assumption.
      - subst D. rewrite <- Z.pow_add_r by lia. f_equal. lia. }
    rewrite (proj2 (Z.eqb_neq (q * D) (2 ^ 53))) by lia.
    rewrite (proj2 (Z.ltb_ge emax (l - 52))) by (unfold emax; lia).
    exists (q * D), (l - 52). split; [reflexivity|].
    unfold hundredths. rewrite (proj2 (Z.leb_gt 0 (l - 52))) by lia. rewrite <- ED.
    replace (q * D * 100) with (q * 100 * D) by lia.
    apply div_half_even_exact. exact HD.
Qed.

(** ["${:,.2f}".format] of the float of a whole number *)
Lemma money_whole (q : Z) :
  0 <= q < 10 ^ 15 ->
  money (CFloat (of_decimal false q 0)) = Ok (CStr (dollars q "0" "0")).
Proof.
  intros Hq.
  assert (Hfmt : forall m e, hundredths m e = q * 100 ->
                             money (CFloat (Fin false m e)) = Ok (CStr (dollars q "0" "0"))).
  { intros m e Hh. cbn [money format_comma_2f sign_text]. rewrite Hh.
    rewrite Z.div_mul, Z.mod_mul by lia. reflexivity. }
  unfold of_decimal. destruct (q =? 0) eqn:E0.
  - apply Z.eqb_eq in E0. subst q. apply Hfmt. apply hundredths_zero.
  - apply Z.eqb_neq in E0. cbn [Z.leb Z.compare]. change (10 ^ 0) with 1.
    rewrite Z.mul_1_r.
    destruct (hundredths_whole q) as (m & e & -> & Hh).
    + split; [lia|]. change (10 ^ 15) with 1000000000000000 in Hq.
      change (2 ^ 53) with 9007199254740992. lia.
    + apply Hfmt. exact Hh.
Qed.

Local Close Scope Z_scope.

Lemma strip_by_none (p : ascii -> bool) (s : string) :
  all_chars (fun c => negb (p c)) s = true -> lstrip_by p s = s /\ rstrip_by p s = s.
Proof.
  induction s as [|c s IH]; cbn [all_chars]; intros H; [split; reflexivity|].
  apply andb_true_iff in H. destruct H as [Hc H]. apply negb_true_iff in Hc.
  destruct (IH H) as [_ Hr]. cbn [lstrip_by rstrip_by]. rewrite Hc, Hr.
  split; [reflexivity|]. destruct s; reflexivity.
Qed.

Lemma append_empty_r (s : string) : (s ++ "")%string = s.
Proof. induction s as [|c s IH]; simpl; congruence. Qed.

(** [float] of a run of digits *)
Lemma float_of_whole (q : Z) :
  (0 <= q)%Z -> float_of_str (decimal q) = Ok (of_decimal false q 0).
Proof.
  intros Hq. destruct (decimal_read q Hq) as (Hne & Hall & Hread).
  assert (Hstrip : float_strip (decimal q) = decimal q).
  { unfold float_strip.
    assert (Hs : all_chars (fun c => negb (float_space c)) (decimal q) = true).
    { eapply all_chars_impl; [|exact Hall]. intros c Hc.
      rewrite (digit_not_float_space c Hc). reflexivity. }
    destruct (strip_by_none float_space _ Hs) as [-> ->]. reflexivity. }
  unfold float_of_str. rewrite Hstrip.
  specialize (Hread EmptyString 0%Z 0%Z). rewrite append_empty_r in Hread.
  destruct (decimal q) as [|c ds] eqn:Ed; [congruence|]. clear Hne.
  cbn [all_chars] in Hall. apply andb_true_iff in Hall. destruct Hall as [Hc Hds].
  destruct (digit_facts c Hc) as (Fs & Fm & Fp & Fl & Fi & Fn).
  cbn [sign_of]. rewrite Fm, Fp. cbn [str_lower]. rewrite Fl.
  cbn [String.eqb]. rewrite Fi, Fn. cbn [orb andb].
  unfold floatnumber. rewrite digitpart_more by exact Hc.
  rewrite Hread. cbn [more_digits after_point exponent option_map].
  do 2 f_equal.
Qed.

(** the conversions of [__format_price] on a run of digits *)
Lemma whole_price_converts (q : Z) :
  (0 <= q < 10 ^ 15)%Z ->
  priceable (CStr (decimal q)) = true /\
  clean (CStr (decimal q)) = Ok (CStr (decimal q)) /\
  first_number (CStr (decimal q)) = Ok (CStr (decimal q)) /\
  to_float (CStr (decimal q)) = Ok (CFloat (of_decimal false q 0)) /\
  money (CFloat (of_decimal false q 0)) = Ok (CStr (dollars q "0" "0")).
Proof.
  intros Hq. assert (Hq0 : (0 <= q)%Z) by lia.
  destruct (decimal_read q Hq0) as (Hne & Hall & _).
  assert (Hno : forall x, isdigit x = false -> mem x (decimal q) = false).
  { intros x Hx. apply digits_without; assumption. }
  split; [|split; [|split; [|split]]].
  - unfold priceable. cbn [isna str negb andb]. rewrite (Hno "-"%char eq_refl).
    cbn [negb andb]. destruct (decimal q) as [|c ds]; [congruence|].
    cbn [all_chars] in Hall. apply andb_true_iff in Hall. destruct Hall as [Hc _].
    cbn [has_digit]. rewrite Hc. reflexivity.
  - unfold clean. cbn [str]. do 2 f_equal.
    assert (Hd : all_chars (fun c => negb (mem c "$")) (decimal q) = true).
    { eapply all_chars_impl; [|exact Hall]. intros c Hc.
      destruct (digit_other c Hc) as (_ & _ & F & _). cbn [mem]. rewrite F. reflexivity. }
    assert (Hs : all_chars (fun c => negb (isspace c)) (decimal q) = true).
    { eapply all_chars_impl; [|exact Hall]. intros c Hc.
      destruct (digit_facts c Hc) as (-> & _). reflexivity. }
    unfold strip_chars, strip.
    destruct (strip_by_none (fun c => mem c "$") _ Hd) as [-> ->].
    destruct (strip_by_none isspace _ Hs) as [-> ->].
    rewrite (replace_none "," "") by (apply occurs_in_char, Hno; reflexivity).
    apply replace_none, occurs_in_char, Hno. reflexivity.
  - destruct (decimal q) as [|c ds] eqn:Ed; [congruence|].
    cbn [all_chars] in Hall. apply andb_true_iff in Hall. destruct Hall as [Hc Hds].
    assert (E : exec false NUMBER_RE {| rest := String c ds; pos := 0; spans := [] |} Some
                = Some {| rest := EmptyString; pos := String.length (String c ds);
                          spans := [] |}).
    { unfold NUMBER_RE, Plus, Opt.
      change (exec false (Cat (Cat (OneOf isdigit) ?b) ?c) ?cu Some)
        with (one (class_matches false isdigit) cu
                (fun cu' => exec false b cu' (fun cu'' => exec false c cu'' Some))).
      rewrite (one_step _ _ _ c ds) by (reflexivity || exact Hc).
      apply (star_greedy false isdigit _ _ EmptyString eq_refl ds).
      - cbn [rest step]. symmetry. apply append_empty_r.
      - exact Hds.
      - cbn [pos spans step].
        change (exec false (Cat (Or Dot Empty) ?c) ?cu Some)
          with (orelse (one (fun x => negb (Ascii.eqb x newline)) cu
                          (fun cu' => exec false c cu' Some))
                  (exec false c cu Some)).
        rewrite one_stop by reflexivity. cbn [orelse].
        apply (star_greedy false isdigit Some _ EmptyString eq_refl EmptyString);
          [reflexivity | reflexivity |].
        cbn [pos spans String.length]. f_equal. f_equal. lia. }
    unfold first_number, search. cbn [str].
    rewrite (search_from_first _ _ _ _ _ _ E). unfold group0.
    cbn [m_start m_end subject pos]. rewrite Nat.sub_0_r, substring_all. reflexivity.
  - cbn [to_float]. rewrite float_of_whole by exact Hq0. reflexivity.
  - apply money_whole. exact Hq.
Qed.

Lemma Forall2_map_self {A B : Type} (R : A -> B -> Prop) (g : A -> B) (l : list A) :
  (forall x, In x l -> R x (g x)) -> Forall2 R l (map g l).
Proof.
  induction l as [|x l IH]; intros H; cbn [map]; constructor.
  - apply H. left. reflexivity.
  - apply IH. intros y Hy. apply H. right. exact Hy.
Qed.

(** X25.  Whole-number prices come out with a dollar sign, groups of
    three and two zeros.  In a table with a title and a price column, all
    labels different (so that [Title] and [Price] each name one column),
    whose price cells are all whole numbers from 0 up to 10^15 (as a file
    of prices without cents is read), the price normalisation of [run]
    ([__remove_whitespace], then [__format_price]) succeeds, keeps the
    columns and every row in its place, turns each title into its text
    without the white space around it, and each price [q] into [$q.00]
    with a comma before every group of three digits. *)
Theorem whole_prices_get_two_decimals (T : DataFrame) :
  has_columns T -> NoDup (columns T) -> well_formed T ->
  Forall (fun r => exists q, (0 <= q < 10 ^ 15)%Z /\ price_of T r = CInt q) (rows T) ->
  exists T',
    normalise_prices T = Ok T' /\ columns T' = columns T /\
    Forall2 (fun r r' =>
               title_of T' r' = CStr (strip (str (title_of T r))) /\
               exists q, price_of T r = CInt q /\
                         price_of T' r' = CStr (dollars q "0" "0"))
            (rows T) (rows T').
Proof.
  intros Hc _ Hwf Hall. rewrite Forall_forall in Hall.
  unfold well_formed in Hwf. rewrite Forall_forall in Hwf.
  destruct (has_columns_indices T Hc) as (t & p & Ht & Hp & Htp).
  pose proof (index_in_range _ _ _ Ht) as Htl.
  pose proof (index_in_range _ _ _ Hp) as Hpl.
  unfold price_of in Hall. rewrite Hp in Hall.
  set (ws := fun r : row => put t (CStr (strip (str (get t r))))
                              (put p (CStr (strip (str (get p r)))) r)).
  set (out := fun r1 : row =>
                match to_float (get p r1) with
                | Ok v3 => match money v3 with Ok v => v | Raise _ => CNone end
                | Raise _ => CNone
                end).
  assert (Hprice : forall r q, In r (rows T) -> (0 <= q < 10 ^ 15)%Z -> get p r = CInt q ->
                     get p (ws r) = CStr (decimal q)).
  { intros r q Hr Hq E. unfold ws.
    rewrite get_put_other by (intros F; apply Htp; symmetry; exact F).
    rewrite get_put_same by (rewrite (Hwf r Hr); exact Hpl).
    rewrite E. cbn [str]. unfold str_of_int.
    rewrite (proj2 (Z.ltb_ge q 0)) by lia.
    destruct (decimal_read q (proj1 Hq)) as (_ & Hd & _).
    assert (Hs : all_chars (fun c => negb (isspace c)) (decimal q) = true).
    { eapply all_chars_impl; [|exact Hd]. intros c Hc'.
      destruct (digit_facts c Hc') as (-> & _). reflexivity. }
    unfold strip. destruct (strip_by_none isspace _ Hs) as [-> ->]. reflexivity. }
  assert (Hout : forall r q, In r (rows T) -> (0 <= q < 10 ^ 15)%Z -> get p r = CInt q ->
                   out (ws r) = CStr (dollars q "0" "0")).
  { intros r q Hr Hq E. unfold out. rewrite (Hprice r q Hr Hq E).
    destruct (whole_price_converts q Hq) as (_ & _ & _ & -> & ->). reflexivity. }
  exists (with_rows T (map (fun r => put p (out (ws r)) (ws r)) (rows T))).
  split; [|split].
  - unfold normalise_prices. rewrite (remove_whitespace_rows T t p Ht Hp). cbn [bind].
    fold ws. rewrite (format_price_on _ p out).
    + cbn [rows with_rows]. rewrite map_map. reflexivity.
    + exact Hp.
    + cbn [rows with_rows]. intros r1 Hr1. apply in_map_iff in Hr1.
      destruct Hr1 as (r & <- & Hr). destruct (Hall r Hr) as (q & Hq & E).
      rewrite (Hout r q Hr Hq E), (Hprice r q Hr Hq E). cbn [str].
      destruct (whole_price_converts q Hq) as (H0 & H1 & H2 & H3 & H4).
      split; [exact H0|]. eexists _, _, _. eauto.
  - reflexivity.
  - cbn [rows with_rows]. apply Forall2_map_self. intros r Hr.
    destruct (Hall r Hr) as (q & Hq & E).
    unfold title_of, price_of. cbn [columns with_rows]. rewrite Ht, Hp.
    assert (Hlen : List.length (ws r) = List.length r).
    { unfold ws. rewrite !length_put. reflexivity. }
    split.
    + rewrite get_put_other by exact Htp. unfold ws.
      apply get_put_same. rewrite length_put, (Hwf r Hr). exact Htl.
    + exists q. split; [exact E|].
      rewrite get_put_same by (rewrite Hlen, (Hwf r Hr); exact Hpl).
      apply (Hout r q Hr Hq E).
Qed.

Lemma whole_prices_get_two_decimals_witness :
  exists T',
    normalise_prices (Sample.table [Sample.product " A " (CInt 1234); Sample.product "C" (CInt 5)])
    = Ok T' /\
    columns T'
    = columns (Sample.table [Sample.product " A " (CInt 1234); Sample.product "C" (CInt 5)]) /\
    Forall2 (fun r r' =>
               title_of T' r' = CStr (strip (str (title_of (Sample.table [Sample.product " A " (CInt 1234); Sample.product "C" (CInt 5)]) r))) /\
               exists q, price_of (Sample.table [Sample.product " A " (CInt 1234); Sample.product "C" (CInt 5)]) r = CInt q /\
                         price_of T' r' = CStr (dollars q "0" "0"))
            (rows (Sample.table [Sample.product " A " (CInt 1234); Sample.product "C" (CInt 5)]))
            (rows T').
Proof.
  apply (whole_prices_get_two_decimals
           (Sample.table [Sample.product " A " (CInt 1234); Sample.product "C" (CInt 5)])).
  - split; discriminate.
  - repeat constructor; cbn; intuition discriminate.
  - repeat constructor.
  - constructor; [|constructor; [|constructor]].
    + exists 1234%Z. repeat split; try reflexivity; vm_compute; congruence.
    + exists 5%Z. repeat split; try reflexivity; vm_compute; congruence.
Defined.

(** ** When a price is too large for a float *)

Local Open Scope Z_scope.

Lemma div_half_even_ge (a b K : Z) :
  0 <= a -> 0 < b -> Z.even K = true -> (2 * K - 1) * b <= 2 * a ->
  K <= div_half_even a b.
Proof.
  intros Ha Hb HK H. unfold div_half_even.
  pose proof (Z.div_mod a b ltac:(lia)) as E.
  pose proof (Z.mod_pos_bound a b Hb) as Hr.
  remember (a / b) as q eqn:Eq. remember (a mod b) as r eqn:Er. clear Eq Er.
  assert (Hq : K <= q + 1) by nia.
  destruct (2 * r <? b) eqn:E1.
  - apply Z.ltb_lt in E1. nia.
  - apply Z.ltb_ge in E1. destruct (b <? 2 * r) eqn:E2; [lia|].
    apply Z.ltb_ge in E2. destruct (Z.even q) eqn:Ev; [|lia].
    assert (K <> q + 1).
    { intros ->. rewrite Z.even_add, Ev in HK. discriminate HK. }
    lia.
Qed.

(** the exponent that [nearest] works with is that of the quotient *)
Lemma top_spec (num den : Z) :
  0 < num -> 0 < den ->
  let l := Z.log2 num - Z.log2 den in
  let above := if 0 <=? l then den * 2 ^ l <=? num else den <=? num * 2 ^ (- l) in
  let top := if above then l else l - 1 in
  (0 <= top -> den * 2 ^ top <= num < den * 2 ^ (top + 1)) /\ (top < 0 -> num < den).
Proof.
  intros Hn Hd.
  pose proof (Z.log2_spec num Hn) as [Hn1 Hn2].
  pose proof (Z.log2_spec den Hd) as [Hd1 Hd2].
  pose proof (Z.log2_nonneg num) as Ha. pose proof (Z.log2_nonneg den) as Hb.
  remember (Z.log2 num) as a eqn:Ea. remember (Z.log2 den) as b eqn:Eb. clear Ea Eb.
  cbv zeta. destruct (0 <=? a - b) eqn:El.
  - apply Z.leb_le in El.
    assert (Ea : a = b + (a - b)) by lia.
    destruct (den * 2 ^ (a - b) <=? num) eqn:Eab.
    + apply Z.leb_le in Eab. split; [|lia]. intros _. split; [exact Eab|].
      replace (Z.succ a) with (Z.succ b + (a - b)) in Hn2 by lia.
      rewrite Z.pow_add_r in Hn2 by lia.
      replace (a - b + 1) with (Z.succ (a - b)) by lia. rewrite Z.pow_succ_r by lia.
      rewrite Z.pow_succ_r in Hd2, Hn2 by lia.
      assert (0 < 2 ^ (a - b)) by (apply Z.pow_pos_nonneg; lia).
      nia.
    + apply Z.leb_gt in Eab. split.
      * intros Ht. replace (a - b - 1 + 1) with (a - b) by lia. split; [|exact Eab].
        rewrite Ea in Hn1. replace (b + (a - b)) with (Z.succ b + (a - b - 1)) in Hn1 by lia.
        rewrite Z.pow_add_r in Hn1 by lia.
        assert (0 < 2 ^ (a - b - 1)) by (apply Z.pow_pos_nonneg; lia).
        nia.
      * intros Ht. assert (a - b = 0) by lia.
        replace (a - b) with 0 in Eab by lia. change (2 ^ 0) with 1 in Eab. lia.
  - apply Z.leb_gt in El.
    assert (Hlt : num < den).
    { assert (2 ^ Z.succ a <= 2 ^ b) by (apply Z.pow_le_mono_r; lia). lia. }
    split; [|intros _; exact Hlt].
    intros Ht. destruct (den <=? num * 2 ^ (- (a - b))); lia.
Qed.

(** The float nearest to a quotient is infinite exactly from
    [2^1024 - 2^970] on. *)
Lemma nearest_Inf_iff (neg : bool) (num den : Z) :
  0 < num -> 0 < den ->
  (nearest neg num den = Inf neg <-> (2 ^ 1024 - 2 ^ 970) * den <= num).
Proof.
  intros Hn Hd. pose proof (top_spec num den Hn Hd) as Htop.
  unfold nearest. rewrite (proj2 (Z.eqb_neq num 0)) by lia. cbv zeta in *.
  remember (if (if 0 <=? Z.log2 num - Z.log2 den
                then den * 2 ^ (Z.log2 num - Z.log2 den) <=? num
                else den <=? num * 2 ^ (- (Z.log2 num - Z.log2 den)))
            then Z.log2 num - Z.log2 den
            else Z.log2 num - Z.log2 den - 1) as top eqn:Et.
  clear Et. destruct Htop as [Hpos Hneg].
  remember (2 ^ 970) as X eqn:EX.
  assert (HX : 0 < X) by (subst X; apply Z.pow_pos_nonneg; lia).
  assert (E1024 : 2 ^ 1024 = 2 ^ 54 * X).
  { subst X. rewrite <- Z.pow_add_r by lia. reflexivity. }
  assert (E1023 : 2 ^ 1023 = 2 ^ 53 * X).
  { subst X. rewrite <- Z.pow_add_r by lia. reflexivity. }
  assert (E971 : 2 ^ 971 = 2 * X).
  { subst X. rewrite <- (Z.pow_succ_r 2 970) by lia. reflexivity. }
  rewrite E1024.
  destruct (Z.le_gt_cases top 1022) as [Hlow|Hhigh].
  - (* the quotient is below 2^1023 *)
    assert (Hnum : num < 2 ^ 53 * X * den).
    { destruct (Z.lt_ge_cases top 0) as [Ht|Ht].
      - specialize (Hneg Ht). change (2 ^ 53) with 9007199254740992. nia.
      - destruct (Hpos Ht) as [_ Hu].
        assert (2 ^ (top + 1) <= 2 ^ 1023) by (apply Z.pow_le_mono_r; lia).
        rewrite E1023 in *. nia. }
    assert (He : Z.max (top - 52) emin <= 970) by (unfold emin; lia).
    remember (Z.max (top - 52) emin) as e eqn:Ee. clear Ee.
    split.
    + intros H. exfalso.
      destruct ((if 0 <=? e then div_half_even num (den * 2 ^ e)
                 else div_half_even (num * 2 ^ (- e)) den) =? 2 ^ 53);
        [rewrite (proj2 (Z.ltb_ge emax (e + 1))) in H by (unfold emax; lia)
        |rewrite (proj2 (Z.ltb_ge emax e)) in H by (unfold emax; lia)];
        discriminate H.
    + intros H. exfalso. change (2 ^ 53) with 9007199254740992 in Hnum.
      change (2 ^ 54) with 18014398509481984 in H. nia.
  - destruct (Z.eq_dec top 1023) as [->|Hne].
    + (* the quotient is in [2^1023, 2^1024) *)
      destruct (Hpos ltac:(lia)) as [Hl Hu]. change (1023 + 1) with 1024 in Hu.
      rewrite E1023 in Hl. rewrite E1024 in Hu.
      change (Z.max (1023 - 52) emin) with 971. change (0 <=? 971) with true. cbv iota.
      rewrite E971.
      pose proof (div_half_even_bound num (den * (2 * X)) ltac:(lia) ltac:(nia)) as Hb.
      remember (div_half_even num (den * (2 * X))) as m eqn:Em.
      change (2 ^ 54) with 18014398509481984 in *.
      change (2 ^ 53) with 9007199254740992 in *.
      split.
      * intros H. destruct (m =? 9007199254740992) eqn:E53.
        -- apply Z.eqb_eq in E53. nia.
        -- change (emax <? 971) with false in H. discriminate H.
      * intros H.
        assert (Hge : 9007199254740992 <= m).
        { rewrite Em. apply div_half_even_ge; [lia | nia | reflexivity | nia]. }
        assert (Hle : m <= 9007199254740992) by nia.
        rewrite (proj2 (Z.eqb_eq m 9007199254740992)) by lia.
        reflexivity.
    + (* the quotient is 2^1024 or more *)
      destruct (Hpos ltac:(lia)) as [Hl _].
      assert (2 ^ 1024 <= 2 ^ top) by (apply Z.pow_le_mono_r; lia).
      rewrite E1024 in *.
      assert (He : 972 <= Z.max (top - 52) emin) by lia.
      remember (Z.max (top - 52) emin) as e eqn:Ee. clear Ee.
      split.
      * intros _. nia.
      * intros _.
        destruct ((if 0 <=? e then div_half_even num (den * 2 ^ e)
                   else div_half_even (num * 2 ^ (- e)) den) =? 2 ^ 53);
          [rewrite (proj2 (Z.ltb_lt emax (e + 1))) by (unfold emax; lia)
          |rewrite (proj2 (Z.ltb_lt emax e)) by (unfold emax; lia)];
          reflexivity.
Qed.

(** A decimal value is read as an infinite float exactly when it
    [overflows]. *)
Lemma of_decimal_Inf_iff (neg : bool) (mant e10 : Z) :
  0 <= mant ->
  (of_decimal neg mant e10 = Inf neg <-> overflows mant e10 = true).
Proof.
  intros Hm. unfold of_decimal, overflows.
  assert (HT : 0 < 2 ^ 1024 - 2 ^ 970).
  { assert (2 ^ 970 < 2 ^ 1024) by (apply Z.pow_lt_mono_r; lia). lia. }
  destruct (mant =? 0) eqn:E0.
  - apply Z.eqb_eq in E0. subst mant. split; [discriminate|].
    intros H. exfalso. destruct (0 <=? e10) eqn:Ee.
    + apply Z.leb_le in H. lia.
    + apply Z.leb_gt in Ee. apply Z.leb_le in H.
      assert (0 < 10 ^ (- e10)) by (apply Z.pow_pos_nonneg; lia). nia.
  - apply Z.eqb_neq in E0. destruct (0 <=? e10) eqn:Ee.
    + apply Z.leb_le in Ee.
      assert (0 < 10 ^ e10) by (apply Z.pow_pos_nonneg; lia).
      rewrite nearest_Inf_iff by nia. rewrite Z.mul_1_r. symmetry. apply Z.leb_le.
    + apply Z.leb_gt in Ee.
      assert (0 < 10 ^ (- e10)) by (apply Z.pow_pos_nonneg; lia).
      rewrite nearest_Inf_iff by lia. symmetry. apply Z.leb_le.
Qed.

Local Close Scope Z_scope.

(** ** The number that [__format_price] takes from a price *)

Lemma digits_split (s : string) : s = (digits_of s ++ after_digits s)%string.
Proof.
  induction s as [|c s IH]; [reflexivity|]. cbn [digits_of after_digits].
  destruct (isdigit c); [|reflexivity]. cbn [append]. rewrite <- IH. reflexivity.
Qed.

Lemma digits_of_all (s : string) : all_chars isdigit (digits_of s) = true.
Proof.
  induction s as [|c s IH]; [reflexivity|]. cbn [digits_of].
  destruct (isdigit c) eqn:E; [|reflexivity]. cbn [all_chars]. rewrite E, IH. reflexivity.
Qed.

Lemma after_digits_stop (s : string) :
  match after_digits s with
  | EmptyString => true
  | String c _ => negb (isdigit c)
  end = true.
Proof.
  induction s as [|c s IH]; [reflexivity|]. cbn [after_digits].
  destruct (isdigit c) eqn:E; [exact IH|]. rewrite E. reflexivity.
Qed.

(** [r"\d+.?\d*"] at a digit takes the number the text starts with *)
Lemma exec_NUMBER_RE_at (c : ascii) (s' : string) (n : nat) :
  isdigit c = true ->
  exists t,
    String c s' = (number_at (String c s') ++ t)%string /\
    exec false NUMBER_RE {| rest := String c s'; pos := n; spans := [] |} Some
    = Some {| rest := t; pos := n + String.length (number_at (String c s'));
              spans := [] |}.
Proof.
  intros Hc. unfold number_at. cbn [digits_of after_digits]. rewrite Hc.
  pose proof (digits_split s') as Hs. pose proof (digits_of_all s') as Hw.
  pose proof (after_digits_stop s') as Ht.
  remember (digits_of s') as w eqn:Ew. remember (after_digits s') as t eqn:Et.
  clear Ew Et.
  assert (Hfirst : forall res,
             (fun cu => exec false (Cat (Opt Dot) (Star (OneOf isdigit))) cu Some)
               {| rest := t; pos := S n + String.length w; spans := [] |} = Some res ->
             exec false NUMBER_RE {| rest := String c s'; pos := n; spans := [] |} Some
             = Some res).
  { intros res Hk. unfold NUMBER_RE, Plus.
    change (exec false (Cat (Cat (OneOf isdigit) ?b) ?d) ?cu Some)
      with (one (class_matches false isdigit) cu
              (fun cu' => exec false b cu' (fun cu'' => exec false d cu'' Some))).
    rewrite (one_step _ _ _ c s') by (reflexivity || exact Hc).
    apply (star_greedy false isdigit _ res t Ht w); [exact Hs | exact Hw | exact Hk]. }
  assert (Hopt : forall cu,
             exec false (Cat (Opt Dot) (Star (OneOf isdigit))) cu Some
             = orelse (one (fun x => negb (Ascii.eqb x newline)) cu
                         (fun cu' => exec false (Star (OneOf isdigit)) cu' Some))
                 (exec false (Star (OneOf isdigit)) cu Some)).
  { intros cu. reflexivity. }
  destruct t as [|x r].
  - (* the text ends with its digits *)
    exists EmptyString. split.
    + rewrite Hs at 1. cbn [append]. rewrite !append_empty_r. reflexivity.
    + apply Hfirst. cbv beta. rewrite Hopt. rewrite one_stop by reflexivity.
      cbn [orelse].
      apply (star_greedy false isdigit Some _ EmptyString eq_refl EmptyString);
        [reflexivity | reflexivity |].
      cbn [pos spans String.length append]. rewrite append_empty_r.
      do 2 f_equal. cbn [String.length]. lia.
  - destruct (Ascii.eqb x newline) eqn:Ex.
    + (* a newline follows the digits *)
      exists (String x r). split.
      * rewrite Hs at 1. cbn [append]. rewrite append_empty_r. reflexivity.
      * apply Hfirst. cbv beta. rewrite Hopt.
        rewrite one_stop by (cbn [rest]; rewrite Ex; reflexivity).
        cbn [orelse].
        apply (star_greedy false isdigit Some _ (String x r) Ht EmptyString);
          [reflexivity | reflexivity |].
        cbn [pos spans String.length append]. rewrite append_empty_r.
        do 2 f_equal. cbn [String.length]. lia.
    + (* one more character, and the digits behind it *)
      exists (after_digits r). split.
      * rewrite Hs at 1. cbn [append]. f_equal.
        rewrite <- string_app_assoc. f_equal. cbn [append]. f_equal.
        apply digits_split.
      * apply Hfirst. cbv beta. rewrite Hopt.
        rewrite (one_step _ _ _ x r) by (reflexivity || (rewrite Ex; reflexivity)).
        rewrite (star_greedy false isdigit Some
                   {| rest := after_digits r;
                      pos := n + String.length
                                   (String c w ++ String x (digits_of r));
                      spans := [] |}
                   (after_digits r) (after_digits_stop r) (digits_of r)).
        -- reflexivity.
        -- cbn [rest step]. apply digits_split.
        -- apply digits_of_all.
        -- cbn [pos spans step]. do 2 f_equal.
           cbn [String.length append]. rewrite length_app. cbn [String.length]. lia.
Qed.

Lemma exec_NUMBER_RE_none (cu : cursor) :
  match rest cu with
  | EmptyString => true
  | String c _ => negb (isdigit c)
  end = true ->
  exec false NUMBER_RE cu Some = None.
Proof.
  intros H. unfold NUMBER_RE, Plus.
  change (exec false (Cat (Cat (OneOf isdigit) ?b) ?d) ?cu Some)
    with (one (class_matches false isdigit) cu
            (fun cu' => exec false b cu' (fun cu'' => exec false d cu'' Some))).
  apply one_stop. exact H.
Qed.

(** The first match of [r"\d+.?\d*"] in a text is its numeric token. *)
Lemma search_from_NUMBER_RE (whole : string) :
  forall (s pre : string) (n : nat),
    whole = (pre ++ s)%string -> String.length pre = n ->
    option_map group0 (search_from false NUMBER_RE whole s n) = number_token s.
Proof.
  induction s as [|x s IH]; intros pre n Hw Hn.
  - cbn [search_from]. rewrite exec_NUMBER_RE_none by reflexivity. reflexivity.
  - cbn [number_token]. destruct (isdigit x) eqn:Ex.
    + destruct (exec_NUMBER_RE_at x s n Ex) as (t & Hsplit & Hexec).
      rewrite (search_from_first _ _ _ _ _ _ Hexec). cbn [option_map]. f_equal.
      unfold group0. cbn [m_start m_end subject pos].
      remember (number_at (String x s)) as tok eqn:Etok. clear Etok.
      replace (n + String.length tok - n)%nat with (String.length tok) by lia.
      rewrite Hw, Hsplit, <- Hn. apply substring_middle.
    + cbn [search_from].
      rewrite exec_NUMBER_RE_none by (cbn [rest]; rewrite Ex; reflexivity).
      apply (IH (pre ++ String x "")%string (S n)).
      * rewrite append_cons_assoc. exact Hw.
      * rewrite length_append_one. congruence.
Qed.

(** the second lambda of [__format_price]: the numeric token, or the
    [AttributeError] of [None.group()] when the text holds no digit *)
Lemma first_number_token (s : string) :
  first_number (CStr s)
  = match number_token s with
    | Some tok => Ok (CStr tok)
    | None => Raise (AttributeError "'NoneType' object has no attribute 'group'")
    end.
Proof.
  unfold first_number, search. cbn [str].
  rewrite <- (search_from_NUMBER_RE s s EmptyString 0 eq_refl eq_refl).
  destruct (search_from false NUMBER_RE s s 0); reflexivity.
Qed.

Lemma number_token_digit (s tok : string) :
  number_token s = Some tok -> exists c t, tok = String c t /\ isdigit c = true.
Proof.
  induction s as [|x s IH]; cbn [number_token]; [discriminate|].
  destruct (isdigit x) eqn:Ex; [|exact IH].
  intros H. injection H as <-. unfold number_at. cbn [digits_of]. rewrite Ex.
  cbn [append]. eexists _, _. split; [reflexivity | exact Ex].
Qed.

(** [float] of a text that starts with a digit: the decimal value it
    reads, as a float *)
Lemma float_of_str_token (c : ascii) (t : string) (x : float) :
  isdigit c = true -> float_of_str (String c t) = Ok x ->
  exists mant e10,
    floatnumber (float_strip (String c t)) = Some (mant, e10) /\ (0 <= mant)%Z /\
    x = of_decimal false mant e10.
Proof.
  intros Hd. destruct (digit_facts c Hd) as (_ & Hminus & Hplus & Hlow & Hi & Hn).
  pose proof (digit_not_float_space c Hd) as Hsp.
  unfold float_of_str, float_strip. cbn [lstrip_by]. rewrite Hsp.
  assert (Hr : exists t', rstrip_by float_space (String c t) = String c t').
  { cbn [rstrip_by]. destruct (rstrip_by float_space t); rewrite ?Hsp; eexists; reflexivity. }
  destruct Hr as (t' & ->).
  unfold sign_of. rewrite Hminus, Hplus.
  cbn [str_lower]. rewrite Hlow.
  cbn [String.eqb]. rewrite Hi, Hn. cbn [orb].
  destruct (floatnumber (String c t')) as [[mant e10]|] eqn:E; [|discriminate].
  intros H. injection H as <-. exists mant, e10.
  split; [reflexivity|]. split; [|reflexivity].
  exact (floatnumber_nonneg _ _ _ E).
Qed.

(** ** The price that [__format_price] writes *)

Lemma Forall2_filter_left {A B : Type} (f : A -> bool) (R : A -> B -> Prop)
  (l : list A) (l' : list B) :
  Forall2 R (filter f l) l' ->
  Forall2 (fun a b => f a = true /\ R a b) (filter f l) l'.
Proof.
  assert (Hf : Forall (fun a => f a = true) (filter f l)).
  { apply Forall_forall. intros a Ha. apply filter_In in Ha. apply Ha. }
  revert Hf. generalize (filter f l). intros l1 Hf H.
  induction H as [|a b l1 l2 Hab H IH]; constructor.
  - split; [exact (Forall_inv Hf) | exact Hab].
  - apply IH. exact (Forall_inv_tail Hf).
Qed.

(** Row by row: the token of the cleaned price is read as a float, and
    the float is written with a dollar sign. *)
Lemma format_price_steps (df df' : DataFrame) (p : nat) :
  index COLUMNS_last (columns df) = Some p ->
  __format_price df = Ok df' ->
  Forall2 (fun r r' =>
             exists tok x,
               number_token (cleaned (str (get p r))) = Some tok /\
               float_of_str tok = Ok x /\
               r' = put p (CStr ("$" ++ format_comma_2f x)) r)
    (filter (fun r => priceable (get p r)) (rows df)) (rows df').
Proof.
  intros Hp H. unfold __format_price in H.
  bind_in H as d1 H1. bind_in H as d2 H2. bind_in H as i Hi.
  bind_in H as d5 H5. bind_in H as d6 H6. bind_in H as d7 H7.
  pose proof (dropna_columns _ _ _ H1) as C1.
  pose proof (astype_str_columns _ _ _ H2) as C2.
  pose proof (assign_where_columns _ _ _ _ _ H5) as C5. cbn [columns where_ with_rows] in C5.
  pose proof (assign_where_columns _ _ _ _ _ H6) as C6.
  pose proof (apply_columns _ _ _ _ H7) as [C7 _].
  assert (i = p) as ->.
  { apply loc_Ok in Hi. rewrite C2, C1, Hp in Hi. congruence. }
  apply assign_where_Forall2 in H5, H6.
  apply (apply_Forall2 _ _ _ _ p) in H7; [|rewrite C6, C5, C2, C1; exact Hp].
  apply (apply_Forall2 _ _ _ _ p) in H; [|rewrite C7, C6, C5, C2, C1; exact Hp].
  unfold dropna in H1. cbn [mapM] in H1. rewrite (loc_index _ _ _ Hp) in H1.
  cbn [bind forallb] in H1. injection H1 as <-.
  unfold astype_str in H2. rewrite (loc_index COLUMNS_last _ p) in H2 by exact Hp.
  cbn [bind rows with_rows] in H2. injection H2 as <-.
  cbn [rows where_ with_rows] in H5.
  rewrite !filter_of_map, <- !filter_and in H5.
  rewrite (filter_ext _ (fun r => priceable (get p r))) in H5.
  2:{ intros r. rewrite andb_true_r, andb_assoc. apply price_filters. }
  apply Forall2_map_left in H5.
  pose proof (Forall2_compose _ _ _ _ _
                (Forall2_compose _ _ _ _ _ (Forall2_compose _ _ _ _ _ H5 H6) H7) H) as HF.
  apply Forall2_filter_left in HF.
  eapply Forall2_impl; [|exact HF]. cbv beta.
  intros r r' (Hpr & r7 & (r6 & (r5 & (v5 & Hv5 & E5) & (v6 & Hv6 & E6)) & (v7 & Hv7 & E7))
                    & (v & Hv & E)).
  assert (Hlen : (p < List.length r)%nat).
  { apply get_in_range. unfold priceable in Hpr.
    apply andb_true_iff in Hpr. destruct Hpr as [Hpr _].
    apply andb_true_iff in Hpr. destruct Hpr as [Hna _].
    apply negb_true_iff in Hna. exact Hna. }
  rewrite !digits_spaces_everywhere in *.
  rewrite get_put_same in Hv5 by exact Hlen.
  unfold clean in Hv5. cbn [str] in Hv5. injection Hv5 as <-.
  fold (cleaned (str (get p r))) in E5. subst r5.
  rewrite get_put_same in Hv6 by (rewrite length_put; exact Hlen).
  rewrite first_number_token in Hv6.
  destruct (number_token (cleaned (str (get p r)))) as [tok|]; [|discriminate Hv6].
  injection Hv6 as <-. subst r6.
  rewrite get_put_same in Hv7 by (rewrite !length_put; exact Hlen).
  cbn [to_float] in Hv7. bind_in Hv7 as x Hx. injection Hv7 as <-. subst r7.
  rewrite get_put_same in Hv by (rewrite !length_put; exact Hlen).
  cbn [money] in Hv. injection Hv as <-. subst r'.
  exists tok, x. split; [reflexivity|]. split; [exact Hx|].
  rewrite !put_put. reflexivity.
Qed.

(** the price cell after [__remove_whitespace] *)
Lemma trimmed_price (T : DataFrame) (t p : nat) (r : row) :
  index COLUMNS_last (columns T) = Some p -> t <> p ->
  (p < List.length r)%nat ->
  get p (put t (trimmed (get t r)) (put p (trimmed (get p r)) r)) = trimmed (price_of T r).
Proof.
  intros Hp Htp Hlen. unfold price_of. rewrite Hp.
  rewrite get_put_other by (intros E; apply Htp; symmetry; exact E).
  apply get_put_same. exact Hlen.
Qed.

Lemma trimmed_price_short (t p : nat) (r : row) :
  (List.length r <= p)%nat ->
  get p (put t (trimmed (get t r)) (put p (trimmed (get p r)) r)) = CNone.
Proof.
  intros Hlen. unfold get. apply nth_overflow. rewrite !length_put. exact Hlen.
Qed.

(** What price normalisation writes, row by row. *)
Lemma normalise_prices_rows (T T' : DataFrame) :
  normalise_prices T = Ok T' ->
  columns T' = columns T /\
  Forall2
    (fun r r' =>
       exists tok mant e10,
         number_token (cleaned (strip (str (price_of T r)))) = Some tok /\
         floatnumber (float_strip tok) = Some (mant, e10) /\
         price_of T' r' = CStr ("$" ++ format_comma_2f (of_decimal false mant e10)) /\
         (overflows mant e10 = true -> price_of T' r' = CStr "$inf") /\
         (overflows mant e10 = false ->
          exists m e, of_decimal false mant e10 = Fin false m e /\
                      price_of T' r' = CStr ("$" ++ cents_text (hundredths m e))))
    (filter (fun r => priceable (trimmed (price_of T r))) (rows T)) (rows T').
Proof.
  intros H. unfold normalise_prices in H. bind_in H as T1 Hws.
  pose proof (remove_whitespace_columns _ _ Hws) as [Ec1 Hcols].
  pose proof (format_price_columns _ _ H) as [Ec2 _].
  destruct (has_columns_indices T Hcols) as (t & p & Ht & Hp & Htp).
  split; [congruence|].
  rewrite (remove_whitespace_rows T t p Ht Hp) in Hws. injection Hws as <-.
  apply (format_price_steps (with_rows T _) T' p Hp) in H. cbn [rows with_rows] in H.
  set (ws := fun r : row => put t (trimmed (get t r)) (put p (trimmed (get p r)) r)).
  change (map _ (rows T)) with (map ws (rows T)) in H.
  rewrite filter_of_map in H.
  apply (Forall2_map_left
           (fun r1 r' => exists tok x,
                number_token (cleaned (str (get p r1))) = Some tok /\
                float_of_str tok = Ok x /\
                r' = put p (CStr ("$" ++ format_comma_2f x)) r1) ws) in H.
  assert (Hsame : filter (fun r => priceable (get p (ws r))) (rows T)
                  = filter (fun r => priceable (trimmed (price_of T r))) (rows T)).
  { apply filter_ext_in. intros r _.
    destruct (Nat.lt_ge_cases p (List.length r)) as [Hlt|Hge].
    - unfold ws. rewrite (trimmed_price T t p r Hp Htp Hlt). reflexivity.
    - unfold ws. rewrite (trimmed_price_short t p r Hge).
      unfold price_of. rewrite Hp. unfold get. rewrite nth_overflow by exact Hge.
      reflexivity. }
  rewrite Hsame in H. apply Forall2_filter_left in H.
  eapply Forall2_impl; [|exact H]. cbv beta.
  intros r r' (Hpr & tok & x & Htok & Hx & ->).
  assert (Hlt : (p < List.length r)%nat).
  { destruct (Nat.lt_ge_cases p (List.length r)) as [Hlt|Hge]; [exact Hlt|].
    unfold price_of in Hpr. rewrite Hp in Hpr. unfold get in Hpr.
    rewrite nth_overflow in Hpr by exact Hge. discriminate Hpr. }
  unfold ws in Htok. rewrite (trimmed_price T t p r Hp Htp Hlt) in Htok.
  cbn [trimmed str] in Htok.
  destruct (number_token_digit _ _ Htok) as (c & tl & -> & Hc).
  destruct (float_of_str_token c tl x Hc Hx) as (mant & e10 & Hfn & Hm & ->).
  assert (Hprice : price_of T' (put p (CStr ("$" ++ format_comma_2f (of_decimal false mant e10)))
                                  (ws r))
                   = CStr ("$" ++ format_comma_2f (of_decimal false mant e10))).
  { unfold price_of. rewrite Ec2. cbn [columns with_rows]. rewrite Hp.
    apply get_put_same. unfold ws. rewrite !length_put. exact Hlt. }
  exists (String c tl), mant, e10.
  split; [exact Htok|]. split; [exact Hfn|]. split; [exact Hprice|]. split.
  - intros Ho. rewrite Hprice. apply (of_decimal_Inf_iff false mant e10 Hm) in Ho.
    rewrite Ho. reflexivity.
  - intros Ho. destruct (of_decimal_shape false mant e10 Hm) as [Hinf|(m & e & Hfin & _)].
    + apply (of_decimal_Inf_iff false mant e10 Hm) in Hinf. congruence.
    + exists m, e. split; [exact Hfin|]. rewrite Hprice, Hfin. reflexivity.
Qed.

(** C6, as amended.  Price normalisation ([__remove_whitespace], then
    [__format_price]) on a table whose labels are all different keeps, in
    their order, the rows whose price text holds a digit and no hyphen,
    and writes each price as follows.  The numeric token is taken from the
    cleaned text: the first run of digits, one more character unless the
    text ends or a newline follows, and the digits behind it.  [float]
    reads the token as a decimal value [mant * 10^e10], and the price is
    [$] followed by [{:,.2f}] of the float nearest to that value: [$inf]
    exactly when the value is [2^1024 - 2^970] or more, and otherwise the
    float times 100, rounded to whole cents with ties to even, written
    with the dollars in groups of three, a point and two decimals.  The
    four sample prices come out as the claim says, and [1e999] and
    [$2e308] are written [$inf]. *)
Theorem price_normalisation_format :
  (forall T T' : DataFrame,
      NoDup (columns T) -> normalise_prices T = Ok T' ->
      columns T' = columns T /\
      Forall2
        (fun r r' =>
           exists tok mant e10,
             number_token (cleaned (strip (str (price_of T r)))) = Some tok /\
             floatnumber (float_strip tok) = Some (mant, e10) /\
             price_of T' r' = CStr ("$" ++ format_comma_2f (of_decimal false mant e10)) /\
             (overflows mant e10 = true -> price_of T' r' = CStr "$inf") /\
             (overflows mant e10 = false ->
              exists m e, of_decimal false mant e10 = Fin false m e /\
                          price_of T' r' = CStr ("$" ++ cents_text (hundredths m e))))
        (filter (fun r => priceable (trimmed (price_of T r))) (rows T)) (rows T'))
  /\ normalise_prices Sample.four_prices
     = Ok (Sample.table [Sample.product "A" (CStr "$1,234.50");
                         Sample.product "C" (CStr "$5.00")])
  /\ normalise_prices Cases.exponents
     = Ok (Sample.table [Sample.product "A" (CStr "$inf");
                         Sample.product "B" (CStr "$inf");
                         Sample.product "C" (CStr "$1,000.00")]).
Proof.
  split; [|split; vm_compute; reflexivity].
  intros T T' _ H. apply normalise_prices_rows. exact H.
Qed.

Lemma price_normalisation_format_witness :
  columns (Sample.table [Sample.product "A" (CStr "$1,234.50");
                         Sample.product "C" (CStr "$5.00")])
  = columns Sample.four_prices /\
  Forall2
    (fun r r' =>
       exists tok mant e10,
         number_token (cleaned (strip (str (price_of Sample.four_prices r)))) = Some tok /\
         floatnumber (float_strip tok) = Some (mant, e10) /\
         price_of (Sample.table [Sample.product "A" (CStr "$1,234.50");
                                 Sample.product "C" (CStr "$5.00")]) r'
         = CStr ("$" ++ format_comma_2f (of_decimal false mant e10)) /\
         (overflows mant e10 = true ->
          price_of (Sample.table [Sample.product "A" (CStr "$1,234.50");
                                  Sample.product "C" (CStr "$5.00")]) r'
          = CStr "$inf") /\
         (overflows mant e10 = false ->
          exists m e, of_decimal false mant e10 = Fin false m e /\
                      price_of (Sample.table [Sample.product "A" (CStr "$1,234.50");
                                              Sample.product "C" (CStr "$5.00")]) r'
                      = CStr ("$" ++ cents_text (hundredths m e))))
    (filter (fun r => priceable (trimmed (price_of Sample.four_prices r)))
       (rows Sample.four_prices))
    (rows (Sample.table [Sample.product "A" (CStr "$1,234.50");
                         Sample.product "C" (CStr "$5.00")])).
Proof.
  apply (proj1 price_normalisation_format Sample.four_prices).
  - repeat constructor; cbn; intuition discriminate.
  - vm_compute. reflexivity.
Defined.
